(* ===== verification/_CoqProject ===== *)
-Q . S2P
Prelude.v
PyDict.v
PyDate.v
DayRef.v
Calendar.v
Headway.v
Parse.v
StopTimes.v
Tables.v
Report.v
