(* ===== verification/Prelude.v ===== *)
(** * A verification development for [src/scripts/gtfs_faq_summary.py]

    The script reads six GTFS tables, computes for each of the lines
    A, B, C, D, each day type (next weekday, Saturday, Sunday from today)
    and each direction the first departure, last departure, number of trips,
    median and 10th/90th percentile headway and most frequent terminal
    stops, and prints them as JSON.  Its parts and how they interact:
    - the table loaders of [main] read routes, calendar, calendar_dates,
      stops and trips; the trips of routes that are not one of the lines
      are dropped ([Tables.v], Module [Tables]: [load_routes],
      [load_calendar], [load_exceptions], [load_stops], [load_trips]);
    - they call the parsers [parse_yyyymmdd] and, through the scan,
      [parse_time_to_minutes], written over CPython's [int(str)],
      [str.strip], [str.split] and the [strptime] regular expression
      ([Parse.v], Module [Parse]);
    - the scan of [stop_times.txt] keeps, per trip, the first and last
      stop and the first departure ([StopTimes.v], Module [StopTimes]:
      [scan_row], [scan_stop_times], a Section parameterised by the two
      parsers);
    - the day-type reference dates come from the loops [next_weekday],
      [next_saturday], [next_sunday] over CPython's [date] ([DayRef.v],
      [PyDate.v]); the service calendar [is_service_active] decides which
      trips run on a date ([Calendar.v]);
    - the statistics of one bucket ([Headway.v]: [summarize_bucket] with
      [sorted], [statistics.median], [statistics.quantiles], [round] and
      [Counter.most_common]);
    - the report loop over lines, day types and directions, and
      [main_summary], the whole of [main] from the table rows and today's
      date to the summary ([Report.v], Module [Report]);
    - Python's insertion-ordered [dict], for the two dicts whose iteration
      order the code depends on ([PyDict.v]).
    This file holds what they share: Python exceptions as the values of
    [exc] and the result monad [res] with [raise] in [py_scope], [d[k]] as
    [dict_get], the loop [res_foldl] over the rows of a table with its
    invariant principle, integer and decimal formatting helpers, the
    [gtfs] hint databases and the tactics [res_simpl], [zdiv_lia],
    [nat_div_lia] and [int_cases].

    Modelling choices.  Every definition is executable; the sample data of
    each file is evaluated with [vm_compute], up to [main_summary] on a
    small feed.  Python [int] is [Z]; floats ([parse_time_to_minutes],
    the statistics) are exact rationals [Q], so rounding error of floats is
    not modelled.  Strings are ASCII [string]s: [str.isspace] and [\d] are
    their ASCII cases, and [int(str)] strips only the C white space of
    [PyLong_FromString] (codes 9-13 and 32), a smaller set than
    [str.strip]'s.  A table row is a [gmap] from column names to strings.
    [csv.DictReader] gives the missing fields of a row shorter than the
    header the value [None]; such rows are not represented (a missing
    field is a missing key, so [row.get(k)] is [None] as in Python but
    [row[k]] raises [KeyError] where Python would go on with [None]).  Dicts
    that are only read by key are [gmap]s; [route_id_by_short] and
    [trip_meta] are ordered dicts.  [strftime("%Y")] is taken to write four
    digits (as glibc does from year 1000 and as [format_0d 4] does).

    Bounds and fuel.  The day-type loops run on fuel [WEEK = 7]: the
    theorems of [DayRef] prove seven steps always reach the wanted weekday
    or the end of [date]'s range, so the fuel never runs out ([fuel_res]'s
    [None] case is unreachable).  The [date] algorithms are checked over one
    400-year cycle by [vm_compute] and extended by periodicity; the
    [strptime] round trip is checked over the 9999 years, the 12 x 31
    month-day strings and the 8 x 31 strings with a one-digit month.

    Theorems, by group: the calendar (exceptions override, the validity
    window, the weekday flag, unknown services); the day-type loops
    (termination, first matching date, [OverflowError] at the end of the
    range); the statistics (sorted permutation, gaps, median between the
    deciles, round half to even, null headways); the parsers (round trips
    of [int], of ["HH:MM:SS"] and of [YYYYMMDD], the 7-character dates with
    a one-digit month that [strptime] also accepts, errors are
    [ValueError]); the scan (first and last stop as the first row of least
    and greatest sequence, the departure of the first stop, the exact
    source of [first_departure_min] for every row order, which shows that a
    first stop without time keeps an earlier row's departure, the invariant
    of the five dicts, unknown trips dropped); the loaders (only the four lines, complete
    weekday flags, dict order); and the report (the membership test,
    gathering without [KeyError], one bucket per direction with trips,
    no empty bucket, the four lines in order).

    Not modelled: argument parsing, opening the files, [csv.DictReader]'s
    decoding of the text into rows, [date.today()] (an input of
    [main_summary]), [json.dumps] and writing the output: these are I/O of
    the standard library. *)

From stdpp Require Export base list gmap strings option.
From Stdlib Require Export ZArith QArith Qround Lia Lqa Ascii.

(** ** Python exceptions and the result monad

    The script never catches an exception: every [raise] aborts the run.
    A fallible operation therefore returns [res A], either [Ok] with the
    value or [Err] with the class of the exception Python would raise. *)

Inductive exc :=
  | KeyError
  | ValueError
  | OverflowError
  | StatisticsError
  | IndexError.

#[global] Instance exc_eq_dec : EqDecision exc.
Proof. solve_decision. Defined.

Inductive res (A : Type) : Type :=
  | Ok (a : A)
  | Err (e : exc).
Arguments Ok {A} a.
Arguments Err {A} e.

#[global] Instance res_ret : MRet res := λ A a, Ok a.
#[global] Instance res_bind : MBind res :=
  λ A B f r, match r with Ok a => f a | Err e => Err e end.
#[global] Instance res_fmap : FMap res :=
  λ A B f r, match r with Ok a => Ok (f a) | Err e => Err e end.

#[global] Instance res_eq_dec `{EqDecision A} : EqDecision (res A).
Proof. solve_decision. Defined.

Declare Scope py_scope.
Delimit Scope py_scope with py.
(** [raise e] is Python's [raise]; [d[k]] on a dict is [dict_get]. *)
Notation "'raise' e" := (Err e) (at level 10) : py_scope.
Open Scope py_scope.

(** [d[k]]: a dict subscript, raising [KeyError] on a missing key. *)
Definition dict_get `{Countable K} {V} (m : gmap K V) (k : K) : res V :=
  match m !! k with
  | Some v => Ok v
  | None => raise KeyError
  end.

(** [d.get(k, default)]. *)
Definition dict_get_default `{Countable K} {V} (m : gmap K V) (k : K) (dflt : V) : V :=
  default dflt (m !! k).

Create HintDb gtfs.

Lemma dict_get_Some `{Countable K} {V} (m : gmap K V) (k : K) (v : V) :
  m !! k = Some v → dict_get m k = Ok v.
Proof. intros Hk. unfold dict_get. by rewrite Hk. Qed.
Create Rewrite HintDb gtfs_rw.

Lemma bind_Ok {A B} (a : A) (f : A → res B) : (Ok a ≫= f) = f a.
Proof. reflexivity. Qed.

Lemma bind_Err {A B} (e : exc) (f : A → res B) : (Err e ≫= f) = Err e.
Proof. reflexivity. Qed.

Lemma bind_eq_Ok {A B} (r : res A) (f : A → res B) (b : B) :
  (r ≫= f) = Ok b ↔ ∃ a, r = Ok a ∧ f a = Ok b.
Proof.
  destruct r as [a|e]; simpl; split.
  - eauto.
  - intros (a' & [= ->] & ?); done.
  - discriminate.
  - intros (? & ? & _); discriminate.
Qed.

#[export] Hint Rewrite @bind_Ok @bind_Err : gtfs_rw.

(** [res_simpl] rewrites the monadic binds of known results and splits the
    hypotheses [r ≫= f = Ok b] that say a computation succeeded. *)
Ltac res_simpl :=
  repeat first
    [ progress autorewrite with gtfs_rw in *
    | match goal with
      | H : (_ ≫= _) = Ok _ |- _ =>
          apply bind_eq_Ok in H; destruct H as (? & ? & ?)
      end
    | progress simplify_eq ].

(** ** Loops over the rows of a table

    [for row in csv.DictReader(f): body] with a state threaded through the
    body: the first exception ends the loop.  [res_foldl_inv] is the
    induction principle of such a loop for an invariant of its state. *)
Fixpoint res_foldl {A B} (f : A → B → res A) (a : A) (l : list B) : res A :=
  match l with
  | [] => Ok a
  | b :: l' => a' ← f a b; res_foldl f a' l'
  end.

Lemma res_foldl_inv {A B} (P : A → Prop) (f : A → B → res A) (a a' : A) (l : list B) :
  (∀ x b x', P x → f x b = Ok x' → P x') →
  P a → res_foldl f a l = Ok a' → P a'.
Proof.
  intros Hf. revert a. induction l as [|b l IH]; intros a Ha; simpl; [by intros [= <-]|].
  destruct (f a b) as [x|] eqn:E; simpl; [|done]. apply IH. by eapply Hf.
Qed.

(** ** Integer division

    [lia] treats [a / c] and [a mod c] as atoms; [zdiv_lia] first states
    the Euclidean equations of every division of the goal.  On [nat],
    [nat_div_facts] gives the same equations. *)
Ltac zdiv_lia := Z.to_euclidean_division_equations; lia.

Lemma nat_div_facts (n d : nat) : d ≠ 0%nat → (n = d * (n / d) + n mod d ∧ n mod d < d)%nat.
Proof. intros Hd. split; [apply Nat.div_mod_eq | apply Nat.mod_upper_bound; lia]. Qed.

Ltac nat_div_lia :=
  repeat match goal with
  | |- context [(?a / ?b)%nat] =>
      pose proof (nat_div_facts a b ltac:(lia)); set (a / b)%nat in *; set (a mod b)%nat in *
  | H : context [(?a / ?b)%nat] |- _ =>
      pose proof (nat_div_facts a b ltac:(lia)); set (a / b)%nat in *; set (a mod b)%nat in *
  end; lia.

(** [int_cases x lo n] splits the goal into one case per value of [x] in
    [lo .. lo + n - 1], the bounds being provable by [lia]. *)
Ltac int_cases x lo n :=
  let H := fresh in
  assert (H : x ∈ seqZ lo n) by (apply elem_of_seqZ; lia);
  vm_compute in H;
  repeat (apply elem_of_cons in H as [-> | H]);
  [.. | exfalso; by apply not_elem_of_nil in H].

(** ** Exhaustive checks over integer ranges

    Some facts about the Gregorian calendar are checked by evaluating a
    boolean test on every day of one 400-year cycle; [all_in_range] is that
    loop and [all_in_range_spec] turns its result into a universal
    statement. *)

Fixpoint all_in_range (f : Z → bool) (lo : Z) (k : nat) : bool :=
  match k with
  | O => true
  | S k' => f lo && all_in_range f (lo + 1) k'
  end.

Lemma all_in_range_spec (f : Z → bool) (k : nat) (lo n : Z) :
  all_in_range f lo k = true → (lo ≤ n < lo + Z.of_nat k)%Z → f n = true.
Proof.
  revert lo. induction k as [|k IH]; intros lo Hall Hn; simpl in *; [lia |].
  apply andb_true_iff in Hall as [Hlo Hrest].
  destruct (decide (n = lo)) as [->|Hne]; [done |].
  apply (IH (lo + 1)%Z); [done | lia].
Qed.

(** ** Decimal formatting, as Python's [format(n, "0<w>d")]

    [str_of_nat n] is [str(n)] for [n >= 0]; [zfill w s] left-pads with
    ['0'] up to width [w]; [format_0d w n] is [f"{n:0<w>d}"], whose sign,
    when there is one, precedes the padding. *)

Definition digit_char (d : Z) : ascii := ascii_of_nat (48 + Z.to_nat d).

Fixpoint str_of_nat_go (fuel : nat) (n : Z) (acc : string) : string :=
  match fuel with
  | O => acc
  | S fuel' =>
      let acc' := String (digit_char (n mod 10)) acc in
      if (n <? 10)%Z then acc' else str_of_nat_go fuel' (n / 10) acc'
  end.

Definition str_of_nat (n : Z) : string :=
  str_of_nat_go (S (Z.to_nat (Z.log2 n))) n "".

Definition zfill (w : nat) (s : string) : string :=
  String.append (String.concat "" (replicate (w - String.length s) "0")) s.

Definition format_0d (w : nat) (n : Z) : string :=
  if (n <? 0)%Z then String.append "-" (zfill (w - 1) (str_of_nat (- n)))
  else zfill w (str_of_nat n).

Example format_0d_ex : format_0d 2 5 = "05" ∧ format_0d 2 25 = "25"
  ∧ format_0d 4 2024 = "2024" ∧ format_0d 2 (-5) = "-5" ∧ format_0d 2 100 = "100".
Proof. vm_compute. repeat split. Qed.
