(* ===== verification/PyDict.v ===== *)
(** * PyDict: Python's insertion-ordered [dict]

    The script iterates over two dicts, [route_id_by_short.items()] (line
    170) and [trip_meta.items()] (line 225), and the order of those loops
    decides which short name a route gets and the order of the trips in
    a bucket, hence the ties of [Counter.most_common].  A Python dict
    iterates in insertion order, and assigning an existing key keeps its
    place.  [pydict V] is the list of keys in that order beside a [gmap]
    of the values; [pd_wf] is its invariant.  Dicts the script only reads
    by key ([services], [exceptions], the five dicts of the scan) stay
    plain [gmap]s. *)

From S2P Require Import Prelude.

Module PyDict.

Record pydict (V : Type) := mkDict {
  pd_keys : list string;
  pd_map : gmap string V;
}.
Arguments mkDict {V} _ _.
Arguments pd_keys {V} _.
Arguments pd_map {V} _.

Definition pd_empty {V} : pydict V := mkDict [] ∅.

(** [d[k] = v]. *)
Definition pd_set {V} (d : pydict V) (k : string) (v : V) : pydict V :=
  mkDict (if decide (k ∈ pd_keys d) then pd_keys d else pd_keys d ++ [k]) (<[k := v]> (pd_map d)).

(** [d.items()], in iteration order. *)
Definition pd_items {V} (d : pydict V) : list (string * V) :=
  omap (λ k, pair k <$> pd_map d !! k) (pd_keys d).

(** The keys are distinct and are the keys of the map. *)
Definition pd_wf {V} (d : pydict V) : Prop :=
  NoDup (pd_keys d) ∧ ∀ k, k ∈ pd_keys d ↔ is_Some (pd_map d !! k).

Section Laws.
Context {V : Type}.
Implicit Types (d : pydict V) (k : string) (v : V).

Lemma pd_empty_wf : pd_wf (@pd_empty V).
Proof. split; [constructor|]. intros k. simpl. rewrite lookup_empty. split; [by intros ?%not_elem_of_nil|by intros []]. Qed.

Lemma pd_set_wf d k v : pd_wf d → pd_wf (pd_set d k v).
Proof.
  intros [Hnd Hk]. unfold pd_set. case_decide as Hin; split; cbn [pd_keys pd_map].
  - done.
  - intros k'. rewrite Hk. destruct (decide (k = k')) as [<-|Hne].
    + rewrite lookup_insert_eq. split; [done|]. by intros _; apply Hk.
    + by rewrite lookup_insert_ne.
  - apply list.NoDup_app. split; [done|]. split; [|apply NoDup_singleton].
    intros x Hx ->%list_elem_of_singleton. done.
  - intros k'. rewrite elem_of_app, list_elem_of_singleton, Hk.
    destruct (decide (k = k')) as [<-|Hne].
    + rewrite lookup_insert_eq. naive_solver.
    + rewrite lookup_insert_ne by done. naive_solver.
Qed.

Lemma pd_set_lookup d k k' v : pd_map (pd_set d k v) !! k' = <[k := v]> (pd_map d) !! k'.
Proof. done. Qed.

Lemma pd_items_spec d k v : pd_wf d → (k, v) ∈ pd_items d ↔ pd_map d !! k = Some v.
Proof.
  intros [_ Hk]. unfold pd_items. rewrite list_elem_of_omap. split.
  - intros (k' & _ & Hv). destruct (pd_map d !! k') eqn:E; simpl in Hv; simplify_eq. done.
  - intros Hv. exists k. split; [apply Hk; by eexists|]. by rewrite Hv.
Qed.

Lemma pd_items_keys d : pd_wf d → fst <$> pd_items d = pd_keys d.
Proof.
  intros [_ Hk]. unfold pd_items.
  assert (∀ k, k ∈ pd_keys d → is_Some (pd_map d !! k)) as Hin by (intros; by apply Hk).
  clear Hk. induction (pd_keys d) as [|k ks IH]; simpl; [done|].
  destruct (Hin k) as [v Hv]; [left|]. rewrite Hv. simpl. f_equal.
  apply IH. intros k' ?. apply Hin. by right.
Qed.

Lemma omap_insert_present (m : gmap string V) k v (ks : list string) :
  (∀ k', k' ∈ ks → is_Some (m !! k')) →
  omap (λ k', pair k' <$> <[k := v]> m !! k') ks =
    (λ kv : string * V, (kv.1, if decide (kv.1 = k) then v else kv.2)) <$>
      omap (λ k', pair k' <$> m !! k') ks.
Proof.
  induction ks as [|k' ks IH]; intros Hin; csimpl; [done|].
  destruct (Hin k') as [w Hw]; [left|].
  destruct (decide (k' = k)) as [->|Hne].
  - rewrite lookup_insert_eq, Hw. csimpl. rewrite IH by (intros; apply Hin; by right).
    by rewrite decide_True.
  - rewrite lookup_insert_ne, Hw by done. csimpl. rewrite IH by (intros; apply Hin; by right).
    by rewrite decide_False.
Qed.

Lemma omap_insert_absent (m : gmap string V) k v (ks : list string) :
  k ∉ ks → omap (λ k', pair k' <$> <[k := v]> m !! k') ks = omap (λ k', pair k' <$> m !! k') ks.
Proof.
  intros Hk. apply list_omap_ext, Forall_Forall2_diag, Forall_forall.
  intros k' Hk'. rewrite lookup_insert_ne; [done|]. intros ->. by apply Hk, list_elem_of_In.
Qed.

(** [d[k] = v] on a dict: when [k] is already a key its value is
    replaced where it stands and the iteration order does not change;
    otherwise [(k, v)] comes last. *)
Lemma pd_set_items d k v :
  pd_wf d →
  pd_items (pd_set d k v) =
    if decide (k ∈ pd_keys d) then
      (λ kv : string * V, (kv.1, if decide (kv.1 = k) then v else kv.2)) <$> pd_items d
    else pd_items d ++ [(k, v)].
Proof.
  intros [Hnd Hk]. unfold pd_items, pd_set. cbn [pd_keys pd_map]. case_decide as Hin.
  - apply omap_insert_present. intros k' ?. by apply Hk.
  - rewrite omap_app. simpl. rewrite lookup_insert_eq. simpl. f_equal.
    by apply omap_insert_absent.
Qed.

End Laws.


End PyDict.
