(* ===== verification/PyDate.v ===== *)
(** * PyDate: the [datetime.date] values the script computes with

    The script's calendar logic ([next_weekday], [is_service_active], ...)
    runs on Python's [datetime.date].  This file models the part of CPython's
    [date] that the script uses, following the algorithms of CPython's
    [Lib/_pydatetime.py] (the C module computes the same thing):
    [_is_leap], [_days_before_year], [_days_in_month], [_days_before_month],
    [_ymd2ord], [_ord2ymd], the validating constructor, [toordinal],
    [fromordinal], [date + timedelta(days=k)] (which raises [OverflowError]
    outside [1 .. MAXORDINAL]), [weekday()] and the comparison operators.

    The theorems show that [_ord2ymd] inverts [_ymd2ord] on every valid
    date, that date comparison is ordinal comparison, and that adding one
    day moves the ordinal and the weekday by one. *)

From S2P Require Import Prelude.

Module PyDate.
Local Open Scope Z_scope.

Definition MINYEAR : Z := 1.
Definition MAXYEAR : Z := 9999.

Definition is_leap (year : Z) : bool :=
  (year mod 4 =? 0) && (negb (year mod 100 =? 0) || (year mod 400 =? 0)).

(** [_DAYS_IN_MONTH], with the placeholder [-1] at index 0. *)
Definition DAYS_IN_MONTH : list Z :=
  [-1; 31; 28; 31; 30; 31; 30; 31; 31; 30; 31; 30; 31].

(** [_DAYS_BEFORE_MONTH], built by the same running sum as CPython. *)
Fixpoint running_sums (acc : Z) (l : list Z) : list Z :=
  match l with
  | [] => []
  | dim :: l' => acc :: running_sums (acc + dim) l'
  end.

Definition DAYS_BEFORE_MONTH : list Z :=
  -1 :: running_sums 0 (tail DAYS_IN_MONTH).

(** Python's [lst[i]] for the in-range indices these tables are read at. *)
Definition tbl (l : list Z) (i : Z) : Z := nth (Z.to_nat i) l (-1).

Definition days_before_year (year : Z) : Z :=
  let y := year - 1 in
  y * 365 + y / 4 - y / 100 + y / 400.

Definition days_in_month (year month : Z) : Z :=
  if (month =? 2) && is_leap year then 29 else tbl DAYS_IN_MONTH month.

Definition days_before_month (year month : Z) : Z :=
  tbl DAYS_BEFORE_MONTH month + (if (month >? 2) && is_leap year then 1 else 0).

Definition ymd2ord (year month day : Z) : Z :=
  days_before_year year + days_before_month year month + day.

Definition DI400Y : Z := days_before_year 401.
Definition DI100Y : Z := days_before_year 101.
Definition DI4Y : Z := days_before_year 5.

(** [_ord2ymd]: the mutations of [n], [year], [month] and [preceding] of
    the Python code become successive [let]s. *)
Definition ord2ymd (n0 : Z) : Z * Z * Z :=
  let n := n0 - 1 in
  let n400 := n / DI400Y in let n := n mod DI400Y in
  let year := n400 * 400 + 1 in
  let n100 := n / DI100Y in let n := n mod DI100Y in
  let n4 := n / DI4Y in let n := n mod DI4Y in
  let n1 := n / 365 in let n := n mod 365 in
  let year := year + n100 * 100 + n4 * 4 + n1 in
  if (n1 =? 4) || (n100 =? 4) then (year - 1, 12, 31)
  else
    let leapyear := (n1 =? 3) && (negb (n4 =? 24) || (n100 =? 3)) in
    let month0 := Z.shiftr (n + 50) 5 in
    let preceding0 :=
      tbl DAYS_BEFORE_MONTH month0 + (if (month0 >? 2) && leapyear then 1 else 0) in
    let too_large := preceding0 >? n in
    let month := if too_large then month0 - 1 else month0 in
    let preceding :=
      if too_large
      then preceding0 - (tbl DAYS_IN_MONTH month + (if (month =? 2) && leapyear then 1 else 0))
      else preceding0 in
    (year, month, n - preceding + 1).

Definition MAXORDINAL : Z := 3652059.

Record date := mkdate { year : Z; month : Z; day : Z }.

#[global] Instance date_eq_dec : EqDecision date.
Proof. solve_decision. Defined.

(** [_check_date_fields], as a boolean and as the constructor [date(y, m, d)]
    that raises [ValueError]. *)
Definition date_okb (y m d : Z) : bool :=
  (MINYEAR <=? y) && (y <=? MAXYEAR) && (1 <=? m) && (m <=? 12)
  && (1 <=? d) && (d <=? days_in_month y m).

Definition date_ok (d : date) : Prop := date_okb (year d) (month d) (day d) = true.

Definition mk_date (y m d : Z) : res date :=
  if date_okb y m d then Ok (mkdate y m d) else raise ValueError.

Definition toordinal (d : date) : Z := ymd2ord (year d) (month d) (day d).

Definition fromordinal (n : Z) : res date :=
  let '(y, m, d) := ord2ymd n in mk_date y m d.

(** [date + timedelta(days=k)]. *)
Definition date_add (d : date) (k : Z) : res date :=
  let o := toordinal d + k in
  if (0 <? o) && (o <=? MAXORDINAL) then fromordinal o else raise OverflowError.

(** [date.weekday()]: Monday is 0 and Sunday is 6. *)
Definition weekday (d : date) : Z := (toordinal d + 6) mod 7.

(** [date._cmp]: the tuples [(year, month, day)] compared lexicographically. *)
Definition date_compare (a b : date) : comparison :=
  match Z.compare (year a) (year b) with
  | Eq =>
      match Z.compare (month a) (month b) with
      | Eq => Z.compare (day a) (day b)
      | c => c
      end
  | c => c
  end.

Definition date_lt (a b : date) : bool :=
  match date_compare a b with Lt => true | _ => false end.
Definition date_gt (a b : date) : bool := date_lt b a.
Definition date_le (a b : date) : bool := negb (date_lt b a).

(** Helpers of the proofs: the length of a year, and the test run on every
    day of the first 400-year cycle. *)
Definition days_in_year (y : Z) : Z := if is_leap y then 366 else 365.

Definition cycle_ok (n : Z) : bool :=
  let '(y, m, d) := ord2ymd n in date_okb y m d && (y <=? 400) && (ymd2ord y m d =? n).

Example DAYS_BEFORE_MONTH_ex :
  DAYS_BEFORE_MONTH = [-1; 0; 31; 59; 90; 120; 151; 181; 212; 243; 273; 304; 334].
Proof. reflexivity. Qed.

Example cycle_constants : DI400Y = 146097 ∧ DI100Y = 36524 ∧ DI4Y = 1461
  ∧ days_before_year (MAXYEAR + 1) = MAXORDINAL.
Proof. vm_compute. repeat split. Qed.

Example ord_ex : toordinal (mkdate 2024 11 4) = 739194
  ∧ ord2ymd 739194 = (2024, 11, 4) ∧ weekday (mkdate 2024 11 4) = 0
  ∧ date_add (mkdate 9999 12 31) 1 = raise OverflowError
  ∧ date_add (mkdate 2024 2 28) 1 = Ok (mkdate 2024 2 29).
Proof. vm_compute. repeat split. Qed.

Lemma is_leap_shift y q : is_leap (y + 400 * q) = is_leap y.
Proof.
  unfold is_leap.
  replace (y + 400 * q) with (y + (100 * q) * 4) by lia. rewrite Z_mod_plus_full.
  replace (y + 100 * q * 4) with (y + (4 * q) * 100) by lia. rewrite Z_mod_plus_full.
  replace (y + 4 * q * 100) with (y + q * 400) by lia. rewrite Z_mod_plus_full.
  reflexivity.
Qed.
Lemma dby_shift y q : days_before_year (y + 400 * q) = days_before_year y + DI400Y * q.
Proof.
  unfold DI400Y. change (days_before_year 401) with 146097. unfold days_before_year.
  replace (y + 400 * q - 1) with (y - 1 + (100 * q) * 4) by lia. rewrite Z.div_add by lia.
  replace (y - 1 + 100 * q * 4) with (y - 1 + (4 * q) * 100) by lia. rewrite Z.div_add by lia.
  replace (y - 1 + 4 * q * 100) with (y - 1 + q * 400) by lia. rewrite Z.div_add by lia.
  lia.
Qed.
Lemma div_step (k y : Z) : 0 < k ->
  y / k = (y - 1) / k + (if y mod k =? 0 then 1 else 0).
Proof.
  intros Hk.
  pose proof (Z.div_mod y k ltac:(lia)). pose proof (Z.mod_pos_bound y k Hk).
  pose proof (Z.div_mod (y - 1) k ltac:(lia)). pose proof (Z.mod_pos_bound (y - 1) k Hk).
  destruct (Z.eqb_spec (y mod k) 0); nia.
Qed.
Lemma mod_mul_0 y a b : 0 < a -> 0 < b -> y mod (a * b) = 0 -> y mod a = 0.
Proof.
  intros Ha Hb H. apply Z.mod_divide in H; [|lia]. apply Z.mod_divide; [lia|].
  eapply Z.divide_trans; [|exact H]. exists b. lia.
Qed.
Lemma dby_succ y : days_before_year (y + 1) = days_before_year y + days_in_year y.
Proof.
  unfold days_before_year, days_in_year, is_leap. replace (y + 1 - 1) with y by lia.
  rewrite (div_step 4 y), (div_step 100 y), (div_step 400 y) by lia.
  assert (H4 : y mod 100 = 0 -> y mod 4 = 0) by (apply (mod_mul_0 y 4 25); lia).
  assert (H100 : y mod 400 = 0 -> y mod 100 = 0) by (apply (mod_mul_0 y 100 4); lia).
  destruct (Z.eqb_spec (y mod 4) 0), (Z.eqb_spec (y mod 100) 0), (Z.eqb_spec (y mod 400) 0);
    simpl; lia.
Qed.
Lemma ord2ymd_shift r q : 1 <= r <= DI400Y ->
  ord2ymd (r + DI400Y * q) = let '(y, m, d) := ord2ymd r in (y + 400 * q, m, d).
Proof.
  intros Hr. unfold ord2ymd.
  replace (r + DI400Y * q - 1) with ((r - 1) + q * DI400Y) by lia.
  rewrite Z.div_add, Z_mod_plus_full by (vm_compute; congruence).
  rewrite (Z.div_small (r - 1)), (Z.mod_small (r - 1)) by lia.
  destruct (_ || _); [f_equal; f_equal; lia|].
  destruct (_ >? _); f_equal; f_equal; lia.
Qed.

Lemma dbm_mono y m m' : 1 <= m -> m < m' -> m' <= 12 ->
  days_before_month y m + days_in_month y m <= days_before_month y m'.
Proof.
  intros. unfold days_before_month, days_in_month.
  destruct (is_leap y); int_cases m 1 12; int_cases m' 1 12; vm_compute; try lia; congruence.
Qed.

Lemma dbm_bounds y m : 1 <= m <= 12 ->
  0 <= days_before_month y m /\ days_before_month y m + days_in_month y m <= days_in_year y.
Proof.
  intros. unfold days_before_month, days_in_month, days_in_year.
  destruct (is_leap y); int_cases m 1 12; vm_compute; split; congruence.
Qed.

Lemma dby_mono y y' : y <= y' -> days_before_year y <= days_before_year y'.
Proof.
  intros H. replace y' with (y + Z.of_nat (Z.to_nat (y' - y))) by lia.
  induction (Z.to_nat (y' - y)) as [|k IH]; [simpl; rewrite Z.add_0_r; lia|].
  rewrite Nat2Z.inj_succ, <- Z.add_1_r, Z.add_assoc, dby_succ.
  unfold days_in_year. destruct (is_leap _); lia.
Qed.

Lemma date_ok_iff d : date_ok d <->
  1 <= year d <= 9999 /\ 1 <= month d <= 12 /\ 1 <= day d <= days_in_month (year d) (month d).
Proof.
  unfold date_ok, date_okb, MINYEAR, MAXYEAR.
  rewrite !andb_true_iff, !Z.leb_le. tauto.
Qed.

Lemma toordinal_bounds d : date_ok d ->
  days_before_year (year d) + 1 <= toordinal d <= days_before_year (year d + 1).
Proof.
  intros [? [? ?]]%date_ok_iff. unfold toordinal, ymd2ord.
  rewrite dby_succ. pose proof (dbm_bounds (year d) (month d)). lia.
Qed.

Lemma date_compare_ord a b : date_ok a -> date_ok b ->
  date_compare a b = Z.compare (toordinal a) (toordinal b).
Proof.
  intros Ha Hb.
  pose proof (toordinal_bounds a Ha). pose proof (toordinal_bounds b Hb).
  apply date_ok_iff in Ha, Hb.
  destruct a as [ya ma da], b as [yb mb db]; simpl in *.
  unfold date_compare, toordinal, ymd2ord in *; simpl in *.
  destruct (Z.compare_spec ya yb) as [<-|Hy|Hy].
  - destruct (Z.compare_spec ma mb) as [<-|Hm|Hm].
    + symmetry. rewrite <- !Z.add_assoc. rewrite !Z.add_compare_mono_l. reflexivity.
    + pose proof (dbm_mono ya ma mb). symmetry. apply Z.compare_lt_iff. lia.
    + pose proof (dbm_mono ya mb ma). symmetry. apply Z.compare_gt_iff. lia.
  - pose proof (dby_mono (ya + 1) yb). symmetry. apply Z.compare_lt_iff. lia.
  - pose proof (dby_mono (yb + 1) ya). symmetry. apply Z.compare_gt_iff. lia.
Qed.

Lemma toordinal_inj a b : date_ok a -> date_ok b -> toordinal a = toordinal b -> a = b.
Proof.
  intros Ha Hb Heq. pose proof (date_compare_ord a b Ha Hb) as Hc.
  rewrite Heq, Z.compare_refl in Hc. unfold date_compare in Hc.
  destruct a as [ya ma da], b as [yb mb db]; simpl in *.
  destruct (Z.compare_spec ya yb), (Z.compare_spec ma mb), (Z.compare_spec da db);
    subst; congruence.
Qed.

Lemma days_in_month_shift y m q : days_in_month (y + 400 * q) m = days_in_month y m.
Proof. unfold days_in_month. by rewrite is_leap_shift. Qed.

Lemma ymd2ord_shift y m d q : ymd2ord (y + 400 * q) m d = ymd2ord y m d + DI400Y * q.
Proof. unfold ymd2ord, days_before_month. rewrite is_leap_shift, dby_shift. lia. Qed.

Lemma ymd2ord_lower y m d : 1 <= m <= 12 -> 1 <= d -> days_before_year y + 1 <= ymd2ord y m d.
Proof. intros. pose proof (dbm_bounds y m). unfold ymd2ord. lia. Qed.

Lemma mk_date_Ok y m d x : mk_date y m d = Ok x -> x = mkdate y m d /\ date_ok x.
Proof. unfold mk_date, date_ok. destruct (date_okb y m d) eqn:E; intros; simplify_eq; auto. Qed.


Lemma cycle_check : all_in_range cycle_ok 1 (Z.to_nat DI400Y) = true.
Proof. vm_compute. reflexivity. Qed.

Lemma fromordinal_spec n : 1 <= n <= MAXORDINAL ->
  exists d, fromordinal n = Ok d /\ date_ok d /\ toordinal d = n.
Proof.
  intros Hn. assert (HD : DI400Y = 146097) by reflexivity.
  set (q := (n - 1) / DI400Y). set (r := (n - 1) mod DI400Y + 1).
  pose proof (Z.div_mod (n - 1) DI400Y ltac:(rewrite HD; lia)).
  pose proof (Z.mod_pos_bound (n - 1) DI400Y ltac:(rewrite HD; lia)).
  assert (Hnr : n = r + DI400Y * q) by (unfold r, q; lia).
  assert (Hr : 1 <= r <= DI400Y) by (unfold r; lia).
  assert (Hq : 0 <= q <= 24).
  { unfold q. rewrite HD. unfold MAXORDINAL in Hn. split.
    - apply Z.div_pos; lia.
    - apply Z.lt_succ_r, Z.div_lt_upper_bound; lia. }
  pose proof (all_in_range_spec cycle_ok _ 1 r cycle_check ltac:(rewrite HD in *; lia)) as Hc.
  unfold fromordinal. rewrite Hnr, ord2ymd_shift by done.
  unfold cycle_ok in Hc. destruct (ord2ymd r) as [[y m] d].
  apply andb_true_iff in Hc as [[Hok Hy]%andb_true_iff Hrd%Z.eqb_eq]. apply Z.leb_le in Hy.
  assert (Hok' : date_ok (mkdate y m d)) by exact Hok. apply date_ok_iff in Hok'. simpl in Hok'.
  assert (Hshift := ymd2ord_shift y m d q).
  assert (y + 400 * q <= 9999).
  { destruct (Z.le_gt_cases (y + 400 * q) 9999) as [|Hbig]; [done|].
    pose proof (dby_mono 10000 (y + 400 * q) ltac:(lia)).
    pose proof (ymd2ord_lower (y + 400 * q) m d ltac:(lia) ltac:(lia)).
    change (days_before_year 10000) with MAXORDINAL in *. lia. }
  assert (Hok2 : date_okb (y + 400 * q) m d = true).
  { change (date_ok (mkdate (y + 400 * q) m d)). apply date_ok_iff; simpl.
    rewrite days_in_month_shift. lia. }
  unfold mk_date. rewrite Hok2. eexists; split; [done|]. split; [done|].
  unfold toordinal; simpl. lia.
Qed.

Lemma toordinal_range d : date_ok d -> 1 <= toordinal d <= MAXORDINAL.
Proof.
  intros Hd. pose proof (toordinal_bounds d Hd). pose proof Hd as Hd'. apply date_ok_iff in Hd'.
  pose proof (dby_mono 1 (year d) ltac:(lia)). pose proof (dby_mono (year d + 1) 10000 ltac:(lia)).
  change (days_before_year 1) with 0 in *. change (days_before_year 10000) with MAXORDINAL in *.
  lia.
Qed.

Lemma fromordinal_toordinal d : date_ok d -> fromordinal (toordinal d) = Ok d.
Proof.
  intros Hd.
  destruct (fromordinal_spec (toordinal d) (toordinal_range d Hd)) as (d' & Hf & Hok & Ho).
  rewrite Hf. f_equal. apply toordinal_inj; done.
Qed.

Lemma date_add_ok d k : 1 <= toordinal d + k <= MAXORDINAL ->
  exists d', date_add d k = Ok d' /\ date_ok d' /\ toordinal d' = toordinal d + k.
Proof.
  intros Hk. unfold date_add.
  replace ((0 <? toordinal d + k) && (toordinal d + k <=? MAXORDINAL)) with true
    by (symmetry; apply andb_true_iff; lia).
  by apply fromordinal_spec.
Qed.

Lemma date_add_overflow d k : ~ (1 <= toordinal d + k <= MAXORDINAL) ->
  date_add d k = raise OverflowError.
Proof.
  intros Hk. unfold date_add.
  destruct (0 <? toordinal d + k) eqn:E1, (toordinal d + k <=? MAXORDINAL) eqn:E2;
    simpl; try done. lia.
Qed.

Lemma weekday_shift d d' k : toordinal d' = toordinal d + k ->
  weekday d' = (weekday d + k) mod 7.
Proof.
  intros H. unfold weekday. rewrite H, Zplus_mod_idemp_l. f_equal. lia.
Qed.

Lemma weekday_range d : 0 <= weekday d < 7.
Proof. unfold weekday. apply Z.mod_pos_bound. lia. Qed.

Lemma date_le_ord a b : date_ok a -> date_ok b -> date_le a b = (toordinal a <=? toordinal b).
Proof.
  intros Ha Hb. unfold date_le, date_lt. rewrite (date_compare_ord b a Hb Ha).
  destruct (Z.compare_spec (toordinal b) (toordinal a)); symmetry; simpl; apply Z.leb_le || apply Z.leb_gt; lia.
Qed.

Lemma date_lt_ord a b : date_ok a -> date_ok b -> date_lt a b = (toordinal a <? toordinal b).
Proof.
  intros Ha Hb. unfold date_lt. rewrite (date_compare_ord a b Ha Hb).
  destruct (Z.compare_spec (toordinal a) (toordinal b)); symmetry; simpl; apply Z.ltb_lt || apply Z.ltb_ge; lia.
Qed.

Lemma mod7_facts x : x = 7 * (x / 7) + x mod 7 /\ 0 <= x mod 7 < 7.
Proof. split; [apply Z.div_mod | apply Z.mod_pos_bound]; lia. Qed.

(** ** Properties of the date model *)

(** C35: Comparing two valid dates as Python does, by their
    [(year, month, day)] tuples, is comparing the days they denote. *)
Theorem date_compare_is_ordinal a b : date_ok a -> date_ok b ->
  date_compare a b = Z.compare (toordinal a) (toordinal b).
Proof. apply date_compare_ord. Qed.

Lemma date_compare_is_ordinal_witness :
  date_compare (mkdate 2024 12 31) (mkdate 2025 1 1)
  = Z.compare (toordinal (mkdate 2024 12 31)) (toordinal (mkdate 2025 1 1)).
Proof. apply date_compare_is_ordinal; reflexivity. Defined.

(** C36: [date.fromordinal] and [date.toordinal] are inverse bijections
    between the valid dates and the ordinals [1 .. MAXORDINAL]. *)
Theorem ordinal_roundtrip :
  (forall d, date_ok d -> fromordinal (toordinal d) = Ok d) /\
  (forall n, 1 <= n <= MAXORDINAL ->
     exists d, fromordinal n = Ok d /\ date_ok d /\ toordinal d = n).
Proof. split; [apply fromordinal_toordinal | apply fromordinal_spec]. Qed.

Lemma ordinal_roundtrip_witness :
  fromordinal (toordinal (mkdate 2000 2 29)) = Ok (mkdate 2000 2 29).
Proof. apply (proj1 ordinal_roundtrip). reflexivity. Defined.

(** C37: [d + timedelta(days=1)] is the next day, one weekday later, for
    every valid date but the last one, on which it raises [OverflowError]. *)
Theorem date_add_one_day d : date_ok d ->
  (toordinal d < MAXORDINAL ->
     exists d', date_add d 1 = Ok d' /\ date_ok d' /\ toordinal d' = toordinal d + 1 /\
                weekday d' = (weekday d + 1) mod 7) /\
  (toordinal d = MAXORDINAL -> date_add d 1 = raise OverflowError).
Proof.
  intros Hd. pose proof (toordinal_range d Hd). split.
  - intros Hlt. destruct (date_add_ok d 1 ltac:(lia)) as (d' & Hadd & Hok & Ho).
    exists d'. repeat split; try done. by apply weekday_shift.
  - intros Hmax. apply date_add_overflow. lia.
Qed.

Lemma date_add_one_day_witness :
  date_add (mkdate 9999 12 31) 1 = raise OverflowError.
Proof. apply (proj2 (date_add_one_day (mkdate 9999 12 31) ltac:(reflexivity))). reflexivity. Defined.

End PyDate.
