(* ===== verification/DayRef.v ===== *)
(** * DayRef: [next_weekday], [next_saturday], [next_sunday] and [dow_field]

    The three functions of [src/scripts/gtfs_faq_summary.py] (lines 49-67)
    are the same loop, [while cond(d.weekday()): d += timedelta(days=1)],
    with three conditions.  [advance_while] runs that loop with a bound on
    its iterations; the theorems show the bound of 7 is never reached, and
    give the result in closed form: the first date, from [d] on, whose
    weekday is wanted, or [OverflowError] when that date is past
    [date.max]. *)

From S2P Require Import Prelude PyDate.

Module DayRef.
Import PyDate.
Local Open Scope Z_scope.

(** [while cond(d.weekday()): d += timedelta(days=1)], for at most [fuel]
    iterations; [None] only when the bound is reached. *)
Fixpoint advance_while (fuel : nat) (cond : Z → bool) (d : date) : option (res date) :=
  match fuel with
  | O => None
  | S fuel' =>
      if cond (weekday d) then
        match date_add d 1 with
        | Ok d' => advance_while fuel' cond d'
        | Err e => Some (Err e)
        end
      else Some (Ok d)
  end.

(** The loops terminate within a week: seven iterations are enough. *)
Definition WEEK : nat := 7.

Definition next_weekday (from_date : date) : option (res date) :=
  advance_while WEEK (λ wd, 5 <=? wd) from_date.

Definition next_saturday (from_date : date) : option (res date) :=
  advance_while WEEK (λ wd, negb (wd =? 5)) from_date.

Definition next_sunday (from_date : date) : option (res date) :=
  advance_while WEEK (λ wd, negb (wd =? 6)) from_date.

(** [dow_field]: the key of the calendar flags for a date's weekday; the
    list is indexed by [d.weekday()], which is always in range. *)
Definition DOW_FIELDS : list string :=
  ["monday"; "tuesday"; "wednesday"; "thursday"; "friday"; "saturday"; "sunday"].

Definition dow_field (d : date) : string :=
  nth (Z.to_nat (weekday d)) DOW_FIELDS "".

(** The closed form: [k] days later when that date exists, [OverflowError]
    otherwise. *)
Definition advance_result (d : date) (k : Z) : res date :=
  if toordinal d + k <=? MAXORDINAL then fromordinal (toordinal d + k)
  else raise OverflowError.

(** [d'] is the first date from [d] on whose weekday satisfies [wanted]. *)
Definition is_next (wanted : Z → bool) (d d' : date) : Prop :=
  date_ok d' ∧ wanted (weekday d') = true ∧ date_le d d' = true ∧
  ∀ d'', date_ok d'' → date_le d d'' = true → date_lt d'' d' = true →
         wanted (weekday d'') = false.

Definition week_check (cond : Z -> bool) (kf : Z -> Z) : bool :=
  all_in_range (fun wd =>
    let k := kf wd in
    (0 <=? k) && (k <? 7) && all_in_range (fun j => cond ((wd + j) mod 7)) 0 (Z.to_nat k)
    && negb (cond ((wd + k) mod 7))) 0 7.

(** C21: On a date that already has the wanted weekday, each loop returns
    that date unchanged, without iterating. *)
Theorem day_refs_fixed d :
  (weekday d < 5 -> next_weekday d = Some (Ok d)) /\
  (weekday d = 5 -> next_saturday d = Some (Ok d)) /\
  (weekday d = 6 -> next_sunday d = Some (Ok d)).
Proof.
  unfold next_weekday, next_saturday, next_sunday, WEEK; simpl.
  repeat split; intros Hw.
  - by replace (5 <=? weekday d) with false by lia.
  - by rewrite Hw.
  - by rewrite Hw.
Qed.

Lemma advance_while_closed fuel cond d k :
  date_ok d -> 0 <= k < Z.of_nat fuel ->
  (forall j, 0 <= j < k -> cond ((weekday d + j) mod 7) = true) ->
  cond ((weekday d + k) mod 7) = false ->
  advance_while fuel cond d = Some (advance_result d k).
Proof.
  revert d k. induction fuel as [|fuel IH]; intros d k Hd Hk Hbefore Hat; [lia|].
  pose proof (weekday_range d) as Hw. pose proof (toordinal_range d Hd) as Ho. simpl.
  destruct (decide (k = 0)) as [->|Hk0].
  - rewrite Z.add_0_r, Z.mod_small in Hat by lia. rewrite Hat.
    unfold advance_result. rewrite Z.add_0_r, fromordinal_toordinal by done.
    replace (toordinal d <=? MAXORDINAL) with true by lia. done.
  - pose proof (Hbefore 0 ltac:(lia)) as H0. rewrite Z.add_0_r, Z.mod_small in H0 by lia.
    rewrite H0.
    destruct (Z.le_gt_cases (toordinal d + 1) MAXORDINAL) as [Hin|Hout].
    + destruct (date_add_ok d 1 ltac:(lia)) as (d' & -> & Hd' & Ho').
      pose proof (weekday_shift d d' 1 Ho') as Hw'.
      replace (advance_result d k) with (advance_result d' (k - 1))
        by (unfold advance_result; rewrite Ho'; by replace (toordinal d + 1 + (k - 1)) with (toordinal d + k) by lia).
      apply IH; [done | lia | |].
      * intros j Hj. rewrite Hw', Zplus_mod_idemp_l, <- Z.add_assoc. apply Hbefore. lia.
      * rewrite Hw', Zplus_mod_idemp_l. replace (weekday d + 1 + (k - 1)) with (weekday d + k) by lia.
        done.
    + rewrite date_add_overflow by lia. unfold advance_result.
      replace (toordinal d + k <=? MAXORDINAL) with false by lia. done.
Qed.

Lemma advance_result_is_next (wanted : Z -> bool) d k d' :
  date_ok d -> 0 <= k ->
  (forall j, 0 <= j < k -> wanted ((weekday d + j) mod 7) = false) ->
  wanted ((weekday d + k) mod 7) = true ->
  advance_result d k = Ok d' -> is_next wanted d d'.
Proof.
  intros Hd Hk Hbefore Hat. unfold advance_result.
  destruct (toordinal d + k <=? MAXORDINAL) eqn:Hle; [|discriminate]. apply Z.leb_le in Hle.
  pose proof (toordinal_range d Hd).
  destruct (fromordinal_spec (toordinal d + k) ltac:(lia)) as (d0 & -> & Hd0 & Ho0).
  intros [= <-]. split; [done|]. split; [|split].
  - by rewrite (weekday_shift d d0 k Ho0).
  - rewrite date_le_ord by done. apply Z.leb_le. lia.
  - intros d'' Hd'' Hle1 Hlt. rewrite date_le_ord in Hle1 by done. rewrite date_lt_ord in Hlt by done.
    apply Z.leb_le in Hle1. apply Z.ltb_lt in Hlt.
    rewrite (weekday_shift d d'' (toordinal d'' - toordinal d)) by lia. apply Hbefore. lia.
Qed.

Lemma advance_spec (cond wanted : Z -> bool) d k :
  (forall w, cond w = negb (wanted w)) ->
  date_ok d -> 0 <= k < 7 ->
  (forall j, 0 <= j < k -> wanted ((weekday d + j) mod 7) = false) ->
  wanted ((weekday d + k) mod 7) = true ->
  match advance_while WEEK cond d with
  | Some (Ok d') => is_next wanted d d'
  | Some (Err e) => e = OverflowError /\ MAXORDINAL < toordinal d + k
  | None => False
  end.
Proof.
  intros Hcw Hd Hk Hbefore Hat.
  rewrite (advance_while_closed WEEK cond d k); [| done | unfold WEEK; lia | |].
  - destruct (advance_result d k) as [d'|e] eqn:Hr.
    + eapply advance_result_is_next; eauto; lia.
    + unfold advance_result in Hr. destruct (toordinal d + k <=? MAXORDINAL) eqn:Hle.
      * pose proof (toordinal_range d Hd).
        destruct (fromordinal_spec (toordinal d + k) ltac:(lia)) as (? & Hf & _). congruence.
      * injection Hr as <-. split; [done | lia].
  - intros j Hj. rewrite Hcw, Hbefore; done.
  - by rewrite Hcw, Hat.
Qed.

Lemma advance_correct (cond wanted : Z -> bool) (kf : Z -> Z) d :
  (forall w, cond w = negb (wanted w)) -> week_check cond kf = true -> date_ok d ->
  match advance_while WEEK cond d with
  | Some (Ok d') => is_next wanted d d'
  | Some (Err e) => e = OverflowError /\ MAXORDINAL < toordinal d + kf (weekday d)
  | None => False
  end.
Proof.
  intros Hcw Hchk Hd. pose proof (weekday_range d) as Hw.
  pose proof (all_in_range_spec _ 7 0 (weekday d) Hchk ltac:(simpl; lia)) as Hwd. simpl in Hwd.
  apply andb_true_iff in Hwd as [[[Hk0 Hk7]%andb_true_iff Hall]%andb_true_iff Hat].
  apply Z.leb_le in Hk0. apply Z.ltb_lt in Hk7.
  apply advance_spec; [done | done | lia | |].
  - intros j Hj. pose proof (all_in_range_spec _ _ 0 j Hall ltac:(lia)) as Hj'. simpl in Hj'.
    rewrite Hcw in Hj'. by destruct (wanted _).
  - rewrite Hcw in Hat. by destruct (wanted _).
Qed.

(** C6: [next_weekday] terminates on every valid date, never raises, and
    returns the first date from [d] on that falls Monday to Friday. *)
Theorem next_weekday_spec d : date_ok d ->
  exists d', next_weekday d = Some (Ok d') /\ is_next (fun w => w <? 5) d d'.
Proof.
  intros Hd. pose proof (toordinal_range d Hd) as Ho.
  pose proof (advance_correct (fun wd => 5 <=? wd) (fun w => w <? 5)
                (fun wd => if 5 <=? wd then 7 - wd else 0) d (fun w => Z.leb_antisym w 5)
                ltac:(reflexivity) Hd) as H.
  unfold next_weekday. destruct (advance_while WEEK _ d) as [[d'|e]|]; [eauto | exfalso | done].
  destruct H as [_ Hover]. unfold weekday, MAXORDINAL in *.
  pose proof (mod7_facts (toordinal d + 6)).
  destruct (5 <=? _) eqn:E; [apply Z.leb_le in E|]; lia.
Qed.

Lemma next_dow_spec (w0 : Z) (last : date) d :
  week_check (fun wd => negb (wd =? w0)) (fun wd => (w0 - wd) mod 7) = true ->
  date_ok last -> toordinal last = MAXORDINAL - 6 + (w0 - 5) ->
  0 <= w0 - 5 < 2 -> date_ok d ->
  match advance_while WEEK (fun wd => negb (wd =? w0)) d with
  | Some (Ok d') => is_next (fun w => w =? w0) d d'
  | Some (Err e) => e = OverflowError /\ date_lt last d = true
  | None => False
  end.
Proof.
  intros Hchk Hlast Hlo Hw0 Hd.
  pose proof (advance_correct _ (fun w => w =? w0) _ d (fun w => eq_refl) Hchk Hd) as H.
  destruct (advance_while WEEK _ d) as [[d'|e]|]; try done.
  destruct H as [He Hover]. split; [done|].
  rewrite date_lt_ord by done. apply Z.ltb_lt.
  pose proof (toordinal_range d Hd). unfold weekday, MAXORDINAL in *.
  pose proof (mod7_facts (toordinal d + 6)).
  pose proof (mod7_facts (w0 - (toordinal d + 6) mod 7)). lia.
Qed.

(** C16: [next_saturday] terminates on every valid date; it returns the first
    Saturday from [d] on, or raises [OverflowError] exactly when [d] is after
    the last Saturday of the calendar, 9999-12-25. *)
Theorem next_saturday_spec d : date_ok d ->
  match next_saturday d with
  | Some (Ok d') => is_next (fun w => w =? 5) d d'
  | Some (Err e) => e = OverflowError /\ date_lt (mkdate 9999 12 25) d = true
  | None => False
  end.
Proof. apply next_dow_spec; reflexivity || lia. Qed.

(** C20: [next_sunday] terminates on every valid date; it returns the first
    Sunday from [d] on, or raises [OverflowError] exactly when [d] is after
    9999-12-26. *)
Theorem next_sunday_spec d : date_ok d ->
  match next_sunday d with
  | Some (Ok d') => is_next (fun w => w =? 6) d d'
  | Some (Err e) => e = OverflowError /\ date_lt (mkdate 9999 12 26) d = true
  | None => False
  end.
Proof. apply next_dow_spec; reflexivity || lia. Qed.

Lemma next_weekday_spec_witness :
  ∃ d', next_weekday (mkdate 2024 11 9) = Some (Ok d') ∧ is_next (fun w => w <? 5) (mkdate 2024 11 9) d'.
Proof. apply next_weekday_spec. reflexivity. Defined.

Lemma next_saturday_spec_witness :
  match next_saturday (mkdate 9999 12 28) with
  | Some (Ok d') => is_next (fun w => w =? 5) (mkdate 9999 12 28) d'
  | Some (Err e) => e = OverflowError /\ date_lt (mkdate 9999 12 25) (mkdate 9999 12 28) = true
  | None => False
  end.
Proof. apply next_saturday_spec. reflexivity. Defined.

Lemma next_sunday_spec_witness :
  match next_sunday (mkdate 2024 11 4) with
  | Some (Ok d') => is_next (fun w => w =? 6) (mkdate 2024 11 4) d'
  | Some (Err e) => e = OverflowError /\ date_lt (mkdate 9999 12 26) (mkdate 2024 11 4) = true
  | None => False
  end.
Proof. apply next_sunday_spec. reflexivity. Defined.

Lemma day_refs_fixed_witness :
  next_weekday (mkdate 2024 11 4) = Some (Ok (mkdate 2024 11 4)) ∧
  next_saturday (mkdate 2024 11 9) = Some (Ok (mkdate 2024 11 9)) ∧
  next_sunday (mkdate 2024 11 10) = Some (Ok (mkdate 2024 11 10)).
Proof.
  split; [|split]; apply day_refs_fixed; reflexivity.
Defined.

End DayRef.
