(* ===== verification/Calendar.v ===== *)
(** * Calendar: the service calendar of [src/scripts/gtfs_faq_summary.py]

    [CalendarService] (lines 82-86), [format_yyyymmdd] (lines 45-46),
    [is_service_active] (lines 89-108) and [daytypes_from_service]
    (lines 26-38).  The dicts [services], [exceptions] and the per-service
    [flags] are [gmap]s with the same keys as in Python: service ids,
    pairs [(service_id, "YYYYMMDD")] and weekday names.

    The theorems show that an exception of type 1 or 2 decides the answer
    whatever the weekly pattern says, that a date outside the validity
    window or an unknown service is inactive, that inside the window the
    flag of the date's own weekday decides, and which keys of [exceptions]
    the answer depends on. *)

From S2P Require Import Prelude PyDate DayRef.

Module Calendar.
Import PyDate DayRef.
Local Open Scope Z_scope.

(** [date.strftime("%Y%m%d")]; the year is written with four digits, which
    every platform does for the years 1000 to 9999. *)
Definition format_yyyymmdd (value : date) : string :=
  format_0d 4 (year value) +:+ format_0d 2 (month value) +:+ format_0d 2 (day value).

(** [@dataclass(frozen=True) class CalendarService]. *)
Record CalendarService := {
  start_date : date;
  end_date : date;
  flags : gmap string Z;
}.

Definition services_t := gmap string CalendarService.
Definition exceptions_t := gmap (string * string) Z.

Definition is_service_active (services : gmap string CalendarService)
    (exceptions : gmap (string * string) Z) (service_id : string) (d : date) : bool :=
  let ymd := format_yyyymmdd d in
  let exception_type := exceptions !! (service_id, ymd) in
  if decide (exception_type = Some 1) then true
  else if decide (exception_type = Some 2) then false
  else
    match services !! service_id with
    | None => false
    | Some svc =>
        if date_lt d (start_date svc) || date_gt d (end_date svc) then false
        else bool_decide (dict_get_default (flags svc) (dow_field d) 0 ≠ 0)
    end.

(** [daytypes_from_service]: [flags[d]] raises [KeyError] on a missing day,
    and [any] stops at the first weekday whose flag is set. *)
Fixpoint py_any_flag (flags : gmap string Z) (days : list string) : res bool :=
  match days with
  | [] => Ok false
  | d :: rest =>
      v ← dict_get flags d;
      if decide (v ≠ 0) then Ok true else py_any_flag flags rest
  end.

Definition WEEKDAYS : list string := ["monday"; "tuesday"; "wednesday"; "thursday"; "friday"].

Definition daytypes_from_service (calendar : gmap string (gmap string Z)) (service_id : string)
    : res (list string) :=
  match calendar !! service_id with
  | None => Ok []
  | Some flags =>
      if decide (flags = ∅) then Ok [] else
      (wk ← py_any_flag flags WEEKDAYS;
       sat ← dict_get flags "saturday";
       sun ← dict_get flags "sunday";
       Ok ((if (wk : bool) then ["weekday"] else [])
           ++ (if decide (sat ≠ 0) then ["saturday"] else [])
           ++ (if decide (sun ≠ 0) then ["sunday"] else [])))
  end.

(** Sample data for the witnesses: service ["S"] runs on Mondays of 2024;
    it is added on Saturday 2024-03-02, removed on Monday 2024-03-04, and has
    a row of the unknown type 3 on Monday 2024-03-11. *)
Definition ex_service : CalendarService := {|
  start_date := mkdate 2024 1 1;
  end_date := mkdate 2024 12 31;
  flags := <["monday" := 1]> (<["saturday" := 0]> ∅) |}.

Definition ex_services : gmap string CalendarService := <["S" := ex_service]> ∅.

Definition ex_exceptions : gmap (string * string) Z :=
  <[("S", "20240302") := 1]> (<[("S", "20240304") := 2]> (<[("S", "20240311") := 3]> ∅)).

Example format_ex : format_yyyymmdd (mkdate 2024 3 9) = "20240309".
Proof. reflexivity. Qed.

Section Resolver.
Context (services : gmap string CalendarService) (exceptions : gmap (string * string) Z).
Context (service_id : string) (d : date).

Lemma is_service_active_no_exception :
  exceptions !! (service_id, format_yyyymmdd d) ≠ Some 1 →
  exceptions !! (service_id, format_yyyymmdd d) ≠ Some 2 →
  is_service_active services exceptions service_id d =
    match services !! service_id with
    | None => false
    | Some svc =>
        if date_lt d (start_date svc) || date_gt d (end_date svc) then false
        else bool_decide (dict_get_default (flags svc) (dow_field d) 0 ≠ 0)
    end.
Proof. intros H1 H2. unfold is_service_active. by do 2 (rewrite decide_False; [|done]). Qed.

(** C1: An exception row of type 1 or 2 for (service, date) decides the
    answer, whatever the weekly flags and the validity window say: type 1
    makes the service active, type 2 inactive. *)
Theorem exception_overrides (t : Z) :
  exceptions !! (service_id, format_yyyymmdd d) = Some t → t = 1 ∨ t = 2 →
  is_service_active services exceptions service_id d = bool_decide (t = 1).
Proof.
  intros Ht [-> | ->]; unfold is_service_active; rewrite Ht.
  - by rewrite decide_True.
  - by rewrite decide_False, decide_True.
Qed.

(** C19: Without an exception of type 1, a service id absent from
    [calendar.txt] is inactive (fail-safe default, no [KeyError]). *)
Theorem unknown_service_inactive :
  exceptions !! (service_id, format_yyyymmdd d) ≠ Some 1 →
  services !! service_id = None →
  is_service_active services exceptions service_id d = false.
Proof.
  intros H1 Hs. unfold is_service_active.
  rewrite decide_False by done. case_decide; [done|]. by rewrite Hs.
Qed.

(** C2: Without an exception of type 1, a date before [start_date] or
    after [end_date] is inactive; the comparison of [date] objects is the
    comparison of the days they denote. *)
Theorem outside_window_inactive svc :
  exceptions !! (service_id, format_yyyymmdd d) ≠ Some 1 →
  services !! service_id = Some svc →
  date_ok d → date_ok (start_date svc) → date_ok (end_date svc) →
  toordinal d < toordinal (start_date svc) ∨ toordinal (end_date svc) < toordinal d →
  is_service_active services exceptions service_id d = false.
Proof.
  intros H1 Hs Hd Hst Hen Hout. unfold is_service_active.
  rewrite decide_False by done. case_decide; [done|]. rewrite Hs.
  unfold date_gt. rewrite !date_lt_ord by done.
  by replace (_ || _) with true by lia.
Qed.

(** C3: Without exception, inside the window the answer is the flag of the
    date's own weekday ([d.weekday()] indexes [monday .. sunday]), a missing
    flag counting as 0. *)
Theorem in_window_weekday_flag svc name :
  exceptions !! (service_id, format_yyyymmdd d) ≠ Some 1 →
  exceptions !! (service_id, format_yyyymmdd d) ≠ Some 2 →
  services !! service_id = Some svc →
  date_ok d → date_ok (start_date svc) → date_ok (end_date svc) →
  toordinal (start_date svc) ≤ toordinal d ≤ toordinal (end_date svc) →
  DOW_FIELDS !! Z.to_nat (weekday d) = Some name →
  is_service_active services exceptions service_id d =
    bool_decide (default 0 (flags svc !! name) ≠ 0).
Proof.
  intros H1 H2 Hs Hd Hst Hen Hin Hname. rewrite is_service_active_no_exception, Hs by done.
  unfold date_gt. rewrite !date_lt_ord by done.
  replace (_ || _) with false by lia.
  unfold dict_get_default, dow_field. by rewrite (nth_lookup_Some _ _ _ _ Hname).
Qed.

End Resolver.

(** C34: The answer reads [exceptions] at the key [(service_id, ymd)] only:
    a row for any other key does not change it. *)
Theorem exceptions_frame services exceptions service_id d k v :
  k ≠ (service_id, format_yyyymmdd d) →
  is_service_active services (<[k := v]> exceptions) service_id d =
  is_service_active services exceptions service_id d.
Proof. intros Hk. unfold is_service_active. by rewrite lookup_insert_ne by done. Qed.

(** C33: An exception row whose type is neither 1 nor 2 is ignored: the
    answer is the one without that row. *)
Theorem other_exception_type_ignored services exceptions service_id d t :
  exceptions !! (service_id, format_yyyymmdd d) = Some t → t ≠ 1 → t ≠ 2 →
  is_service_active services exceptions service_id d =
  is_service_active services (delete (service_id, format_yyyymmdd d) exceptions) service_id d.
Proof.
  intros Ht H1 H2.
  rewrite !is_service_active_no_exception; rewrite ?lookup_delete_eq, ?Ht; done || congruence.
Qed.


Lemma exception_overrides_witness :
  is_service_active ex_services ex_exceptions "S" (mkdate 2024 3 2) = bool_decide (1 = 1)
  ∧ is_service_active ex_services ex_exceptions "S" (mkdate 2024 3 4) = bool_decide (2 = 1).
Proof.
  split; [apply (exception_overrides _ _ _ _ 1) | apply (exception_overrides _ _ _ _ 2)];
    (reflexivity || (left; reflexivity) || (right; reflexivity)).
Defined.

Lemma unknown_service_inactive_witness :
  is_service_active ex_services ex_exceptions "X" (mkdate 2024 3 2) = false.
Proof. apply unknown_service_inactive; vm_compute; congruence. Defined.

Lemma outside_window_inactive_witness :
  is_service_active ex_services ex_exceptions "S" (mkdate 2025 1 6) = false.
Proof.
  apply (outside_window_inactive _ _ _ _ ex_service); vm_compute; try reflexivity; try congruence.
  right. reflexivity.
Defined.

Lemma in_window_weekday_flag_witness :
  is_service_active ex_services ex_exceptions "S" (mkdate 2024 3 18)
  = bool_decide (default 0 (flags ex_service !! "monday") ≠ 0).
Proof.
  apply in_window_weekday_flag; vm_compute; try reflexivity; try congruence.
  split; congruence.
Defined.

Lemma exceptions_frame_witness :
  is_service_active ex_services (<[("S", "20240101") := 2]> ex_exceptions) "S" (mkdate 2024 3 18)
  = is_service_active ex_services ex_exceptions "S" (mkdate 2024 3 18).
Proof. apply exceptions_frame. vm_compute. congruence. Defined.

Lemma other_exception_type_ignored_witness :
  is_service_active ex_services ex_exceptions "S" (mkdate 2024 3 11)
  = is_service_active ex_services (delete ("S", format_yyyymmdd (mkdate 2024 3 11)) ex_exceptions)
      "S" (mkdate 2024 3 11).
Proof. apply (other_exception_type_ignored _ _ _ _ 3); [reflexivity | lia | lia]. Defined.

End Calendar.
