(* ===== verification/Headway.v ===== *)
(** * Headway: the statistics of one (line, day type, direction) bucket

    The body of the bucket loop of [main] (lines 250-275 of
    [src/scripts/gtfs_faq_summary.py]) with the helpers it calls:
    [safe_quantiles] (lines 111-116), [fmt_hhmm] (lines 19-23), and the
    library functions it relies on, modelled after CPython: [list.sort]
    (a stable sort), [statistics.median], [statistics.quantiles] with its
    default ["exclusive"] method, the built-in [round] (half to even) and
    [Counter(xs).most_common(1)].

    Departure times are Python floats; they are modelled as exact
    rationals [Q].  A time is [h*60 + m + s/60] minutes, a difference of
    two such values is a multiple of 1/60 in [Q]. *)

From S2P Require Import Prelude.
From Stdlib Require Import Sorted.

Module Headway.
Local Open Scope Q_scope.

(** ** Sorting: [list.sort()] and [sorted()]

    Python's sort is stable; so is this insertion sort, and a stable sort
    of a list is unique, so both give the same list. *)
Fixpoint insert_sorted (x : Q) (l : list Q) : list Q :=
  match l with
  | [] => [x]
  | y :: l' => if Qle_bool x y then x :: y :: l' else y :: insert_sorted x l'
  end.

Definition py_sort (l : list Q) : list Q := foldr insert_sorted [] l.

(** [data[i]] at an index [0 <= i < len(data)] the caller has checked. *)
Definition at_ (data : list Q) (i : Z) : Q := nth (Z.to_nat i) data 0.

Definition len (l : list Q) : Z := Z.of_nat (length l).

(** ** [gaps = [times[i + 1] - times[i] for i in range(len(times) - 1)]] *)
Definition consecutive_gaps (times : list Q) : list Q :=
  (λ i, at_ times (i + 1) - at_ times i) <$> seqZ 0 (len times - 1).

(** The same differences, by structural recursion: the reference the
    comprehension is compared with. *)
Fixpoint gaps_rec (l : list Q) : list Q :=
  match l with
  | a :: ((b :: _) as l') => (b - a) :: gaps_rec l'
  | _ => []
  end.

(** [gaps = [g for g in gaps if g > 0.5]] *)
Definition real_gaps (gaps : list Q) : list Q :=
  filter (λ g, negb (Qle_bool g (1 # 2))) gaps.

(** ** [statistics.median] *)
Definition py_median (data0 : list Q) : res Q :=
  let data := py_sort data0 in
  let n := len data in
  if (n =? 0)%Z then raise StatisticsError
  else if (n mod 2 =? 1)%Z then Ok (at_ data (n / 2))
  else let i := (n / 2)%Z in Ok ((at_ data (i - 1) + at_ data i) / 2).

(** ** [statistics.quantiles(data, n=n)], method ["exclusive"]

    The loop [for i in range(1, n)] builds the [n - 1] cut points; [j] is
    clamped to [1 .. ld - 1] and [delta] is exact integer arithmetic. *)
Definition quantile_point (data : list Q) (ld n i : Z) : Q :=
  let m := (ld + 1)%Z in
  let j := (i * m / n)%Z in
  let j := if (j <? 1)%Z then 1%Z else if (ld - 1 <? j)%Z then (ld - 1)%Z else j in
  let delta := (i * m - j * n)%Z in
  (at_ data (j - 1) * inject_Z (n - delta) + at_ data j * inject_Z delta)
    / inject_Z n.

Definition py_quantiles (data0 : list Q) (n : Z) : res (list Q) :=
  if (n <? 1)%Z then raise StatisticsError else
  let data := py_sort data0 in
  let ld := len data in
  if (ld <? 2)%Z then
    (if (ld =? 1)%Z then Ok (concat (replicate (Z.to_nat (n - 1)) data))
     else raise StatisticsError)
  else Ok ((λ i, quantile_point data ld n i) <$> seqZ 1 (n - 1)).

(** [safe_quantiles]: [(deciles[0], deciles[-1])] from ten values on. *)
Definition safe_quantiles (values : list Q) : res (option Q * option Q) :=
  if (length values <? 10)%nat then Ok (None, None) else
  deciles ← py_quantiles values 10;
  match deciles !! 0%nat, deciles !! (length deciles - 1)%nat with
  | Some p10, Some p90 => Ok (Some p10, Some p90)
  | _, _ => raise IndexError
  end.

(** ** [round(x)] on a float: to the nearest integer, ties to even. *)
Definition py_round (x : Q) : Z :=
  let f := Qfloor x in
  let r := x - inject_Z f in
  if Qle_bool r (1 # 2) then
    (if Qeq_bool r (1 # 2) then (if Z.even f then f else f + 1)%Z else f)
  else (f + 1)%Z.

(** [fmt_hhmm]: hours are not reduced modulo 24. *)
Definition fmt_hhmm (minutes : Q) : string :=
  let minutes := py_round minutes in
  let h := (minutes / 60)%Z in
  let m := (minutes mod 60)%Z in
  format_0d 2 h +:+ "h" +:+ format_0d 2 m.

(** ** [Counter(xs).most_common(1)[0][0]]

    A [Counter] keeps its keys in first-insertion order; [most_common(1)] is
    [heapq.nlargest(1, ...)], i.e. [max] by count, which returns the first
    maximal item. *)
Fixpoint counter_add (k : string) (c : list (string * nat)) : list (string * nat) :=
  match c with
  | [] => [(k, 1%nat)]
  | (k', n) :: c' => if String.eqb k k' then (k', S n) :: c' else (k', n) :: counter_add k c'
  end.

Definition counter (xs : list string) : list (string * nat) :=
  foldl (λ c x, counter_add x c) [] xs.

Fixpoint py_max_by_count (best : string * nat) (items : list (string * nat)) : string * nat :=
  match items with
  | [] => best
  | it :: rest => py_max_by_count (if (best.2 <? it.2)%nat then it else best) rest
  end.

Definition most_common_1 (xs : list string) : res string :=
  match counter xs with
  | [] => raise IndexError
  | it :: rest => Ok (py_max_by_count it rest).1
  end.

(** ** One bucket of the report (lines 250-275)

    [times], [firsts] and [lasts] are the lists the loop of lines 240-248
    built for the bucket; [ymd] is [format_yyyymmdd(ref_date)]. *)
Record Bucket := mkBucket {
  b_ref_date : string;
  b_start : string;
  b_end : string;
  b_trips : Z;
  b_median_min : option Z;
  b_p10_min : option Z;
  b_p90_min : option Z;
  b_terminus_from : string;
  b_terminus_to : string;
}.

Definition summarize_bucket (stop_name : gmap string string) (ymd : string)
    (times0 : list Q) (firsts lasts : list string) : res (option Bucket) :=
  if decide (times0 = []) then Ok None else
  let times := py_sort times0 in
  let gaps := real_gaps (consecutive_gaps times) in
  median ← (if decide (gaps = []) then Ok None else Some <$> py_median gaps);
  '(p10, p90) ← safe_quantiles gaps;
  term_from ← most_common_1 firsts;
  term_to ← most_common_1 lasts;
  Ok (Some {|
    b_ref_date := ymd;
    b_start := fmt_hhmm (at_ times 0);
    b_end := fmt_hhmm (at_ times (len times - 1));
    b_trips := len times;
    b_median_min := py_round <$> median;
    b_p10_min := py_round <$> p10;
    b_p90_min := py_round <$> p90;
    b_terminus_from := default term_from (stop_name !! term_from);
    b_terminus_to := default term_to (stop_name !! term_to) |}).

Example stats_ex :
  py_sort [3; 1; 2] = [1; 2; 3]
  ∧ consecutive_gaps [480; 490; 500] = [490 - 480; 500 - 490]
  ∧ py_median [1; 3; 2; 4] = Ok ((2 + 3) / 2)
  ∧ py_round (5 # 2) = 2%Z ∧ py_round (7 # 2) = 4%Z ∧ py_round (-5 # 2) = (-2)%Z
  ∧ fmt_hhmm 1505 = "25h05"
  ∧ most_common_1 ["S2"; "S1"; "S1"; "S2"; "S3"] = Ok "S2".
Proof. vm_compute. repeat split. Qed.

(** ** Sorting *)

Lemma insert_sorted_perm x l : Permutation (insert_sorted x l) (x :: l).
Proof.
  induction l as [|y l IH]; simpl; [done|].
  destruct (Qle_bool x y); [done|].
  rewrite IH. apply perm_swap.
Qed.

Lemma insert_sorted_sorted x l :
  StronglySorted Qle l → StronglySorted Qle (insert_sorted x l).
Proof.
  induction l as [|y l IH]; intros Hs; simpl.
  - repeat constructor.
  - inversion Hs as [|? ? Hl Hy]; subst.
    destruct (Qle_bool x y) eqn:E.
    + apply Qle_bool_iff in E. constructor; [done|]. constructor; [done|].
      rewrite Forall_forall in Hy |- *. intros z Hz. eapply Qle_trans; eauto.
    + assert (y <= x) by (apply Qlt_le_weak, Qnot_le_lt; rewrite <- Qle_bool_iff; congruence).
      constructor; [by apply IH|].
      eapply Permutation_Forall; [symmetry; apply insert_sorted_perm|]. by constructor.
Qed.

Lemma py_sort_perm l : Permutation (py_sort l) l.
Proof.
  induction l as [|x l IH]; simpl; [done|].
  rewrite insert_sorted_perm. by constructor.
Qed.

Lemma py_sort_sorted l : StronglySorted Qle (py_sort l).
Proof. induction l; simpl; [constructor | by apply insert_sorted_sorted]. Qed.

Lemma py_sort_length l : length (py_sort l) = length l.
Proof. apply Permutation_length, py_sort_perm. Qed.

Lemma py_sort_len l : len (py_sort l) = len l.
Proof. unfold len. by rewrite py_sort_length. Qed.

Lemma sorted_at_mono (l : list Q) (i j : Z) :
  StronglySorted Qle l → (0 ≤ i ∧ i ≤ j < len l)%Z → at_ l i <= at_ l j.
Proof.
  unfold at_, len. intros Hs Hij.
  assert (Hn : (Z.to_nat i ≤ Z.to_nat j < length l)%nat) by lia. clear Hij.
  revert Hs Hn. generalize (Z.to_nat i) (Z.to_nat j). clear i j.
  induction l as [|a l IH]; intros i j Hs Hij; simpl in *; [lia|].
  inversion Hs as [|? ? Hl Ha]; subst.
  destruct i as [|i], j as [|j]; try lia.
  - apply Qle_refl.
  - rewrite Forall_forall in Ha. apply Ha, nth_In. lia.
  - apply IH; [done | lia].
Qed.

(** ** Median and deciles *)

Lemma Qdiv_2 x : x / 2 == x * (1 # 2).
Proof. reflexivity. Qed.

(** The median of [data] lies between the two middle values of the sorted
    list (they are the same value when the length is odd). *)
Lemma py_median_between (data : list Q) :
  data ≠ [] →
  ∃ med, py_median data = Ok med ∧
    at_ (py_sort data) ((len data - 1) / 2) <= med <= at_ (py_sort data) (len data / 2).
Proof.
  intros Hne. unfold py_median. rewrite py_sort_len.
  assert (Hpos : (0 < len data)%Z) by (destruct data; [done | unfold len; simpl; lia]).
  replace (len data =? 0)%Z with false by lia.
  pose proof (py_sort_sorted data) as Hs.
  destruct (len data mod 2 =? 1)%Z eqn:Hodd; eexists; split; try done.
  - apply Z.eqb_eq in Hodd.
    replace ((len data - 1) / 2)%Z with (len data / 2)%Z by zdiv_lia.
    split; apply Qle_refl.
  - apply Z.eqb_neq in Hodd.
    replace ((len data - 1) / 2)%Z with (len data / 2 - 1)%Z by zdiv_lia.
    assert (at_ (py_sort data) (len data / 2 - 1) <= at_ (py_sort data) (len data / 2))
      by (apply sorted_at_mono; [done | rewrite py_sort_len; zdiv_lia]).
    rewrite Qdiv_2. split; lra.
Qed.
Lemma interp_between (a b : Q) (n delta : Z) :
  a <= b → (0 < n)%Z → (0 <= delta <= n)%Z →
  a <= (a * inject_Z (n - delta) + b * inject_Z delta) / inject_Z n <= b.
Proof.
  intros Hab Hn Hd.
  assert (HN : 0 < inject_Z n) by (change 0 with (inject_Z 0); rewrite <- Zlt_Qlt; lia).
  assert (HD0 : 0 <= inject_Z delta) by (change 0 with (inject_Z 0); rewrite <- Zle_Qle; lia).
  assert (HD1 : inject_Z delta <= inject_Z n) by (rewrite <- Zle_Qle; lia).
  assert (Hm : inject_Z (n - delta) == inject_Z n - inject_Z delta)
    by (unfold Qminus; rewrite <- inject_Z_opp, <- inject_Z_plus; reflexivity).
  rewrite Hm.
  split; [apply Qle_shift_div_l | apply Qle_shift_div_r]; try done; nra.
Qed.

(** The first and the last decile of at least ten sorted values interpolate
    between two neighbours, without the clamp of [j] taking effect. *)
Lemma decile_point_between (s : list Q) (i : Z) :
  StronglySorted Qle s → (10 ≤ len s)%Z → (i = 1 ∨ i = 9)%Z →
  let j := (i * (len s + 1) / 10)%Z in
  (1 ≤ j ≤ len s - 1)%Z ∧ at_ s (j - 1) <= quantile_point s (len s) 10 i <= at_ s j.
Proof.
  intros Hs Hld Hi j.
  assert (Hj : (1 ≤ j ≤ len s - 1)%Z) by (unfold j; destruct Hi; subst; zdiv_lia).
  split; [done|]. unfold quantile_point. cbv zeta. fold j.
  replace (j <? 1)%Z with false by lia. replace (len s - 1 <? j)%Z with false by lia. cbv iota.
  apply interp_between; [apply sorted_at_mono; [done | lia] | lia |].
  unfold j. destruct Hi; subst; zdiv_lia.
Qed.

Lemma safe_quantiles_short (values : list Q) :
  (length values < 10)%nat → safe_quantiles values = Ok (None, None).
Proof. intros H. unfold safe_quantiles. by rewrite (proj2 (Nat.ltb_lt _ _) H). Qed.

Lemma safe_quantiles_long (values : list Q) :
  (10 ≤ length values)%nat →
  safe_quantiles values =
    Ok (Some (quantile_point (py_sort values) (len values) 10 1),
        Some (quantile_point (py_sort values) (len values) 10 9)).
Proof.
  intros H. unfold safe_quantiles, py_quantiles.
  rewrite (proj2 (Nat.ltb_ge _ _) H), py_sort_len.
  replace (len values <? 2)%Z with false by (unfold len; lia). done.
Qed.

Lemma median_within_deciles (values : list Q) :
  (10 ≤ length values)%nat →
  ∃ p10 med p90,
    safe_quantiles values = Ok (Some p10, Some p90) ∧ py_median values = Ok med ∧
    at_ (py_sort values) 0 <= p10 ∧ p10 <= med ∧ med <= p90 ∧
    p90 <= at_ (py_sort values) (len values - 1).
Proof.
  intros Hlen. rewrite safe_quantiles_long by done.
  pose proof (py_sort_sorted values) as Hs. pose proof (py_sort_len values) as Hl.
  assert (HL : (10 ≤ len values)%Z) by (unfold len; lia).
  destruct (decile_point_between (py_sort values) 1 Hs ltac:(lia) ltac:(lia)) as [Hj1 [A1 B1]].
  destruct (decile_point_between (py_sort values) 9 Hs ltac:(lia) ltac:(lia)) as [Hj9 [A9 B9]].
  destruct (py_median_between values) as (med & Hmed & M1 & M2); [by destruct values|].
  rewrite Hl in *.
  set (s := py_sort values) in *. set (L := len values) in *.
  assert (at_ s 0 <= at_ s (1 * (L + 1) / 10 - 1)) by (apply sorted_at_mono; [done | lia]).
  assert (at_ s (1 * (L + 1) / 10) <= at_ s ((L - 1) / 2))
    by (apply sorted_at_mono; [done | zdiv_lia]).
  assert (at_ s (L / 2) <= at_ s (9 * (L + 1) / 10 - 1))
    by (apply sorted_at_mono; [done | zdiv_lia]).
  assert (at_ s (9 * (L + 1) / 10) <= at_ s (L - 1)) by (apply sorted_at_mono; [done | lia]).
  do 3 eexists. split; [done|]. split; [exact Hmed|]. lra.
Qed.

(** ** [round] *)

Lemma py_round_cases x :
  (py_round x = Qfloor x ∨ py_round x = Qfloor x + 1)%Z ∧
  (x - inject_Z (py_round x) <= 1 # 2) ∧ (inject_Z (py_round x) - x <= 1 # 2).
Proof.
  pose proof (Qfloor_le x) as Hf. pose proof (Qlt_floor x) as Hc.
  rewrite inject_Z_plus in Hc. change (inject_Z 1) with 1 in Hc.
  unfold py_round. set (f := Qfloor x) in *.
  destruct (Qle_bool (x - inject_Z f) (1 # 2)) eqn:E1.
  - apply Qle_bool_iff in E1. destruct (Qeq_bool (x - inject_Z f) (1 # 2)) eqn:E2.
    + apply Qeq_bool_iff in E2. destruct (Z.even f).
      * repeat split; [left; done | lra | lra].
      * rewrite inject_Z_plus. change (inject_Z 1) with 1. repeat split; [right; done | lra | lra].
    + repeat split; [left; done | lra | lra].
  - assert (1 # 2 < x - inject_Z f) by (apply Qnot_le_lt; rewrite <- Qle_bool_iff; congruence).
    rewrite inject_Z_plus. change (inject_Z 1) with 1. repeat split; [right; done | lra | lra].
Qed.

Lemma Qle_bool_compat a b c : a == b → Qle_bool a c = Qle_bool b c.
Proof. intros H. apply Bool.eq_iff_eq_true. rewrite !Qle_bool_iff, H. reflexivity. Qed.

Lemma Qeq_bool_compat a b c : a == b → Qeq_bool a c = Qeq_bool b c.
Proof. intros H. apply Bool.eq_iff_eq_true. rewrite !Qeq_bool_iff, H. reflexivity. Qed.

(** [round] gives equal results on equal rationals, whatever their
    representation: it is a morphism from [Qeq] to [eq]. *)
#[global] Instance py_round_proper : Proper (Qeq ==> eq) py_round.
Proof.
  intros x y Hxy. unfold py_round.
  assert (Hf : Qfloor x = Qfloor y)
    by (apply Z.le_antisymm; apply Qfloor_resp_le; rewrite Hxy; apply Qle_refl).
  assert (Hr : x - inject_Z (Qfloor x) == y - inject_Z (Qfloor y)) by (rewrite Hf, Hxy; reflexivity).
  rewrite (Qle_bool_compat _ _ _ Hr), (Qeq_bool_compat _ _ _ Hr), Hf. reflexivity.
Qed.

Lemma py_round_mono x y : x <= y → (py_round x ≤ py_round y)%Z.
Proof.
  intros Hxy. destruct (Z.le_gt_cases (py_round x) (py_round y)) as [|Hgt]; [done|].
  destruct (py_round_cases x) as (_ & Hx1 & Hx2). destruct (py_round_cases y) as (_ & Hy1 & Hy2).
  assert (Hz : inject_Z (py_round y) + 1 <= inject_Z (py_round x)).
  { change 1 with (inject_Z 1). rewrite <- inject_Z_plus, <- Zle_Qle. lia. }
  assert (Heq : x == y) by lra. rewrite Heq in Hgt. lia.
Qed.

(** ** The gaps *)

Lemma len_cons (a : Q) (l : list Q) : len (a :: l) = (len l + 1)%Z.
Proof. unfold len. simpl length. lia. Qed.

Lemma len_nonneg (l : list Q) : (0 ≤ len l)%Z.
Proof. unfold len. lia. Qed.

Lemma at_cons_succ (a : Q) (l : list Q) (i : Z) : (0 ≤ i)%Z → at_ (a :: l) (i + 1) = at_ l i.
Proof. intros Hi. unfold at_. by rewrite Z2Nat.inj_add, Nat.add_1_r by lia. Qed.

(** The index-based comprehension computes the consecutive differences. *)
Lemma consecutive_gaps_eq_rec (l : list Q) : consecutive_gaps l = gaps_rec l.
Proof.
  induction l as [|a [|b l] IH]; [done | done |].
  change (gaps_rec (a :: b :: l)) with ((b - a) :: gaps_rec (b :: l)).
  unfold consecutive_gaps in *. rewrite <- IH.
  replace (len (a :: b :: l) - 1)%Z with (Z.succ (len (b :: l) - 1)) by (pose proof (len_nonneg l); rewrite ?len_cons; lia).
  rewrite seqZ_cons by (pose proof (len_nonneg l); rewrite ?len_cons; lia). rewrite Z.pred_succ, fmap_cons.
  f_equal. rewrite <- (fmap_add_seqZ 1 0), <- list_fmap_compose.
  apply list_fmap_ext. intros k j Hj.
  apply list_elem_of_lookup_2, elem_of_seqZ in Hj. simpl.
  replace (1 + j + 1)%Z with ((j + 1) + 1)%Z by lia. replace (1 + j)%Z with (j + 1)%Z by lia.
  by rewrite !at_cons_succ by lia.
Qed.

Lemma gaps_rec_length (l : list Q) : length (gaps_rec l) = (length l - 1)%nat.
Proof. induction l as [|a [|b l] IH]; simpl in *; [done | done | lia]. Qed.

Lemma gaps_rec_nonneg (l : list Q) : StronglySorted Qle l → Forall (Qle 0) (gaps_rec l).
Proof.
  induction l as [|a [|b l] IH]; intros Hs; simpl; [constructor | constructor |].
  inversion Hs as [|? ? Hl Ha]; subst. inversion Ha as [|? ? Hab]; subst.
  constructor; [lra | by apply IH].
Qed.

(** The gaps add up to the span from the first to the last departure. *)
Lemma gaps_rec_sum (a : Q) (l : list Q) :
  foldr Qplus 0 (gaps_rec (a :: l)) == at_ (a :: l) (len (a :: l) - 1) - a.
Proof.
  revert a. induction l as [|b l IH]; intros a; [unfold at_; simpl; lra|].
  change (gaps_rec (a :: b :: l)) with ((b - a) :: gaps_rec (b :: l)).
  change (foldr Qplus 0 ((b - a) :: gaps_rec (b :: l)))
    with ((b - a) + foldr Qplus 0 (gaps_rec (b :: l))).
  pose proof (IH b) as Hb.
  replace (len (a :: b :: l) - 1)%Z with (len (b :: l) - 1 + 1)%Z by (pose proof (len_nonneg l); rewrite ?len_cons; lia).
  rewrite at_cons_succ by (pose proof (len_nonneg l); rewrite ?len_cons; lia). lra.
Qed.

Lemma real_gaps_spec (gaps : list Q) (g : Q) : g ∈ real_gaps gaps ↔ g ∈ gaps ∧ 1 # 2 < g.
Proof.
  unfold real_gaps. rewrite list_elem_of_filter.
  destruct (Qle_bool g (1 # 2)) eqn:E; simpl.
  - apply Qle_bool_iff in E. split; [intros []; done | lra].
  - assert (1 # 2 < g) by (apply Qnot_le_lt; rewrite <- Qle_bool_iff; congruence). tauto.
Qed.

(** ** [most_common(1)] is defined on every non-empty list *)

Lemma counter_add_ne k c : counter_add k c ≠ [].
Proof. destruct c as [|[k' n] c]; simpl; [done|]. by destruct (String.eqb k k'). Qed.

Lemma foldl_counter_ne (xs : list string) c :
  c ≠ [] → foldl (λ c x, counter_add x c) c xs ≠ [].
Proof. revert c. induction xs as [|x xs IH]; intros c Hc; simpl; [done|]. apply IH, counter_add_ne. Qed.

Lemma most_common_1_ok (xs : list string) : xs ≠ [] → ∃ k, most_common_1 xs = Ok k.
Proof.
  intros Hne. unfold most_common_1, counter.
  destruct xs as [|x xs]; [done|]. cbn [foldl].
  destruct (foldl (λ c x, counter_add x c) (counter_add x []) xs) as [|it rest] eqn:E;
    [|by eexists].
  exfalso. revert E. apply foldl_counter_ne, counter_add_ne.
Qed.

(** ** The bucket *)

Lemma at_of_elem (l : list Q) (t : Q) : t ∈ l → ∃ i, (0 ≤ i < len l)%Z ∧ at_ l i = t.
Proof.
  intros Ht. apply list_elem_of_lookup in Ht as [i Hi].
  exists (Z.of_nat i). split.
  - apply lookup_lt_Some in Hi. unfold len. lia.
  - unfold at_. rewrite Nat2Z.id. by apply nth_lookup_Some.
Qed.

(** What a computed bucket holds, read back from [summarize_bucket]. *)
Lemma summarize_bucket_inv stop_name ymd times firsts lasts b :
  summarize_bucket stop_name ymd times firsts lasts = Ok (Some b) →
  let gaps := real_gaps (consecutive_gaps (py_sort times)) in
  times ≠ [] ∧ b_trips b = len times ∧ b_ref_date b = ymd ∧
  b_start b = fmt_hhmm (at_ (py_sort times) 0) ∧
  b_end b = fmt_hhmm (at_ (py_sort times) (len times - 1)) ∧
  (gaps = [] ∧ b_median_min b = None ∨
   gaps ≠ [] ∧ ∃ m, py_median gaps = Ok m ∧ b_median_min b = Some (py_round m)) ∧
  ∃ p10 p90, safe_quantiles gaps = Ok (p10, p90) ∧
    b_p10_min b = py_round <$> p10 ∧ b_p90_min b = py_round <$> p90.
Proof.
  intros H gaps. unfold summarize_bucket in H. fold gaps in H.
  case_decide as Ht; [discriminate|].
  destruct (decide (gaps = [])) as [Hg|Hg]; simpl in H.
  - destruct (safe_quantiles gaps) as [[p10 p90]|] eqn:Hq; [|discriminate]. simpl in H.
    res_simpl. rewrite py_sort_len. simpl. repeat split; eauto 10.
  - destruct (py_median gaps) as [m|] eqn:Hm; [|discriminate]. simpl in H.
    destruct (safe_quantiles gaps) as [[p10 p90]|] eqn:Hq; [|discriminate]. simpl in H.
    res_simpl. rewrite py_sort_len. simpl. repeat split; eauto 10.
Qed.

Lemma py_quantiles_deciles (values : list Q) :
  (10 ≤ length values)%nat →
  py_quantiles values 10 = Ok ((λ i, quantile_point (py_sort values) (len values) 10 i) <$> seqZ 1 9).
Proof.
  intros H. unfold py_quantiles. rewrite py_sort_len.
  replace (len values <? 2)%Z with false by (unfold len; lia). done.
Qed.

(** [safe_quantiles] never raises: the nine deciles are there to index. *)
Lemma safe_quantiles_ok (values : list Q) : ∃ p10 p90, safe_quantiles values = Ok (p10, p90).
Proof.
  destruct (decide (length values < 10)%nat).
  - rewrite safe_quantiles_short by done. eauto.
  - unfold safe_quantiles. rewrite (proj2 (Nat.ltb_ge _ _)) by lia.
    rewrite py_quantiles_deciles by lia. cbn [mbind res_bind].
    set (ds := (λ i, quantile_point (py_sort values) (len values) 10 i) <$> seqZ 1 9).
    assert (length ds = 9%nat) as Hl by (unfold ds; by rewrite length_fmap, length_seqZ).
    destruct (ds !! _) eqn:E1; [|apply lookup_ge_None in E1; lia].
    destruct (ds !! _) eqn:E2; [eauto|apply lookup_ge_None in E2; lia].
Qed.

Lemma summarize_bucket_some stop_name ymd times firsts lasts :
  times ≠ [] → firsts ≠ [] → lasts ≠ [] →
  ∃ b, summarize_bucket stop_name ymd times firsts lasts = Ok (Some b).
Proof.
  intros Ht Hf Hl. unfold summarize_bucket. rewrite decide_False by done.
  set (gaps := real_gaps (consecutive_gaps (py_sort times))).
  destruct (most_common_1_ok firsts Hf) as [kf ->]. destruct (most_common_1_ok lasts Hl) as [kl ->].
  destruct (safe_quantiles_ok gaps) as (p10 & p90 & Hq).
  destruct (decide (gaps = [])) as [Hg|Hg].
  - simpl. rewrite Hq. by eexists.
  - destruct (py_median_between gaps Hg) as (m & Hm & _). rewrite Hm. simpl. rewrite Hq. by eexists.
Qed.

(** C18: A reported bucket counts all its departures, its start is the
    earliest departure and its end the latest (unwrapped past midnight),
    and the consecutive gaps of the sorted departures add up to end - start. *)
Theorem bucket_start_end stop_name ymd times firsts lasts b :
  summarize_bucket stop_name ymd times firsts lasts = Ok (Some b) →
  b_trips b = len times ∧
  ∃ tmin tmax, tmin ∈ times ∧ tmax ∈ times ∧ (∀ t, t ∈ times → tmin <= t <= tmax) ∧
    b_start b = fmt_hhmm tmin ∧ b_end b = fmt_hhmm tmax ∧
    foldr Qplus 0 (consecutive_gaps (py_sort times)) == tmax - tmin.
Proof.
  intros H. destruct (summarize_bucket_inv _ _ _ _ _ _ H) as (Ht & Htr & _ & Hs & He & _).
  split; [done|].
  pose proof (py_sort_sorted times) as Hsort. pose proof (py_sort_perm times) as Hperm.
  pose proof (py_sort_len times) as Hlen.
  destruct (py_sort times) as [|a l] eqn:Es.
  { apply Permutation_nil in Hperm. done. }
  assert (Hpos : (0 < len times)%Z) by (rewrite <- Hlen, len_cons; pose proof (len_nonneg l); lia).
  assert (Hin : ∀ i, (0 ≤ i < len times)%Z → at_ (a :: l) i ∈ times).
  { intros i Hi. rewrite <- Hperm. apply list_elem_of_lookup. exists (Z.to_nat i).
    unfold at_. destruct (nth_lookup_or_length (a :: l) (Z.to_nat i) 0) as [Hl|Hl]; [done|].
    exfalso. rewrite <- Hlen in Hi. unfold len in Hi. lia. }
  exists (at_ (a :: l) 0), (at_ (a :: l) (len times - 1)).
  split; [apply Hin; lia|]. split; [apply Hin; lia|]. split.
  - intros t Ht'. rewrite <- Hperm in Ht'. apply at_of_elem in Ht' as (i & Hi & <-).
    split; apply sorted_at_mono; try done; rewrite Hlen in *; lia.
  - split; [done|]. split; [done|].
    rewrite consecutive_gaps_eq_rec, gaps_rec_sum, <- Hlen. unfold at_ at 2. simpl. reflexivity.
Qed.

(** C5: When no two consecutive departures are more than half a minute
    apart, the bucket is still emitted with its trip count, and the median,
    p10 and p90 are all null.  The witness is the spec's example: 08:00 and
    08:00:12, a 0.2-minute gap. *)
Theorem bucket_headway_null stop_name ymd times firsts lasts :
  times ≠ [] → firsts ≠ [] → lasts ≠ [] →
  Forall (λ g, g <= 1 # 2) (consecutive_gaps (py_sort times)) →
  ∃ b, summarize_bucket stop_name ymd times firsts lasts = Ok (Some b) ∧
    b_trips b = len times ∧
    b_median_min b = None ∧ b_p10_min b = None ∧ b_p90_min b = None.
Proof.
  intros Ht Hf Hl Hsmall.
  destruct (summarize_bucket_some stop_name ymd times firsts lasts Ht Hf Hl) as [b Hb].
  exists b. split; [done|].
  destruct (summarize_bucket_inv _ _ _ _ _ _ Hb) as (_ & Htr & _ & _ & _ & Hmed & p10 & p90 & Hq & H10 & H90).
  assert (Hg : real_gaps (consecutive_gaps (py_sort times)) = []).
  { destruct (real_gaps (consecutive_gaps (py_sort times))) as [|g gs] eqn:E; [done|].
    assert (Hin : g ∈ real_gaps (consecutive_gaps (py_sort times))) by (rewrite E; set_solver).
    apply real_gaps_spec in Hin as [Hin Hlt].
    apply list_elem_of_In in Hin. rewrite Forall_forall in Hsmall. specialize (Hsmall g Hin). lra. }
  rewrite Hg in Hmed, Hq. rewrite safe_quantiles_short in Hq by (simpl; lia). injection Hq as <- <-.
  destruct Hmed as [[_ ->] | [Hne _]]; [|done]. done.
Qed.

(** C17: Whenever the report gives the rounded p10 and p90 of a bucket, it
    also gives a rounded median, and p10 <= median <= p90. *)
Theorem bucket_headway_ordered stop_name ymd times firsts lasts b a c :
  summarize_bucket stop_name ymd times firsts lasts = Ok (Some b) →
  b_p10_min b = Some a → b_p90_min b = Some c →
  ∃ m, b_median_min b = Some m ∧ (a ≤ m ≤ c)%Z.
Proof.
  intros Hb Ha Hc.
  destruct (summarize_bucket_inv _ _ _ _ _ _ Hb) as (_ & _ & _ & _ & _ & Hmed & p10 & p90 & Hq & H10 & H90).
  set (gaps := real_gaps (consecutive_gaps (py_sort times))) in *.
  destruct (decide (length gaps < 10)%nat) as [Hs|Hs].
  { rewrite safe_quantiles_short in Hq by done. injection Hq as <- <-. by rewrite H10 in Ha. }
  destruct (median_within_deciles gaps ltac:(lia)) as (q10 & med & q90 & Hq' & Hm & _ & H1 & H2 & _).
  rewrite Hq in Hq'. injection Hq' as -> ->. simpl in H10, H90.
  rewrite Ha in H10. rewrite Hc in H90. injection H10 as ->. injection H90 as ->.
  destruct Hmed as [[Hg _] | [_ (m & Hm' & ->)]]; [rewrite Hg in Hs; simpl in Hs; lia|].
  rewrite Hm in Hm'. injection Hm' as <-.
  eexists; split; [done|]. split; by apply py_round_mono.
Qed.

(** ** Properties of the bucket statistics *)

(** C4: With at least ten real gaps, [safe_quantiles] returns both deciles,
    [statistics.median] returns a value, and the first decile, the median and
    the last decile are ordered, between the smallest and the largest gap. *)
Theorem deciles_bracket_median (values : list Q) :
  (10 ≤ length values)%nat →
  ∃ p10 med p90,
    safe_quantiles values = Ok (Some p10, Some p90) ∧ py_median values = Ok med ∧
    at_ (py_sort values) 0 <= p10 ∧ p10 <= med ∧ med <= p90 ∧
    p90 <= at_ (py_sort values) (len values - 1).
Proof. exact (median_within_deciles values). Qed.

Lemma deciles_bracket_median_witness :
  ∃ p10 med p90,
    safe_quantiles [3; 1; 4; 1; 5; 9; 2; 6; 5; 3] = Ok (Some p10, Some p90) ∧
    py_median [3; 1; 4; 1; 5; 9; 2; 6; 5; 3] = Ok med ∧
    at_ (py_sort [3; 1; 4; 1; 5; 9; 2; 6; 5; 3]) 0 <= p10 ∧ p10 <= med ∧ med <= p90 ∧
    p90 <= at_ (py_sort [3; 1; 4; 1; 5; 9; 2; 6; 5; 3]) (len [3; 1; 4; 1; 5; 9; 2; 6; 5; 3] - 1).
Proof. apply deciles_bracket_median. simpl. lia. Defined.

Lemma bucket_headway_null_witness :
  ∃ b, summarize_bucket ∅ "20241104" [480; 480 + (1 # 5)] ["S1"; "S1"] ["S2"; "S2"] = Ok (Some b) ∧
    b_trips b = 2%Z ∧ b_median_min b = None ∧ b_p10_min b = None ∧ b_p90_min b = None.
Proof.
  apply bucket_headway_null; try discriminate.
  vm_compute. repeat constructor. discriminate.
Defined.

Lemma bucket_headway_ordered_witness :
  ∃ b, summarize_bucket ∅ "20241104"
         [480; 490; 500; 510; 520; 530; 540; 550; 560; 570; 580; 590; 600]
         ["S1"] ["S2"] = Ok (Some b) ∧
    ∃ m, b_median_min b = Some m ∧ (10 ≤ m ≤ 10)%Z.
Proof.
  eexists. split; [reflexivity|].
  apply (bucket_headway_ordered ∅ "20241104"
           [480; 490; 500; 510; 520; 530; 540; 550; 560; 570; 580; 590; 600] ["S1"] ["S2"]);
    reflexivity.
Defined.

Lemma bucket_start_end_witness :
  ∃ b, summarize_bucket ∅ "20241104" [1510; 1505] ["S1"; "S1"] ["S2"; "S2"] = Ok (Some b) ∧
    b_trips b = len [1510; 1505] ∧
    ∃ tmin tmax, tmin ∈ [1510; 1505] ∧ tmax ∈ [1510; 1505] ∧
      (∀ t, t ∈ [1510; 1505] → tmin <= t <= tmax) ∧
      b_start b = fmt_hhmm tmin ∧ b_end b = fmt_hhmm tmax ∧
      foldr Qplus 0 (consecutive_gaps (py_sort [1510; 1505])) == tmax - tmin.
Proof.
  eexists. split; [reflexivity|].
  apply (bucket_start_end ∅ "20241104" [1510; 1505] ["S1"; "S1"] ["S2"; "S2"]). reflexivity.
Defined.

(** C29: A bucket with at least one departure (and its first and last
    stops) is always emitted: no exception is raised on that path. *)
Theorem summarize_bucket_total stop_name ymd times firsts lasts :
  times ≠ [] → firsts ≠ [] → lasts ≠ [] →
  ∃ b, summarize_bucket stop_name ymd times firsts lasts = Ok (Some b).
Proof. exact (summarize_bucket_some stop_name ymd times firsts lasts). Qed.

Lemma summarize_bucket_total_witness :
  ∃ b, summarize_bucket ∅ "20241104" [1505] ["S1"] ["S2"] = Ok (Some b).
Proof. apply summarize_bucket_total; discriminate. Defined.

(** C30: [round] returns an integer at distance at most 1/2 from its
    argument, and on an exact half it returns the even neighbour. *)
Theorem round_half_even (x : Q) :
  x - inject_Z (py_round x) <= 1 # 2 ∧ inject_Z (py_round x) - x <= 1 # 2 ∧
  (x - inject_Z (Qfloor x) == 1 # 2 → Z.even (py_round x) = true).
Proof.
  destruct (py_round_cases x) as (_ & H1 & H2). split; [done|]. split; [done|].
  intros Hhalf. unfold py_round.
  rewrite (Qle_bool_compat _ _ _ Hhalf), (Qeq_bool_compat _ _ _ Hhalf). simpl.
  destruct (Z.even (Qfloor x)) eqn:E; [done|]. by rewrite Z.even_add, E.
Qed.

Lemma round_half_even_witness :
  (7 # 2) - inject_Z (py_round (7 # 2)) <= 1 # 2 ∧ inject_Z (py_round (7 # 2)) - (7 # 2) <= 1 # 2 ∧
  ((7 # 2) - inject_Z (Qfloor (7 # 2)) == 1 # 2 → Z.even (py_round (7 # 2)) = true).
Proof. apply round_half_even. Defined.

(** C31: The comprehension over [range(len(times) - 1)] computes the list
    of differences of consecutive elements. *)
Theorem consecutive_gaps_rec (l : list Q) : consecutive_gaps l = gaps_rec l.
Proof. apply consecutive_gaps_eq_rec. Qed.

(** C32: [list.sort] (a stable insertion sort here) returns a sorted
    permutation of its input. *)
Theorem py_sort_spec (l : list Q) : StronglySorted Qle (py_sort l) ∧ Permutation (py_sort l) l.
Proof. split; [apply py_sort_sorted | apply py_sort_perm]. Qed.

End Headway.
