(* ===== verification/Parse.v ===== *)
(** * Parse: the text parsers the script calls

    [parse_time_to_minutes] (lines 13-16) and [parse_yyyymmdd] (lines 41-42)
    are written in terms of CPython's [str.strip], [str.split], [int(str)]
    and [datetime.strptime(value, "%Y%m%d")]; those library routines are
    modelled here after CPython's implementation, on ASCII strings:
    - [py_strip]: [str.strip()] removes the characters for which
      [str.isspace()] holds, i.e. codes 9-13 and 28-32 in ASCII;
    - [py_int]: [int(s)] on an ASCII string is [PyLong_FromString], which
      skips the C white space [Py_ISSPACE] (codes 9-13 and 32 only) at both
      ends, accepts one sign, then decimal digits with single underscores
      between them, and raises [ValueError] otherwise;
    - [strptime_ymd]: [_strptime] compiles ["%Y%m%d"] to the regular
      expression [(\d\d\d\d)(1[0-2]|0[1-9]|[1-9])(3[01]|[12]\d|0[1-9]|[1-9]| [1-9])],
      takes its first match at the start of the string in backtracking
      order, raises [ValueError] when there is none or when characters are
      left after it, converts the groups with [int] and builds the date.

    The theorems are round trips: [int] reads back what [f"{n:0wd}"]
    writes, [parse_time_to_minutes] reads back ["HH:MM:SS"], and
    [parse_yyyymmdd] reads back [format_yyyymmdd] for every valid date; the
    7-character strings with a one-digit month that [strptime] accepts as
    well ([strptime_unpadded_month]); and the error cases of the parsers. *)

From S2P Require Import Prelude PyDate DayRef Calendar.

Module Parse.
Import PyDate Calendar.
Local Open Scope Z_scope.

(** ** Characters and [str.strip] *)

Definition py_isspace (c : ascii) : bool :=
  let n := nat_of_ascii c in (((9 <=? n) && (n <=? 13)) || ((28 <=? n) && (n <=? 32)))%nat.

(** [\d] and [str.isdigit] on ASCII. *)
Definition is_digit (c : ascii) : bool :=
  let n := nat_of_ascii c in ((48 <=? n) && (n <=? 57))%nat.

Definition digit_val (c : ascii) : Z := Z.of_nat (nat_of_ascii c) - 48.

(** [Py_ISSPACE], the white space [PyLong_FromString] skips. *)
Definition c_isspace (c : ascii) : bool :=
  let n := nat_of_ascii c in (((9 <=? n) && (n <=? 13)) || (n =? 32))%nat.

(** Removing the characters of [sp] at the left, and at the right. *)
Fixpoint py_lstrip (sp : ascii → bool) (s : string) : string :=
  match s with
  | EmptyString => EmptyString
  | String c r => if sp c then py_lstrip sp r else s
  end.

Fixpoint py_rstrip (sp : ascii → bool) (s : string) : string :=
  match s with
  | EmptyString => EmptyString
  | String c r =>
      let r' := py_rstrip sp r in
      if sp c && bool_decide (r' = EmptyString) then EmptyString else String c r'
  end.

Definition py_strip (s : string) : string := py_rstrip py_isspace (py_lstrip py_isspace s).

(** The white space skipping of [PyLong_FromString]. *)
Definition int_strip (s : string) : string := py_rstrip c_isspace (py_lstrip c_isspace s).

(** [s.split(sep)] for a one-character separator: every occurrence splits,
    so [n] separators give [n + 1] parts, empty ones included. *)
Fixpoint py_split (sep : ascii) (s : string) : list string :=
  match s with
  | EmptyString => [EmptyString]
  | String c r =>
      let parts := py_split sep r in
      if ascii_dec c sep then EmptyString :: parts
      else match parts with
           | p :: ps => String c p :: ps
           | [] => [String c EmptyString]
           end
  end.

(** ** [int(s)] *)

(** The digits after the first one: a digit, or an underscore followed by
    a digit, until the end of the string. *)
Fixpoint scan_digits (acc : Z) (s : string) : option Z :=
  match s with
  | EmptyString => Some acc
  | String c rest =>
      if is_digit c then scan_digits (acc * 10 + digit_val c) rest
      else if ascii_dec c "_" then
        match rest with
        | String c2 rest2 =>
            if is_digit c2 then scan_digits (acc * 10 + digit_val c2) rest2 else None
        | EmptyString => None
        end
      else None
  end.

Definition digits_value (s : string) : option Z :=
  match s with
  | String c _ => if is_digit c then scan_digits 0 s else None
  | EmptyString => None
  end.

Definition py_int (s : string) : res Z :=
  let t := int_strip s in
  let r :=
    match t with
    | String c rest =>
        if ascii_dec c "-" then Z.opp <$> digits_value rest
        else if ascii_dec c "+" then digits_value rest
        else digits_value t
    | EmptyString => None
    end in
  match r with
  | Some v => Ok v
  | None => raise ValueError
  end.

(** ** [parse_time_to_minutes] (lines 13-16)

    [h, m, s = value.strip().split(":")] raises [ValueError] unless there
    are exactly three parts; [int(s) / 60.0] is a float, modelled by the
    exact rational. *)
Definition parse_time_to_minutes (value : string) : res Q :=
  match py_split ":" (py_strip value) with
  | [h; m; s] =>
      h' ← py_int h;
      m' ← py_int m;
      s' ← py_int s;
      Ok (inject_Z h' * 60 + inject_Z m' + inject_Z s' / 60)%Q
  | _ => raise ValueError
  end.

(** ** [datetime.strptime(value, "%Y%m%d").date()] *)

(** A character class of the pattern: a literal or a range such as [\d]. *)
Inductive cls :=
  | Lit (c : ascii)
  | Range (lo hi : ascii).

Definition cls_matches (k : cls) (c : ascii) : bool :=
  match k with
  | Lit c' => bool_decide (c = c')
  | Range lo hi => ((nat_of_ascii lo <=? nat_of_ascii c) && (nat_of_ascii c <=? nat_of_ascii hi))%nat
  end.

(** One alternative, a sequence of classes: the matched prefix and the rest. *)
Fixpoint match_seq (p : list cls) (s : string) : option (string * string) :=
  match p, s with
  | [], _ => Some (EmptyString, s)
  | k :: p', String c r =>
      if cls_matches k c then
        match match_seq p' r with
        | Some (m, rest) => Some (String c m, rest)
        | None => None
        end
      else None
  | _ :: _, EmptyString => None
  end.

(** A group [(a|b|...)] followed by the continuation [k]: the alternatives
    are tried in order and the first for which the rest of the pattern
    matches is taken (backtracking). *)
Fixpoint match_group {A} (alts : list (list cls)) (s : string)
    (k : string → string → option A) : option A :=
  match alts with
  | [] => None
  | p :: alts' =>
      match match_seq p s with
      | Some (m, rest) =>
          match k m rest with
          | Some a => Some a
          | None => match_group alts' s k
          end
      | None => match_group alts' s k
      end
  end.

Definition DIGIT : cls := Range "0" "9".

Definition Y_ALTS : list (list cls) := [[DIGIT; DIGIT; DIGIT; DIGIT]].
Definition m_ALTS : list (list cls) :=
  [[Lit "1"; Range "0" "2"]; [Lit "0"; Range "1" "9"]; [Range "1" "9"]].
Definition d_ALTS : list (list cls) :=
  [[Lit "3"; Range "0" "1"]; [Range "1" "2"; DIGIT]; [Lit "0"; Range "1" "9"];
   [Range "1" "9"]; [Lit " "; Range "1" "9"]].

(** [format_regex.match(data_string)]: the three groups and what is left. *)
Definition strptime_ymd (s : string) : option (string * string * string * string) :=
  match_group Y_ALTS s (λ y r1,
    match_group m_ALTS r1 (λ m r2,
      match_group d_ALTS r2 (λ d r3, Some (y, m, d, r3)))).

Definition parse_yyyymmdd (value : string) : res date :=
  match strptime_ymd value with
  | None => raise ValueError
  | Some (y, m, d, rest) =>
      if decide (rest ≠ EmptyString) then raise ValueError
      else (year ← py_int y; month ← py_int m; day ← py_int d; mk_date year month day)
  end.

(** ** Helpers of the proofs *)

(** Every character of [s] satisfies [p]. *)
Fixpoint str_all (p : ascii → bool) (s : string) : bool :=
  match s with
  | EmptyString => true
  | String c r => p c && str_all p r
  end.

(** The decimal value of a string of digits, read from the left. *)
Fixpoint dec_fold (acc : Z) (s : string) : Z :=
  match s with
  | EmptyString => acc
  | String c r => dec_fold (acc * 10 + digit_val c) r
  end.

(** The year group reads back [f"{y:04d}"]. *)
Definition Y_check (y : Z) : bool :=
  match match_seq [DIGIT; DIGIT; DIGIT; DIGIT] (format_0d 4 y) with
  | Some (ys, EmptyString) => bool_decide (py_int ys = Ok y)
  | _ => false
  end.

(** The month and day groups read back [f"{m:0{wm}d}{d:02d}"]. *)
Definition md_check (wm : nat) (m d : Z) : bool :=
  match match_group m_ALTS (format_0d wm m +:+ format_0d 2 d)
          (λ ms r2, match_group d_ALTS r2 (λ ds r3, Some (ms, ds, r3))) with
  | Some (ms, ds, EmptyString) => bool_decide (py_int ms = Ok m ∧ py_int ds = Ok d)
  | _ => false
  end.

Example parse_ex :
  Qred <$> parse_time_to_minutes " 25:10:30 " = Ok (3021#2)%Q ∧
  parse_time_to_minutes "08:10" = raise ValueError ∧
  py_int " -1_000 " = Ok (-1000) ∧ py_int "1__0" = raise ValueError ∧
  parse_yyyymmdd "20240229" = Ok (mkdate 2024 2 29) ∧
  parse_yyyymmdd "20230229" = raise ValueError ∧
  parse_yyyymmdd "2024130" = Ok (mkdate 2024 1 30) ∧
  parse_yyyymmdd "202401300" = raise ValueError ∧
  py_int (String (ascii_of_nat 28) "5") = raise ValueError ∧
  py_strip (String (ascii_of_nat 28) "5") = "5".
Proof. vm_compute. repeat split. Qed.

(** ** Strings *)

(** [String.append] is [simpl never] under stdpp: its two equations. *)
Lemma string_app_cons c (s1 s2 : string) : String c s1 +:+ s2 = String c (s1 +:+ s2).
Proof. reflexivity. Qed.

Lemma string_app_nil_l (s : string) : EmptyString +:+ s = s.
Proof. reflexivity. Qed.

Ltac app_simpl := rewrite ?string_app_cons, ?string_app_nil_l.

Lemma string_app_assoc (s1 s2 s3 : string) : (s1 +:+ s2) +:+ s3 = s1 +:+ (s2 +:+ s3).
Proof. induction s1 as [|c s1 IH]; app_simpl; [done|]. by rewrite IH. Qed.

Lemma string_app_ne (s1 s2 : string) : s2 ≠ EmptyString → s1 +:+ s2 ≠ EmptyString.
Proof. destruct s1; app_simpl; congruence. Qed.

Lemma str_all_app p s1 s2 : str_all p (s1 +:+ s2) = str_all p s1 && str_all p s2.
Proof. induction s1 as [|c s1 IH]; app_simpl; simpl; [done|]. by rewrite IH, andb_assoc. Qed.

Lemma str_all_impl (p q : ascii → bool) s :
  (∀ c, p c = true → q c = true) → str_all p s = true → str_all q s = true.
Proof.
  intros Hpq. induction s as [|c s IH]; simpl; [done|].
  intros [Hc Hs]%andb_true_iff. by rewrite Hpq, IH.
Qed.

Lemma dec_fold_app acc s1 s2 : dec_fold acc (s1 +:+ s2) = dec_fold (dec_fold acc s1) s2.
Proof. revert acc. induction s1; app_simpl; simpl; auto. Qed.

Lemma rstrip_id sp s : str_all (λ c, negb (sp c)) s = true → py_rstrip sp s = s.
Proof.
  induction s as [|c s IH]; simpl; [done|].
  intros [Hc Hs]%andb_true_iff. rewrite IH by done. by destruct (sp c).
Qed.

Lemma lstrip_rstrip_id sp s :
  str_all (λ c, negb (sp c)) s = true → py_rstrip sp (py_lstrip sp s) = s.
Proof.
  intros Hs. rewrite <-(rstrip_id sp s Hs) at 2. f_equal.
  destruct s as [|c r]; simpl in *; [done|]. by destruct (sp c).
Qed.

Lemma strip_id s : str_all (λ c, negb (py_isspace c)) s = true → py_strip s = s.
Proof. apply lstrip_rstrip_id. Qed.

(** [Py_ISSPACE] is contained in [str.isspace]. *)
Lemma c_isspace_py c : c_isspace c = true → py_isspace c = true.
Proof. destruct c as [[] [] [] [] [] [] [] []]; vm_compute; congruence. Qed.

Lemma int_strip_id s : str_all (λ c, negb (py_isspace c)) s = true → int_strip s = s.
Proof.
  intros Hs. apply lstrip_rstrip_id. refine (str_all_impl _ _ _ _ Hs).
  intros c. destruct (c_isspace c) eqn:E; [by rewrite (c_isspace_py c E)|done].
Qed.

(** ** [int] reads back [str] and [f"{n:0wd}"] *)

Lemma scan_digits_all acc s :
  str_all is_digit s = true → scan_digits acc s = Some (dec_fold acc s).
Proof.
  revert acc. induction s as [|c s IH]; intros acc; simpl; [done|].
  intros [-> Hs]%andb_true_iff. by apply IH.
Qed.

Lemma digits_value_all s :
  str_all is_digit s = true → s ≠ EmptyString → digits_value s = Some (dec_fold 0 s).
Proof.
  destruct s as [|c r]; [done|]. intros Hs _. unfold digits_value.
  rewrite (proj1 (proj1 (andb_true_iff _ _) Hs)). by apply scan_digits_all.
Qed.

Lemma digit_char_spec d : 0 ≤ d < 10 → is_digit (digit_char d) = true ∧ digit_val (digit_char d) = d.
Proof. intros Hd. int_cases d 0 10; vm_compute; auto. Qed.

Lemma str_of_nat_go_app fuel n acc : str_of_nat_go fuel n acc = str_of_nat_go fuel n "" +:+ acc.
Proof.
  revert n acc. induction fuel as [|fuel IH]; intros n acc; simpl; [done|].
  destruct (n <? 10); [done|]. rewrite IH, (IH _ (String _ "")), string_app_assoc. done.
Qed.

Lemma str_of_nat_go_step fuel n acc :
  str_of_nat_go (S fuel) n acc =
    if n <? 10 then String (digit_char (n mod 10)) acc
    else str_of_nat_go fuel (n / 10) (String (digit_char (n mod 10)) acc).
Proof. reflexivity. Qed.

Lemma str_of_nat_go_spec fuel n :
  0 ≤ n < 10 ^ Z.of_nat (S fuel) →
  str_all is_digit (str_of_nat_go (S fuel) n "") = true ∧
  dec_fold 0 (str_of_nat_go (S fuel) n "") = n ∧ str_of_nat_go (S fuel) n "" ≠ EmptyString.
Proof.
  revert n. induction fuel as [|fuel IH]; intros n Hn; rewrite str_of_nat_go_step;
    destruct (digit_char_spec (n mod 10)) as [Hd Hv]; [zdiv_lia| |zdiv_lia|];
    set (c := digit_char (n mod 10)) in *; clearbody c;
    destruct (n <? 10) eqn:Hlt;
    try (cbn [str_all dec_fold]; rewrite Hd, Hv; apply Z.ltb_lt in Hlt;
         split; [done|]; split; [zdiv_lia|done]).
  - exfalso. apply Z.ltb_ge in Hlt. change (10 ^ Z.of_nat 1) with 10 in Hn. lia.
  - rewrite str_of_nat_go_app, str_all_app, dec_fold_app.
    destruct (IH (n / 10)) as (IH1 & IH2 & IH3).
    { apply Z.ltb_ge in Hlt. rewrite Nat2Z.inj_succ, Z.pow_succ_r in Hn by lia. zdiv_lia. }
    rewrite IH1, IH2. cbn [str_all dec_fold andb]. rewrite Hd, Hv. split; [done|].
    split; [zdiv_lia|]. by apply string_app_ne.
Qed.

Lemma str_of_nat_spec n :
  0 ≤ n →
  str_all is_digit (str_of_nat n) = true ∧ dec_fold 0 (str_of_nat n) = n ∧ str_of_nat n ≠ EmptyString.
Proof.
  intros Hn. apply str_of_nat_go_spec. split; [done|].
  rewrite Nat2Z.inj_succ, Z2Nat.id by apply Z.log2_nonneg.
  destruct (decide (n = 0)) as [->|Hn0]; [done|].
  apply Z.lt_le_trans with (2 ^ Z.succ (Z.log2 n)); [apply Z.log2_spec; lia|].
  apply Z.pow_le_mono_l. lia.
Qed.

Lemma zeros_spec k :
  str_all is_digit (String.concat "" (replicate k "0")) = true ∧
  dec_fold 0 (String.concat "" (replicate k "0")) = 0.
Proof.
  induction k as [|k IH]; [done|]. destruct k; [done|].
  change (String.concat "" (replicate (S (S k)) "0")) with (String "0" (String.concat "" (replicate (S k) "0"))).
  exact IH.
Qed.

Lemma zfill_spec w s :
  str_all is_digit s = true → s ≠ EmptyString →
  str_all is_digit (zfill w s) = true ∧ dec_fold 0 (zfill w s) = dec_fold 0 s ∧ zfill w s ≠ EmptyString.
Proof.
  intros Hd Hne. destruct (zeros_spec (w - String.length s)) as [Z1 Z2]. unfold zfill.
  rewrite str_all_app, dec_fold_app, Z1, Z2, Hd. split; [done|]. split; [done|].
  by apply string_app_ne.
Qed.

Lemma digit_not_sign c : is_digit c = true → c ≠ "-"%char ∧ c ≠ "+"%char.
Proof. intros Hc. split; intros ->; discriminate. Qed.

(** Facts on single characters, checked on all 256 of them. *)
Lemma format_char c :
  is_digit c || bool_decide (c = "-"%char) = true → negb (py_isspace c) = true ∧ c ≠ ":"%char.
Proof. destruct c as [[] [] [] [] [] [] [] []]; vm_compute; try discriminate; split; congruence. Qed.

Lemma format_0d_chars w n : str_all (λ c, is_digit c || bool_decide (c = "-"%char)) (format_0d w n) = true.
Proof.
  assert (∀ w' m, 0 ≤ m → str_all is_digit (zfill w' (str_of_nat m)) = true) as Hz.
  { intros w' m Hm. destruct (str_of_nat_spec m Hm) as (H1 & _ & H3). by apply zfill_spec. }
  unfold format_0d. destruct (n <? 0) eqn:Hn; simpl.
  - apply Z.ltb_lt in Hn. rewrite string_app_nil_l.
    apply (str_all_impl is_digit); [intros c ->; done|]. apply Hz. lia.
  - apply Z.ltb_ge in Hn. apply (str_all_impl is_digit); [intros c ->; done|]. by apply Hz.
Qed.

Lemma format_0d_nonspace w n : str_all (λ c, negb (py_isspace c)) (format_0d w n) = true.
Proof. apply (str_all_impl _ _ _ (λ c H, proj1 (format_char c H)) (format_0d_chars w n)). Qed.

Lemma py_int_format_0d w n : py_int (format_0d w n) = Ok n.
Proof.
  unfold py_int. rewrite int_strip_id by apply format_0d_nonspace. unfold format_0d.
  destruct (n <? 0) eqn:Hn; [apply Z.ltb_lt in Hn | apply Z.ltb_ge in Hn].
  - destruct (str_of_nat_spec (- n)) as (H1 & H2 & H3); [lia|].
    destruct (zfill_spec (w - 1) _ H1 H3) as (Z1 & Z2 & Z3).
    rewrite string_app_cons, string_app_nil_l.
    set (s := zfill (w - 1) (str_of_nat (- n))) in *. clearbody s. simpl.
    rewrite digits_value_all by done. simpl. rewrite Z2, H2. by rewrite Z.opp_involutive.
  - destruct (str_of_nat_spec n) as (H1 & H2 & H3); [lia|].
    destruct (zfill_spec w _ H1 H3) as (Z1 & Z2 & Z3).
    destruct (zfill w (str_of_nat n)) as [|c r] eqn:Hs; [done|].
    assert (is_digit c = true) as Hc by (simpl in Z1; by apply andb_true_iff in Z1 as [? _]).
    destruct (digit_not_sign c Hc) as [Hm Hp].
    destruct (ascii_dec c "-") as [E|_]; [by apply Hm in E|].
    destruct (ascii_dec c "+") as [E|_]; [by apply Hp in E|].
    rewrite <-Hs, digits_value_all by (by rewrite Hs). by rewrite Hs, Z2, H2.
Qed.

(** ** [str.split] *)

Lemma py_split_app sep a rest :
  str_all (λ c, negb (bool_decide (c = sep))) a = true →
  py_split sep (a +:+ String sep rest) = a :: py_split sep rest.
Proof.
  induction a as [|c a IH]; app_simpl; intros Ha; simpl.
  - by destruct (ascii_dec sep sep).
  - apply andb_true_iff in Ha as [Hc Ha]. rewrite IH by done.
    destruct (ascii_dec c sep) as [->|_]; [|done]. by rewrite bool_decide_true in Hc.
Qed.

Lemma py_split_none sep a :
  str_all (λ c, negb (bool_decide (c = sep))) a = true → py_split sep a = [a].
Proof.
  induction a as [|c a IH]; intros Ha; simpl; [done|].
  apply andb_true_iff in Ha as [Hc Ha]. rewrite IH by done.
  destruct (ascii_dec c sep) as [->|_]; [|done]. by rewrite bool_decide_true in Hc.
Qed.

Lemma format_0d_nocolon w n : str_all (λ c, negb (bool_decide (c = ":"%char))) (format_0d w n) = true.
Proof.
  refine (str_all_impl _ _ _ _ (format_0d_chars w n)).
  intros c H. apply negb_true_iff, bool_decide_eq_false_2, (format_char c H).
Qed.

(** ** The year, month and day groups *)

Lemma match_seq_app p s m t :
  match_seq p s = Some (m, EmptyString) → match_seq p (s +:+ t) = Some (m, t).
Proof.
  revert s m. induction p as [|k p IH]; intros [|c r] m; simpl; try done.
  - by intros [= <-].
  - intros H. rewrite ?string_app_cons. simpl. destruct (cls_matches k c); [|done].
    destruct (match_seq p r) as [[m' rest]|] eqn:E; [|done]. injection H as <- ->.
    by rewrite (IH _ _ E).
Qed.

Lemma match_group_ext {A} alts s (k1 k2 : string → string → option A) :
  (∀ x r, k1 x r = k2 x r) → match_group alts s k1 = match_group alts s k2.
Proof.
  intros Hk. induction alts as [|p alts IH]; simpl; [done|].
  destruct (match_seq p s) as [[x r]|]; [rewrite Hk|]; by rewrite IH.
Qed.

Lemma match_group_map {A B} (f : A → B) alts s k :
  match_group alts s (λ x r, f <$> k x r) = f <$> match_group alts s k.
Proof.
  induction alts as [|p alts IH]; simpl; [done|].
  destruct (match_seq p s) as [[x r]|]; [|done]. by destruct (k x r).
Qed.

Lemma Y_check_all : all_in_range Y_check 1 (Z.to_nat 9999) = true.
Proof. vm_compute. reflexivity. Qed.

Lemma md_check_all : all_in_range (λ m, all_in_range (md_check 2 m) 1 31) 1 12 = true.
Proof. vm_compute. reflexivity. Qed.

(** The months 2 to 9 written with one digit also read back. *)
Lemma md1_check_all : all_in_range (λ m, all_in_range (md_check 1 m) 1 31) 2 8 = true.
Proof. vm_compute. reflexivity. Qed.

Lemma days_in_month_le_31 y m : 1 ≤ m ≤ 12 → days_in_month y m ≤ 31.
Proof. intros Hm. unfold days_in_month. int_cases m 1 12; destruct (is_leap y); vm_compute; discriminate. Qed.

Lemma Y_check_spec y t :
  1 ≤ y ≤ 9999 →
  ∃ ys, py_int ys = Ok y ∧
    ∀ A (k : string → string → option A), match_group Y_ALTS (format_0d 4 y +:+ t) k = k ys t.
Proof.
  intros Hy. pose proof (all_in_range_spec _ _ _ y Y_check_all ltac:(rewrite Z2Nat.id; lia)) as Hc.
  unfold Y_check in Hc.
  destruct (match_seq _ (format_0d 4 y)) as [[ys [|]]|] eqn:E; try done.
  apply bool_decide_eq_true_1 in Hc. exists ys. split; [done|]. intros A k.
  unfold Y_ALTS. cbn [match_group]. rewrite (match_seq_app _ _ _ _ E). by destruct (k ys t).
Qed.

Lemma md_check_spec wm m d :
  md_check wm m d = true →
  ∃ ms ds, py_int ms = Ok m ∧ py_int ds = Ok d ∧
    match_group m_ALTS (format_0d wm m +:+ format_0d 2 d)
      (λ ms r2, match_group d_ALTS r2 (λ ds r3, Some (ms, ds, r3))) = Some (ms, ds, EmptyString).
Proof.
  unfold md_check. destruct (match_group _ _ _) as [[[ms ds] [|]]|] eqn:E; try done.
  intros [H1 H2]%bool_decide_eq_true_1. by exists ms, ds.
Qed.

(** A string made of a four-digit year and month and day groups that read
    back is parsed as the date [mk_date] builds from them. *)
Lemma parse_ymd_groups wm y m d :
  1 ≤ y ≤ 9999 → md_check wm m d = true →
  parse_yyyymmdd (format_0d 4 y +:+ format_0d wm m +:+ format_0d 2 d) = mk_date y m d.
Proof.
  intros Hy Hmd. unfold parse_yyyymmdd, strptime_ymd.
  destruct (Y_check_spec y (format_0d wm m +:+ format_0d 2 d)) as (ys & Hys & HY); [done|].
  rewrite HY. destruct (md_check_spec wm m d Hmd) as (ms & ds & Hms & Hds & E).
  rewrite (match_group_ext _ _ _
    (λ x r, (λ '(a, b, c), (ys, a, b, c)) <$> match_group d_ALTS r (λ ds r3, Some (x, ds, r3)))).
  2: { intros x r. rewrite <-match_group_map. done. }
  rewrite match_group_map, E. simpl. by rewrite Hys, Hms, Hds.
Qed.

Lemma date_ok_bounds y m d :
  date_ok (mkdate y m d) → 1 ≤ y ≤ 9999 ∧ 1 ≤ m ≤ 12 ∧ 1 ≤ d ≤ 31.
Proof.
  intros Hb. unfold date_ok, date_okb, MINYEAR, MAXYEAR in Hb. simpl in Hb.
  rewrite !andb_true_iff, !Z.leb_le in Hb. destruct Hb as [[[[[H1 H2] H3] H4] H5] H6].
  pose proof (days_in_month_le_31 y m ltac:(lia)). lia.
Qed.

Lemma mk_date_ok_eq d : date_ok d → mk_date (year d) (month d) (day d) = Ok d.
Proof. intros Hd. unfold mk_date. rewrite Hd. by destruct d. Qed.

Lemma py_int_value_error s : (∃ n, py_int s = Ok n) ∨ py_int s = raise ValueError.
Proof.
  unfold py_int. cbv zeta.
  match goal with |- context [match ?r with Some v => Ok v | None => _ end] => destruct r end;
    [left; eexists|right]; reflexivity.
Qed.

(** C24: The two parsers fail only with [ValueError]: a malformed time
    (not three colon-separated integers) or date (no match of the pattern,
    characters left after it, or no such day) raises [ValueError] and
    nothing else, which is what the callers' error handling must expect. *)
Theorem parsers_raise_value_error v :
  ((∃ q, parse_time_to_minutes v = Ok q) ∨ parse_time_to_minutes v = raise ValueError) ∧
  ((∃ d, parse_yyyymmdd v = Ok d) ∨ parse_yyyymmdd v = raise ValueError).
Proof.
  split.
  - unfold parse_time_to_minutes.
    destruct (py_split _ _) as [|h [|m [|s [|]]]]; auto.
    destruct (py_int_value_error h) as [[h' ->]| ->]; simpl; [|auto].
    destruct (py_int_value_error m) as [[m' ->]| ->]; simpl; [|auto].
    destruct (py_int_value_error s) as [[s' ->]| ->]; simpl; eauto.
  - unfold parse_yyyymmdd. destruct (strptime_ymd v) as [[[[y m] d] rest]|]; [|auto].
    case_decide; [auto|].
    destruct (py_int_value_error y) as [[y' ->]| ->]; simpl; [|auto].
    destruct (py_int_value_error m) as [[m' ->]| ->]; simpl; [|auto].
    destruct (py_int_value_error d) as [[d' ->]| ->]; simpl; [|auto].
    unfold mk_date. destruct (date_okb _ _ _); eauto.
Qed.

(** C28: [parse_yyyymmdd] does not require eight digits: for every valid
    date of February to September, the seven-character string with the
    month written as one digit ([f"{y:04d}{m}{d:02d}"], which
    [format_yyyymmdd] never writes) is parsed as that same date, because the
    month group falls back to [[1-9]]. *)
Theorem strptime_unpadded_month d :
  date_ok d → 2 ≤ month d ≤ 9 →
  parse_yyyymmdd (format_0d 4 (year d) +:+ format_0d 1 (month d) +:+ format_0d 2 (day d)) = Ok d.
Proof.
  intros Hd Hm. destruct d as [y m dd]. simpl in Hm |- *.
  destruct (date_ok_bounds y m dd Hd) as (Hy & _ & Hdd).
  rewrite parse_ymd_groups; [by apply (mk_date_ok_eq (mkdate y m dd))|done|].
  pose proof (all_in_range_spec _ _ _ m md1_check_all ltac:(lia)) as Hc. cbv beta in Hc.
  exact (all_in_range_spec _ _ _ dd Hc ltac:(lia)).
Qed.

(** C23: [parse_time_to_minutes] reads back a GTFS time written as
    ["HH:MM:SS"] with two-digit (or wider, or signed) fields, hours past 24
    included: the result is [h * 60 + m + s / 60]. *)
Theorem parse_time_roundtrip h m s :
  parse_time_to_minutes (format_0d 2 h +:+ ":" +:+ format_0d 2 m +:+ ":" +:+ format_0d 2 s)
    = Ok (inject_Z h * 60 + inject_Z m + inject_Z s / 60)%Q.
Proof.
  unfold parse_time_to_minutes. rewrite strip_id.
  2: { rewrite !str_all_app, !format_0d_nonspace. done. }
  rewrite !string_app_cons, !string_app_nil_l.
  rewrite !py_split_app, py_split_none by apply format_0d_nocolon.
  by rewrite !py_int_format_0d.
Qed.

(** C9: [parse_yyyymmdd] reads back [format_yyyymmdd]: every valid date
    (years 1 to 9999, written with four digits) parses to itself. *)
Theorem parse_yyyymmdd_roundtrip d :
  date_ok d → parse_yyyymmdd (format_yyyymmdd d) = Ok d.
Proof.
  intros Hd. destruct d as [y m dd]. unfold format_yyyymmdd. simpl.
  destruct (date_ok_bounds y m dd Hd) as (Hy & Hm & Hdd).
  rewrite parse_ymd_groups; [by apply (mk_date_ok_eq (mkdate y m dd))|done|].
  pose proof (all_in_range_spec _ _ _ m md_check_all ltac:(lia)) as Hc. cbv beta in Hc.
  exact (all_in_range_spec _ _ _ dd Hc ltac:(lia)).
Qed.

Lemma strptime_unpadded_month_witness :
  parse_yyyymmdd (format_0d 4 2024 +:+ format_0d 1 3 +:+ format_0d 2 15) = Ok (mkdate 2024 3 15).
Proof. apply (strptime_unpadded_month (mkdate 2024 3 15)); vm_compute; [reflexivity|split; discriminate]. Defined.

Lemma parse_yyyymmdd_roundtrip_witness :
  parse_yyyymmdd (format_yyyymmdd (mkdate 2024 2 29)) = Ok (mkdate 2024 2 29).
Proof. apply parse_yyyymmdd_roundtrip. vm_compute. reflexivity. Defined.

End Parse.
