(* ===== verification/StopTimes.v ===== *)
(** * StopTimes: the scan of [stop_times.txt] (lines 182-208)

    For every trip of [trip_meta] the loop keeps, in five dicts, the
    smallest and the largest [stop_sequence] seen so far, the [stop_id] of
    the rows that set them, and the departure (or arrival) time of the row
    that last lowered the smallest sequence and had a time.  A row of
    [csv.DictReader] is a [gmap] from column names to values; [row[k]]
    raises [KeyError] on a missing column and [row.get(k)] is a lookup.

    The scan is parameterised (Section [Scan]) by the two parsers it calls,
    [int] for [stop_sequence] and [parse_time_to_minutes], so that its
    theorems hold whatever they return.  The theorems project the five
    dicts on one trip, show that this projection is a fold over that trip's
    rows only ([scan_project]), and characterise the fold: minimum and
    maximum sequence, first row reaching them, and the departure that is
    kept, which need not belong to the row of minimum sequence. *)

From S2P Require Import Prelude PyDate DayRef Calendar Parse.

Module StopTimes.
Local Open Scope Z_scope.

(** A row of [csv.DictReader]. *)
Abbreviation Row := (gmap string string).

(** [trip_meta[trip_id]] (lines 176-180). *)
Record TripMeta := {
  tm_line : string;
  tm_service_id : string;
  tm_direction_id : Z;
}.

(** [a or b] for values of [row.get]: [a] when it is a non-empty string. *)
Definition py_or (a b : option string) : option string :=
  match a with
  | Some v => if decide (v = "") then b else a
  | None => b
  end.

(** The five dicts of lines 183-187. *)
Record ScanState := mkScan {
  first_stop_seq : gmap string Z;
  last_stop_seq : gmap string Z;
  first_departure_min : gmap string Q;
  first_stop_id : gmap string string;
  last_stop_id : gmap string string;
}.

Definition scan_init : ScanState := mkScan ∅ ∅ ∅ ∅ ∅.

(** [trip_id not in first_stop_seq or seq < first_stop_seq[trip_id]] *)
Definition lowers (cur : option Z) (seq : Z) : bool :=
  match cur with None => true | Some c => seq <? c end.

(** [trip_id not in last_stop_seq or seq > last_stop_seq[trip_id]] *)
Definition raises (cur : option Z) (seq : Z) : bool :=
  match cur with None => true | Some c => c <? seq end.

Section Scan.
Context (parse_int : string → res Z) (parse_time_to_minutes : string → res Q).
Context (trip_meta : gmap string TripMeta).

(** The body of the loop for one row (lines 191-208). *)
Definition scan_row (st : ScanState) (row : Row) : res ScanState :=
  trip_id ← dict_get row "trip_id";
  if decide (trip_meta !! trip_id = None) then Ok st else
  seq_s ← dict_get row "stop_sequence";
  seq ← parse_int seq_s;
  sid ← dict_get row "stop_id";
  let departure := py_or (row !! "departure_time") (row !! "arrival_time") in
  st1 ←
    (if lowers (first_stop_seq st !! trip_id) seq then
       let fsq := <[trip_id := seq]> (first_stop_seq st) in
       let fsi := <[trip_id := sid]> (first_stop_id st) in
       match departure with
       | Some dep =>
           if decide (dep = "") then Ok (mkScan fsq (last_stop_seq st) (first_departure_min st) fsi (last_stop_id st))
           else
             (m ← parse_time_to_minutes dep;
              Ok (mkScan fsq (last_stop_seq st) (<[trip_id := m]> (first_departure_min st)) fsi (last_stop_id st)))
       | None => Ok (mkScan fsq (last_stop_seq st) (first_departure_min st) fsi (last_stop_id st))
       end
     else Ok st);
  if raises (last_stop_seq st1 !! trip_id) seq then
    Ok (mkScan (first_stop_seq st1) (<[trip_id := seq]> (last_stop_seq st1))
               (first_departure_min st1) (first_stop_id st1) (<[trip_id := sid]> (last_stop_id st1)))
  else Ok st1.

(** [for row in csv.DictReader(f)]: the first exception ends the run. *)
Fixpoint scan_from (st : ScanState) (rows : list Row) : res ScanState :=
  match rows with
  | [] => Ok st
  | row :: rows' => st' ← scan_row st row; scan_from st' rows'
  end.

Definition scan_stop_times (rows : list Row) : res ScanState := scan_from scan_init rows.

(** ** One trip's view of the scan

    [project t st] is what the five dicts hold for trip [t]; [trip_step]
    is the loop body restricted to one trip, on the row's parsed
    [(seq, stop_id, departure)]; [trip_entries t rows] lists those triples
    for the rows of [t], in file order. *)
Record TripAcc := mkAcc {
  a_fseq : option Z;
  a_fsid : option string;
  a_fdep : option Q;
  a_lseq : option Z;
  a_lsid : option string;
}.

Definition project (t : string) (st : ScanState) : TripAcc :=
  mkAcc (first_stop_seq st !! t) (first_stop_id st !! t) (first_departure_min st !! t)
        (last_stop_seq st !! t) (last_stop_id st !! t).

Definition acc_init : TripAcc := mkAcc None None None None None.

Definition trip_step (a : TripAcc) (e : Z * string * option string) : res TripAcc :=
  let '(seq, sid, departure) := e in
  a1 ←
    (if lowers (a_fseq a) seq then
       match departure with
       | Some dep =>
           if decide (dep = "") then Ok (mkAcc (Some seq) (Some sid) (a_fdep a) (a_lseq a) (a_lsid a))
           else (m ← parse_time_to_minutes dep;
                 Ok (mkAcc (Some seq) (Some sid) (Some m) (a_lseq a) (a_lsid a)))
       | None => Ok (mkAcc (Some seq) (Some sid) (a_fdep a) (a_lseq a) (a_lsid a))
       end
     else Ok a);
  if raises (a_lseq a1) seq then Ok (mkAcc (a_fseq a1) (a_fsid a1) (a_fdep a1) (Some seq) (Some sid))
  else Ok a1.

Fixpoint trip_fold (a : TripAcc) (l : list (Z * string * option string)) : res TripAcc :=
  match l with
  | [] => Ok a
  | e :: l' => a' ← trip_step a e; trip_fold a' l'
  end.

Definition row_entry (t : string) (row : Row) : list (Z * string * option string) :=
  match row !! "trip_id", row !! "stop_sequence", row !! "stop_id" with
  | Some t', Some seq_s, Some sid =>
      if decide (t' = t ∧ trip_meta !! t ≠ None) then
        match parse_int seq_s with
        | Ok seq => [(seq, sid, py_or (row !! "departure_time") (row !! "arrival_time"))]
        | Err _ => []
        end
      else []
  | _, _, _ => []
  end.

Definition trip_entries (t : string) (rows : list Row) : list (Z * string * option string) :=
  rows ≫= row_entry t.

(** Where the recorded departure comes from.  A running minimum of [l] is
    an entry whose sequence is smaller than that of every entry before it
    (the rows that take the branch of line 200).  The departure recorded
    after [l] is the time of the last running minimum that has a time, and
    there is none when no running minimum has one. *)
Definition is_running_min (l : list (Z * string * option string)) (i : nat) : Prop :=
  ∃ e, l !! i = Some e ∧ ∀ j e', (j < i)%nat → l !! j = Some e' → e.1.1 < e'.1.1.

(** [if departure:] for the departure of an entry. *)
Definition has_time (e : Z * string * option string) : bool :=
  match e.2 with Some d => negb (bool_decide (d = "")) | None => false end.

Definition dep_source (l : list (Z * string * option string)) (fdep : option Q) : Prop :=
  match fdep with
  | None => ∀ j e, is_running_min l j → l !! j = Some e → has_time e = false
  | Some q =>
      ∃ i e d, l !! i = Some e ∧ is_running_min l i ∧ e.2 = Some d ∧ d ≠ "" ∧
        parse_time_to_minutes d = Ok q ∧
        ∀ j e', (i < j)%nat → is_running_min l j → l !! j = Some e' → has_time e' = false
  end.

End Scan.

(** ** Reference characterisation of the first and last stop

    [is_first_best key l i]: the entry at index [i] of [l] has the least
    [key] of [l], and every entry before it has a strictly larger one; it is
    the row that "first write wins" selects.  The first stop takes
    [key := seq] and the last stop [key := - seq]. *)
Abbreviation Entry := (Z * string * option string)%type.

Definition e_seq (e : Entry) : Z := e.1.1.
Definition e_sid (e : Entry) : string := e.1.2.
Definition e_dep (e : Entry) : option string := e.2.

Definition is_first_best (key : Entry → Z) (l : list Entry) (i : nat) : Prop :=
  ∃ e, l !! i = Some e ∧
    ∀ j e', l !! j = Some e' → key e ≤ key e' ∧ ((j < i)%nat → key e < key e').

Definition is_first_min := is_first_best e_seq.
Definition is_first_max := is_first_best (λ e, - e_seq e).

(** [is_first_best] decided on a concrete list. *)
Definition is_first_bestb (key : Entry → Z) (l : list Entry) (i : nat) : bool :=
  match l !! i with
  | None => false
  | Some e =>
      forallb (λ je : nat * Entry,
        bool_decide (key e ≤ key je.2) && (negb (je.1 <? i)%nat || bool_decide (key e < key je.2)))
        (imap pair l)
  end.

(** What an accumulator [(best, best_sid)] holds after the entries [l]. *)
Definition best_ok (key : Entry → Z) (l : list Entry) (cur : option Z) (csid : option string) : Prop :=
  match cur, csid with
  | None, None => l = []
  | Some c, Some s => ∃ i e, is_first_best key l i ∧ l !! i = Some e ∧ key e = c ∧ e_sid e = s
  | _, _ => False
  end.

(** [k in d], on the result [d !! k] of the lookup. *)
Definition py_in {A} (o : option A) : bool := match o with Some _ => true | None => false end.

(** The shape of one trip's accumulator: a departure is only recorded with
    a first stop, and the first and last stop are set together, each with
    its sequence number. *)
Definition acc_ok (a : TripAcc) : bool :=
  implb (py_in (a_fdep a)) (py_in (a_fseq a)) &&
  Bool.eqb (py_in (a_fseq a)) (py_in (a_fsid a)) &&
  Bool.eqb (py_in (a_fseq a)) (py_in (a_lseq a)) &&
  Bool.eqb (py_in (a_lseq a)) (py_in (a_lsid a)).

(** The invariant of the five dicts: every trip's projection has the shape
    above, and only trips of [trip_meta] appear. *)
Definition scan_inv (trip_meta : gmap string TripMeta) (st : ScanState) : Prop :=
  ∀ t, acc_ok (project t st) = true ∧ (is_Some (first_stop_seq st !! t) → is_Some (trip_meta !! t)).

(** Sample data: trip ["T1"] of line A has three stops, listed out of
    order, and the row of its smallest sequence has neither a departure nor
    an arrival time; trip ["T2"] has two rows in order; trip ["X"] belongs
    to no line of [LINES]. *)
Definition ex_row (trip seq stop time : string) : Row :=
  list_to_map [("trip_id", trip); ("stop_sequence", seq); ("stop_id", stop);
               ("departure_time", time); ("arrival_time", time)].

Definition ex_meta : gmap string TripMeta :=
  {[ "T1" := {| tm_line := "A"; tm_service_id := "S"; tm_direction_id := 0 |};
     "T2" := {| tm_line := "A"; tm_service_id := "S"; tm_direction_id := 1 |} ]}.

Definition ex_rows : list Row :=
  [ex_row "T1" "2" "P2" "08:10:00"; ex_row "T1" "1" "P1" "";
   ex_row "T1" "3" "P3" "08:20:00"; ex_row "X" "1" "Q1" "07:00:00";
   ex_row "T2" "1" "R1" "09:00:00"; ex_row "T2" "2" "R2" "09:15:00"].

Definition ex_scan : ScanState :=
  match scan_stop_times Parse.py_int Parse.parse_time_to_minutes ex_meta ex_rows with
  | Ok st => st
  | Err _ => scan_init
  end.

Lemma is_first_bestb_sound key l i : is_first_bestb key l i = true → is_first_best key l i.
Proof.
  unfold is_first_bestb. destruct (l !! i) as [e|] eqn:He; [|done].
  intros Hall. exists e. split; [done|]. intros j e' Hj.
  assert (In (j, e') (imap pair l)) as Hin.
  { apply list_elem_of_In, list_elem_of_lookup. exists j. by rewrite list_lookup_imap, Hj. }
  pose proof (proj1 (forallb_forall _ _) Hall (j, e') Hin) as Hall'. clear Hall. rename Hall' into Hall.
  simpl in Hall. apply andb_true_iff in Hall as [H1 H2].
  apply bool_decide_eq_true_1 in H1. split; [done|]. intros Hlt.
  apply Nat.ltb_lt in Hlt. rewrite Hlt in H2. simpl in H2. by apply bool_decide_eq_true_1 in H2.
Qed.

Section ScanProofs.
Context (parse_int : string → res Z) (parse_time_to_minutes : string → res Q).
Context (trip_meta : gmap string TripMeta).

Lemma scan_row_project t st row st1 :
  scan_row parse_int parse_time_to_minutes trip_meta st row = Ok st1 →
  (row_entry parse_int trip_meta t row = [] ∧ project t st1 = project t st) ∨
  (∃ e, row_entry parse_int trip_meta t row = [e] ∧
        trip_step parse_time_to_minutes (project t st) e = Ok (project t st1)).
Proof.
  unfold scan_row, dict_get, row_entry. intros H.
  destruct (row !! "trip_id") as [t'|]; simpl in H; [|discriminate].
  case_decide as Hm.
  { injection H as <-. left. split; [|done].
    destruct (row !! "stop_sequence"), (row !! "stop_id"); try done.
    case_decide as Hc; [|done]. destruct Hc as [-> Hc]. done. }
  destruct (row !! "stop_sequence") as [seq_s|]; simpl in H; [|discriminate].
  destruct (parse_int seq_s) as [seq|]; simpl in H; [|discriminate].
  destruct (row !! "stop_id") as [sid|]; simpl in H; [|discriminate].
  destruct (decide (t' = t)) as [<-|Hne].
  - right. rewrite decide_True by done. eexists; split; [done|].
    unfold trip_step, project; simpl.
    destruct (lowers (first_stop_seq st !! t') seq);
      [destruct (py_or _ _) as [dep|]; [case_decide; [|destruct (parse_time_to_minutes dep)]|]|];
      simpl in H |- *; try discriminate;
      rewrite ?lookup_insert_eq in H |- *; simpl in H |- *;
      destruct (raises _ seq); injection H as <-; simpl; by rewrite ?lookup_insert_eq.
  - left. rewrite decide_False by naive_solver. split; [done|].
    unfold project.
    destruct (lowers (first_stop_seq st !! t') seq);
      [destruct (py_or _ _) as [dep|]; [case_decide; [|destruct (parse_time_to_minutes dep)]|]|];
      simpl in H; try discriminate;
      destruct (raises _ seq); injection H as <-; simpl; by rewrite ?lookup_insert_ne.
Qed.

Lemma raises_opp cur seq : raises cur seq = lowers (Z.opp <$> cur) (- seq).
Proof. destruct cur; simpl; [apply eq_iff_eq_true; rewrite !Z.ltb_lt; lia | done]. Qed.

Lemma best_ok_snoc key l cur csid e :
  best_ok key l cur csid →
  best_ok key (l ++ [e]) (if lowers cur (key e) then Some (key e) else cur)
                         (if lowers cur (key e) then Some (e_sid e) else csid).
Proof.
  destruct cur as [c|], csid as [s|]; simpl; try done.
  - intros (i & e0 & [e1 [He1 Hb]] & Hi & Hk & Hs). rewrite He1 in Hi. injection Hi as <-.
    destruct (key e <? c) eqn:Hlt; [apply Z.ltb_lt in Hlt | apply Z.ltb_ge in Hlt].
    + exists (length l), e. split; [|by rewrite list_lookup_middle].
      exists e. split; [by rewrite list_lookup_middle|].
      intros j e' [[Hj Hl]|[-> <-]]%lookup_snoc_Some; [|lia].
      specialize (Hb _ _ Hl). lia.
    + exists i, e1. assert (i < length l)%nat by (by apply lookup_lt_is_Some_1).
      rewrite lookup_app_l by done. split; [|done].
      exists e1. rewrite lookup_app_l by done. split; [done|].
      intros j e' [[Hj Hl]|[-> <-]]%lookup_snoc_Some; [by apply Hb|lia].
  - intros ->. exists 0%nat, e. split; [|done]. exists e. split; [done|].
    intros [|j] e'; simpl; [intros [= <-]; lia | by rewrite lookup_nil].
Qed.

Lemma trip_step_spec a seq sid dep a' :
  trip_step parse_time_to_minutes a (seq, sid, dep) = Ok a' →
  a_fseq a' = (if lowers (a_fseq a) seq then Some seq else a_fseq a) ∧
  a_fsid a' = (if lowers (a_fseq a) seq then Some sid else a_fsid a) ∧
  a_lseq a' = (if raises (a_lseq a) seq then Some seq else a_lseq a) ∧
  a_lsid a' = (if raises (a_lseq a) seq then Some sid else a_lsid a) ∧
  (if lowers (a_fseq a) seq then
     match dep with
     | Some d => if decide (d = "") then a_fdep a' = a_fdep a
                 else ∃ q, parse_time_to_minutes d = Ok q ∧ a_fdep a' = Some q
     | None => a_fdep a' = a_fdep a
     end
   else a_fdep a' = a_fdep a).
Proof.
  unfold trip_step. destruct (lowers (a_fseq a) seq);
    [destruct dep as [d|]; [case_decide; [|destruct (parse_time_to_minutes d) as [q|]]|]|];
    simpl; try discriminate; destruct (raises _ seq); intros [= <-]; simpl; eauto 10.
Qed.

Lemma trip_fold_app a l1 l2 :
  trip_fold parse_time_to_minutes a (l1 ++ l2) =
    (a1 ← trip_fold parse_time_to_minutes a l1; trip_fold parse_time_to_minutes a1 l2).
Proof.
  revert a. induction l1 as [|e l1 IH]; intros a; simpl; [done|].
  destruct (trip_step _ a e); simpl; [apply IH | done].
Qed.

Lemma trip_fold_snoc a l e a' :
  trip_fold parse_time_to_minutes a (l ++ [e]) = Ok a' →
  ∃ a1, trip_fold parse_time_to_minutes a l = Ok a1 ∧ trip_step parse_time_to_minutes a1 e = Ok a'.
Proof.
  rewrite trip_fold_app. destruct (trip_fold _ a l) as [a1|]; simpl; [|done].
  intros H. exists a1. split; [done|]. by destruct (trip_step _ a1 e); simpl in H; [injection H as <-|].
Qed.

Lemma trip_fold_best l a :
  trip_fold parse_time_to_minutes acc_init l = Ok a →
  best_ok e_seq l (a_fseq a) (a_fsid a) ∧
  best_ok (λ e, - e_seq e) l (Z.opp <$> a_lseq a) (a_lsid a).
Proof.
  revert a. induction l as [|[[seq sid] dep] l IH] using rev_ind; intros a.
  { by intros [= <-]. }
  intros (a1 & Ha1 & Hs)%trip_fold_snoc. destruct (IH _ Ha1) as [Hf Hl].
  destruct (trip_step_spec _ _ _ _ _ Hs) as (-> & -> & -> & -> & _).
  split; [by apply (best_ok_snoc e_seq l _ _ (seq, sid, dep))|].
  rewrite raises_opp. pose proof (best_ok_snoc (λ e, - e_seq e) l _ _ (seq, sid, dep) Hl) as H.
  by destruct (lowers _ _).
Qed.

Lemma running_min_prefix l e j :
  (j < length l)%nat → is_running_min (l ++ [e]) j ↔ is_running_min l j.
Proof.
  intros Hj. unfold is_running_min. rewrite lookup_app_l by done.
  split; intros (e0 & He0 & Hlt); exists e0; split; try done; intros j' e' Hj' He'.
  - apply (Hlt j'); [done|]. by rewrite lookup_app_l by lia.
  - rewrite lookup_app_l in He' by lia. by apply (Hlt j').
Qed.

Lemma running_min_last l e cur csid :
  best_ok e_seq l cur csid →
  is_running_min (l ++ [e]) (length l) ↔ lowers cur (e_seq e) = true.
Proof.
  unfold is_running_min. rewrite list_lookup_middle by done.
  destruct cur as [c|], csid as [s'|]; simpl; try done.
  - intros (i & e0 & [e1 [He1 Hb]] & Hi & Hk & _). rewrite He1 in Hi. injection Hi as <-.
    rewrite Z.ltb_lt. split.
    + intros (? & [= <-] & Hlt). rewrite <-Hk. apply (Hlt i); [by apply lookup_lt_is_Some_1|].
      by rewrite lookup_app_l by (by apply lookup_lt_is_Some_1).
    + intros Hlt. exists e. split; [done|]. intros j e' Hj He'.
      rewrite lookup_app_l in He' by done. specialize (Hb _ _ He'). unfold e_seq in *. lia.
  - intros ->. split; [done|]. intros _. exists e. split; [done|]. intros j e' Hj. simpl in Hj. lia.
Qed.

Lemma dep_source_snoc l e fdep :
  dep_source parse_time_to_minutes l fdep →
  (is_running_min (l ++ [e]) (length l) → has_time e = false) →
  dep_source parse_time_to_minutes (l ++ [e]) fdep.
Proof.
  intros Hd Hlast. destruct fdep as [q|]; simpl in *.
  - destruct Hd as (i & e0 & d & Hi & Hr & Hd & Hne & Hq & Hafter).
    assert (i < length l)%nat by (by apply lookup_lt_is_Some_1).
    exists i, e0, d. rewrite lookup_app_l by done. repeat split; try done.
    + by apply (running_min_prefix l e i).
    + intros j e' Hij Hr' [[Hj He']|[-> <-]]%lookup_snoc_Some; [|by apply Hlast].
      apply (Hafter j e'); [done| |done]. by apply (running_min_prefix l e j).
  - intros j e' Hr' [[Hj He']|[-> <-]]%lookup_snoc_Some; [|by apply Hlast].
    apply (Hd j e'); [|done]. by apply (running_min_prefix l e j).
Qed.

(** After the rows [l] of a trip, [first_departure_min] holds what
    [dep_source] says. *)
Lemma trip_fold_departure l a :
  trip_fold parse_time_to_minutes acc_init l = Ok a → dep_source parse_time_to_minutes l (a_fdep a).
Proof.
  revert a. induction l as [|[[seq sid] dep] l IH] using rev_ind; intros a.
  { intros [= <-]. simpl. intros j e [? [Hj _]]. by rewrite lookup_nil in Hj. }
  intros (a1 & Ha1 & Hs)%trip_fold_snoc. pose proof (IH _ Ha1) as Hd.
  destruct (trip_fold_best _ _ Ha1) as [Hb _].
  pose proof (running_min_last l (seq, sid, dep) _ _ Hb) as Hlast.
  destruct (trip_step_spec _ _ _ _ _ Hs) as (_ & _ & _ & _ & Hfd).
  destruct (lowers (a_fseq a1) seq) eqn:Hlow.
  - destruct dep as [d|]; [case_decide as Hdn|].
    + rewrite Hfd. apply dep_source_snoc; [done|]. intros _. unfold has_time. cbn. by case_bool_decide.
    + destruct Hfd as (q & Hq & ->). exists (length l), (seq, sid, Some d), d.
      rewrite list_lookup_middle by done. repeat split; try done; [by apply Hlast|].
      intros j e' Hj _ He'. apply lookup_lt_Some in He'. rewrite length_app in He'. simpl in He'. lia.
    + rewrite Hfd. apply dep_source_snoc; [done|]. done.
  - rewrite Hfd. apply dep_source_snoc; [done|]. intros Hr. apply Hlast in Hr. cbn in Hr. congruence.
Qed.

(** Once the smallest sequence [m] is reached, rows with a sequence [≥ m]
    leave the first stop and its departure as they are. *)
Lemma trip_fold_no_lower a l a' m :
  a_fseq a = Some m → Forall (λ e, m ≤ e_seq e) l →
  trip_fold parse_time_to_minutes a l = Ok a' →
  a_fseq a' = Some m ∧ a_fsid a' = a_fsid a ∧ a_fdep a' = a_fdep a.
Proof.
  revert a. induction l as [|[[seq sid] dep] l IH]; intros a Hm Hl; cbn [trip_fold].
  { by intros [= <-]. }
  inversion Hl as [|? ? Hle Hl1]; subst.
  destruct (trip_step parse_time_to_minutes a (seq, sid, dep)) as [a1|] eqn:Hs; simpl; [|done]. intros Hf.
  destruct (trip_step_spec _ _ _ _ _ Hs) as (Hf1 & Hs1 & _ & _ & Hd1).
  rewrite Hm in Hf1, Hs1, Hd1. simpl in Hf1, Hs1, Hd1.
  replace (seq <? m) with false in Hf1, Hs1, Hd1 by (symmetry; apply Z.ltb_ge; done).
  destruct (IH a1 Hf1 Hl1 Hf) as (? & -> & ->). done.
Qed.

Lemma trip_fold_first_dep l a i e d :
  trip_fold parse_time_to_minutes acc_init l = Ok a →
  is_first_min l i → l !! i = Some e → e_dep e = Some d → d ≠ "" →
  ∃ q, parse_time_to_minutes d = Ok q ∧ a_fdep a = Some q.
Proof.
  intros Hf [e0 [He0 Hb]] He Hd Hne. rewrite He in He0. injection He0 as <-.
  rewrite <-(take_drop_middle l i e He), trip_fold_app in Hf.
  destruct (trip_fold parse_time_to_minutes acc_init (take i l)) as [a1|] eqn:H1; simpl in Hf; [|done].
  destruct (trip_step parse_time_to_minutes a1 e) as [a2|] eqn:H2; simpl in Hf; [|done].
  destruct e as [[seq sid] dep]; unfold e_dep in Hd; simpl in Hd; subst dep.
  destruct (trip_step_spec _ _ _ _ _ H2) as (Hf2 & _ & _ & _ & Hd2).
  assert (lowers (a_fseq a1) seq = true) as Hlow.
  { destruct (trip_fold_best _ _ H1) as [Hb1 _]. unfold best_ok in Hb1.
    destruct (a_fseq a1) as [c|], (a_fsid a1); simpl; try done.
    destruct Hb1 as (i0 & e1 & _ & Hi0 & <- & _). apply Z.ltb_lt.
    apply lookup_take_Some in Hi0 as [Hi0 Hlt]. exact (proj2 (Hb _ _ Hi0) Hlt). }
  rewrite Hlow in Hf2, Hd2. rewrite decide_False in Hd2 by done.
  destruct Hd2 as (q & Hq & Hq2). exists q. split; [done|].
  destruct (trip_fold_no_lower a2 (drop (S i) l) a seq Hf2) as (_ & _ & ->); [|done|done].
  apply Forall_forall. intros e' Hin. apply list_elem_of_In, list_elem_of_lookup in Hin as [j Hj].
  rewrite lookup_drop in Hj. exact (proj1 (Hb _ _ Hj)).
Qed.

Lemma scan_project t st rows st' :
  scan_from parse_int parse_time_to_minutes trip_meta st rows = Ok st' →
  trip_fold parse_time_to_minutes (project t st) (trip_entries parse_int trip_meta t rows)
    = Ok (project t st').
Proof.
  revert st. induction rows as [|row rows IH]; intros st; cbn [scan_from]; [by intros [= <-]|].
  destruct (scan_row parse_int parse_time_to_minutes trip_meta st row) as [st1|] eqn:Hr;
    cbn [mbind res_bind]; [|done]. intros Hs.
  change (trip_entries parse_int trip_meta t (row :: rows))
    with (row_entry parse_int trip_meta t row ++ trip_entries parse_int trip_meta t rows).
  destruct (scan_row_project t st row st1 Hr) as [[-> <-]|(e & -> & He)]; simpl; [by apply IH|].
  rewrite He. simpl. by apply IH.
Qed.

Lemma project_init t : project t scan_init = acc_init.
Proof. done. Qed.

Lemma trip_step_inv a e a' :
  acc_ok a = true → trip_step parse_time_to_minutes a e = Ok a' → acc_ok a' = true.
Proof.
  destruct e as [[seq sid] dep]. intros Hi Hs.
  destruct (trip_step_spec _ _ _ _ _ Hs) as (Hf & Hsid & Hl & Hlid & Hd).
  unfold acc_ok in *. rewrite Hf, Hsid, Hl, Hlid.
  destruct a as [fs fi fd ls li]; cbn [a_fseq a_fsid a_fdep a_lseq a_lsid] in *.
  destruct (lowers fs seq) eqn:Hlw; [destruct (a_fdep a')|rewrite Hd];
    destruct (raises ls seq) eqn:Hrs; destruct fs, fi, ls, li; try destruct fd; simpl in *; done.
Qed.

Lemma row_entry_meta t row e :
  row_entry parse_int trip_meta t row = [e] → is_Some (trip_meta !! t).
Proof.
  unfold row_entry. destruct (row !! "trip_id"), (row !! "stop_sequence"), (row !! "stop_id"); try done.
  case_decide as Hc; [|done]. intros _. destruct Hc as [_ Hc]. by apply not_eq_None_Some.
Qed.

Lemma scan_row_inv st row st' :
  scan_inv trip_meta st → scan_row parse_int parse_time_to_minutes trip_meta st row = Ok st' →
  scan_inv trip_meta st'.
Proof.
  intros Hi Hr t. destruct (Hi t) as [Ha Hm].
  destruct (scan_row_project t st row st' Hr) as [[_ Hp]|(e & He & Hs)].
  - split; [by rewrite Hp|].
    change (is_Some (a_fseq (project t st')) → is_Some (trip_meta !! t)). by rewrite Hp.
  - split; [by eapply trip_step_inv|]. intros _. by eapply row_entry_meta.
Qed.

Lemma scan_from_inv st rows st' :
  scan_inv trip_meta st → scan_from parse_int parse_time_to_minutes trip_meta st rows = Ok st' →
  scan_inv trip_meta st'.
Proof.
  revert st. induction rows as [|row rows IH]; intros st Hi; cbn [scan_from]; [by intros [= <-]|].
  destruct (scan_row parse_int parse_time_to_minutes trip_meta st row) as [st1|] eqn:Hr;
    cbn [mbind res_bind]; [|done].
  apply IH. by eapply scan_row_inv.
Qed.

Lemma entries_nil_project t rows st :
  scan_stop_times parse_int parse_time_to_minutes trip_meta rows = Ok st →
  trip_entries parse_int trip_meta t rows = [] → project t st = acc_init.
Proof. intros Hs He. pose proof (scan_project t _ _ _ Hs) as Hp. rewrite He in Hp. remember (project t st) as a eqn:Ha. injection Hp as Hp. by rewrite <-Hp. Qed.

Lemma trip_entries_unknown t rows :
  trip_meta !! t = None → trip_entries parse_int trip_meta t rows = [].
Proof.
  intros Ht. induction rows as [|row rows IH]; [done|].
  unfold trip_entries. rewrite bind_cons. fold (trip_entries parse_int trip_meta t rows).
  rewrite IH, app_nil_r. unfold row_entry.
  destruct (row !! "trip_id"), (row !! "stop_sequence"), (row !! "stop_id"); try done.
  rewrite decide_False; [done|]. naive_solver.
Qed.

Lemma scan_inv_init : scan_inv trip_meta scan_init.
Proof. intros t. split; [done|]. intros [x Hx]. cbn [first_stop_seq scan_init] in Hx. by rewrite lookup_empty in Hx. Qed.

(** C7: After a successful scan of [stop_times.txt], for every trip of
    [trip_meta] with rows, [first_stop_seq]/[first_stop_id] hold the
    smallest [stop_sequence] of its rows and the stop of the first row (in
    file order) that has it, and [last_stop_seq]/[last_stop_id] the largest
    and the stop of the first row that has it: ties go to the first write. *)
Theorem scan_first_last_stop t rows st :
  scan_stop_times parse_int parse_time_to_minutes trip_meta rows = Ok st →
  trip_entries parse_int trip_meta t rows ≠ [] →
  (∃ i e, is_first_min (trip_entries parse_int trip_meta t rows) i ∧
          trip_entries parse_int trip_meta t rows !! i = Some e ∧
          first_stop_seq st !! t = Some (e_seq e) ∧ first_stop_id st !! t = Some (e_sid e)) ∧
  (∃ i e, is_first_max (trip_entries parse_int trip_meta t rows) i ∧
          trip_entries parse_int trip_meta t rows !! i = Some e ∧
          last_stop_seq st !! t = Some (e_seq e) ∧ last_stop_id st !! t = Some (e_sid e)).
Proof.
  intros Hs Hne. pose proof (scan_project t scan_init rows st Hs) as Hp.
  rewrite project_init in Hp. destruct (trip_fold_best _ _ Hp) as [Hf Hl].
  cbn [project a_fseq a_fsid a_lseq a_lsid] in Hf, Hl. unfold best_ok in Hf, Hl. split.
  - destruct (first_stop_seq st !! t), (first_stop_id st !! t); try done.
    destruct Hf as (i & e & Hb & He & <- & <-). eauto 10.
  - destruct (last_stop_seq st !! t), (last_stop_id st !! t); simpl in Hl; try done.
    destruct Hl as (i & e & Hb & He & Hk & <-). exists i, e.
    split; [done|]. split; [done|]. split; [f_equal; lia|done].
Qed.

(** C12: When the row that sets a trip's first stop (the first row of
    smallest sequence) has a non-empty departure (or arrival) time, the scan
    parses it and [first_departure_min] holds that value. *)
Theorem scan_first_departure t rows st i e d :
  scan_stop_times parse_int parse_time_to_minutes trip_meta rows = Ok st →
  is_first_min (trip_entries parse_int trip_meta t rows) i →
  trip_entries parse_int trip_meta t rows !! i = Some e →
  e_dep e = Some d → d ≠ "" →
  ∃ q, parse_time_to_minutes d = Ok q ∧ first_departure_min st !! t = Some q.
Proof.
  intros Hs. pose proof (scan_project t scan_init rows st Hs) as Hp.
  rewrite project_init in Hp. apply (trip_fold_first_dep _ _ _ _ _ Hp).
Qed.

(** C11: Where [first_departure_min] comes from, for every trip and every
    row order: it holds the parsed time of the last row that lowered the
    trip's running minimum sequence (line 200) and had a departure or
    arrival time (line 203), and the trip has no entry when no such row has
    a time.  That row need not be the row of smallest sequence: when the
    latter has no time, an earlier-read row's departure stays. *)
Theorem scan_departure_source t rows st :
  scan_stop_times parse_int parse_time_to_minutes trip_meta rows = Ok st →
  dep_source parse_time_to_minutes (trip_entries parse_int trip_meta t rows) (first_departure_min st !! t).
Proof.
  intros Hs. pose proof (scan_project t scan_init rows st Hs) as Hp.
  rewrite project_init in Hp. exact (trip_fold_departure _ _ Hp).
Qed.

(** C13: The scan keeps its five dicts consistent: for every trip, a
    departure is only recorded with a first stop, first and last stop are
    set together with their sequence numbers, and only trips of
    [trip_meta] appear. So the report's test [tid in first_departure_min]
    implies [tid in first_stop_id] and [tid in last_stop_id]. *)
Theorem scan_state_invariant rows st :
  scan_stop_times parse_int parse_time_to_minutes trip_meta rows = Ok st →
  scan_inv trip_meta st.
Proof. apply scan_from_inv, scan_inv_init. Qed.

(** C27: A trip that is not in [trip_meta] (its route is not one of the
    lines) is in none of the five dicts after the scan. *)
Theorem scan_discards_unknown_trip t rows st :
  scan_stop_times parse_int parse_time_to_minutes trip_meta rows = Ok st →
  trip_meta !! t = None → project t st = acc_init.
Proof. intros Hs Ht. apply (entries_nil_project t rows st Hs), trip_entries_unknown, Ht. Qed.

End ScanProofs.

Lemma ex_scan_ok : scan_stop_times Parse.py_int Parse.parse_time_to_minutes ex_meta ex_rows = Ok ex_scan.
Proof. vm_compute. reflexivity. Qed.

(** The departure kept for a trip need not be that of its first stop: in
    [ex_rows] the row of sequence 2 (08:10) is read before the row of
    sequence 1, which has no time; the second row lowers the first stop to
    sequence 1 but leaves [first_departure_min] at 490 minutes, where the
    specification says the trip should have no entry. *)
Example stale_departure_example :
  is_first_min (trip_entries Parse.py_int ex_meta "T1" ex_rows) 1 ∧
  trip_entries Parse.py_int ex_meta "T1" ex_rows !! 1%nat = Some (1, "P1", Some "") ∧
  first_stop_id ex_scan !! "T1" = Some "P1" ∧
  Qred <$> first_departure_min ex_scan !! "T1" = Some 490%Q.
Proof.
  split; [apply is_first_bestb_sound; vm_compute; reflexivity|].
  vm_compute. auto.
Qed.

Lemma scan_departure_source_witness :
  dep_source Parse.parse_time_to_minutes (trip_entries Parse.py_int ex_meta "T1" ex_rows)
    (first_departure_min ex_scan !! "T1").
Proof. apply scan_departure_source. exact ex_scan_ok. Defined.

Lemma scan_first_last_stop_witness :
  (∃ i e, is_first_min (trip_entries Parse.py_int ex_meta "T1" ex_rows) i ∧
          trip_entries Parse.py_int ex_meta "T1" ex_rows !! i = Some e ∧
          first_stop_seq ex_scan !! "T1" = Some (e_seq e) ∧ first_stop_id ex_scan !! "T1" = Some (e_sid e)) ∧
  (∃ i e, is_first_max (trip_entries Parse.py_int ex_meta "T1" ex_rows) i ∧
          trip_entries Parse.py_int ex_meta "T1" ex_rows !! i = Some e ∧
          last_stop_seq ex_scan !! "T1" = Some (e_seq e) ∧ last_stop_id ex_scan !! "T1" = Some (e_sid e)).
Proof. eapply scan_first_last_stop; [exact ex_scan_ok|]. vm_compute. discriminate. Defined.

Lemma scan_first_departure_witness :
  ∃ q, Parse.parse_time_to_minutes "09:00:00" = Ok q ∧ first_departure_min ex_scan !! "T2" = Some q.
Proof.
  apply (scan_first_departure Parse.py_int Parse.parse_time_to_minutes ex_meta "T2" ex_rows ex_scan 0
           (1, "R1", Some "09:00:00") "09:00:00").
  - exact ex_scan_ok.
  - apply is_first_bestb_sound. vm_compute. reflexivity.
  - vm_compute. reflexivity.
  - reflexivity.
  - discriminate.
Defined.

Lemma scan_state_invariant_witness : scan_inv ex_meta ex_scan.
Proof. eapply scan_state_invariant. exact ex_scan_ok. Defined.

Lemma scan_discards_unknown_trip_witness : project "X" ex_scan = acc_init.
Proof. eapply scan_discards_unknown_trip; [exact ex_scan_ok|]. vm_compute. reflexivity. Defined.

End StopTimes.
