(* ===== verification/Tables.v ===== *)
(** * Tables: loading the GTFS tables (lines 123-180 of [main])

    Each table is read with [csv.DictReader], a row being a [Row] (a
    [gmap] from column names to strings), and folded into a dict by
    [res_foldl]:
    - [load_routes]: [route_id_by_short], the [route_id] of every route
      whose [route_short_name] is one of [LINES] (lines 124-129);
    - [load_calendar]: [services], one [CalendarService] per row of
      [calendar.txt], its dates parsed with [parse_yyyymmdd] and its seven
      weekday flags with [int] (lines 132-150);
    - [load_exceptions]: [exceptions], keyed by [(service_id, date)] with
      the raw date string (lines 153-156);
    - [load_stops]: [stop_name], the name of each stop or its id when the
      name is empty (lines 159-162);
    - [load_trips]: [trip_meta], the line, service and direction of every
      trip whose route is one of the lines (lines 166-180).
    In [d[k] = v] Python evaluates [v] before [k], so the right-hand side's
    exceptions come first; the definitions keep that order.

    The theorems: every table that loads gives a dict whose keys respect
    the filters of the code (only the four lines, only their trips), the
    calendar's flags have all seven days (so the [KeyError] of
    [daytypes_from_service] and the default of [is_service_active] never
    arise for a loaded service), and [trip_meta] keeps Python's insertion
    order. *)

From S2P Require Import Prelude PyDict PyDate DayRef Calendar Parse StopTimes.

Module Tables.
Import PyDict PyDate Calendar Parse StopTimes.
Local Open Scope Z_scope.

Definition LINES : list string := ["A"; "B"; "C"; "D"].

(** ** [routes.txt] *)

Definition routes_row (route_id_by_short : pydict string) (row : Row) : res (pydict string) :=
  match row !! "route_short_name" with
  | Some short =>
      if decide (short ∈ LINES) then
        (rid ← dict_get row "route_id"; Ok (pd_set route_id_by_short short rid))
      else Ok route_id_by_short
  | None => Ok route_id_by_short
  end.

Definition load_routes (rows : list Row) : res (pydict string) :=
  res_foldl routes_row pd_empty rows.

(** ** [calendar.txt] *)

Definition DAYS : list string :=
  ["monday"; "tuesday"; "wednesday"; "thursday"; "friday"; "saturday"; "sunday"].

(** [{d: int(row[d]) for d in [...]}]. *)
Fixpoint read_flags (row : Row) (days : list string) (acc : gmap string Z) : res (gmap string Z) :=
  match days with
  | [] => Ok acc
  | d :: ds => s ← dict_get row d; v ← py_int s; read_flags row ds (<[d := v]> acc)
  end.

Definition calendar_row (services : gmap string CalendarService) (row : Row)
    : res (gmap string CalendarService) :=
  sd_s ← dict_get row "start_date"; sd ← parse_yyyymmdd sd_s;
  ed_s ← dict_get row "end_date"; ed ← parse_yyyymmdd ed_s;
  fl ← read_flags row DAYS ∅;
  sid ← dict_get row "service_id";
  Ok (<[sid := {| start_date := sd; end_date := ed; flags := fl |}]> services).

Definition load_calendar (rows : list Row) : res (gmap string CalendarService) :=
  res_foldl calendar_row ∅ rows.

(** ** [calendar_dates.txt] *)

Definition exceptions_row (exceptions : gmap (string * string) Z) (row : Row)
    : res (gmap (string * string) Z) :=
  t_s ← dict_get row "exception_type"; t ← py_int t_s;
  sid ← dict_get row "service_id"; dte ← dict_get row "date";
  Ok (<[(sid, dte) := t]> exceptions).

Definition load_exceptions (rows : list Row) : res (gmap (string * string) Z) :=
  res_foldl exceptions_row ∅ rows.

(** ** [stops.txt] *)

(** [row.get("stop_name") or row["stop_id"]]: the subscript is evaluated
    only when the name is missing or empty. *)
Definition stops_row (stop_name : gmap string string) (row : Row) : res (gmap string string) :=
  name ← (match row !! "stop_name" with
          | Some s => if decide (s = "") then dict_get row "stop_id" else Ok s
          | None => dict_get row "stop_id"
          end);
  sid ← dict_get row "stop_id";
  Ok (<[sid := name]> stop_name).

Definition load_stops (rows : list Row) : res (gmap string string) :=
  res_foldl stops_row ∅ rows.

(** ** [trips.txt] *)

(** [next((sn for sn, route_id in route_id_by_short.items() if route_id == rid), None)]. *)
Definition line_of_route (route_id_by_short : pydict string) (rid : string) : option string :=
  fst <$> head (filter (λ p : string * string, p.2 = rid) (pd_items route_id_by_short)).

Definition trips_row (route_id_by_short : pydict string) (trip_meta : pydict TripMeta) (row : Row)
    : res (pydict TripMeta) :=
  rid ← dict_get row "route_id";
  match line_of_route route_id_by_short rid with
  | None => Ok trip_meta
  | Some line =>
      if decide (line = "") then Ok trip_meta else
      trip_id ← dict_get row "trip_id";
      direction_id ←
        (match row !! "direction_id" with
         | Some raw => if decide (raw = "") then Ok 0 else py_int raw
         | None => Ok 0
         end);
      sid ← dict_get row "service_id";
      Ok (pd_set trip_meta trip_id
            {| tm_line := line; tm_service_id := sid; tm_direction_id := direction_id |})
  end.

Definition load_trips (route_id_by_short : pydict string) (rows : list Row) : res (pydict TripMeta) :=
  res_foldl (trips_row route_id_by_short) pd_empty rows.

(** Sample tables: line A has route [R_A] with trips T1, T2 and T3; route
    [R_Z] is not one of [LINES], so its trip X is dropped. *)
Definition mkrow (kvs : list (string * string)) : Row := list_to_map kvs.

Definition ex_routes_rows : list Row :=
  [mkrow [("route_short_name", "A"); ("route_id", "R_A")];
   mkrow [("route_short_name", "Z"); ("route_id", "R_Z")]].

Definition ex_calendar_rows : list Row :=
  [mkrow [("service_id", "S"); ("start_date", "20240101"); ("end_date", "20241231");
          ("monday", "1"); ("tuesday", "1"); ("wednesday", "1"); ("thursday", "1");
          ("friday", "1"); ("saturday", "0"); ("sunday", "0")]].

Definition ex_trips_rows : list Row :=
  [mkrow [("route_id", "R_A"); ("trip_id", "T1"); ("service_id", "S"); ("direction_id", "0")];
   mkrow [("route_id", "R_A"); ("trip_id", "T2"); ("service_id", "S"); ("direction_id", "0")];
   mkrow [("route_id", "R_A"); ("trip_id", "T3"); ("service_id", "S"); ("direction_id", "1")];
   mkrow [("route_id", "R_Z"); ("trip_id", "X"); ("service_id", "S")]].

Definition ex_routes : pydict string :=
  match load_routes ex_routes_rows with Ok r => r | Err _ => pd_empty end.

Definition ex_trips : pydict TripMeta :=
  match load_trips ex_routes ex_trips_rows with Ok t => t | Err _ => pd_empty end.

Definition ex_calendar : gmap string CalendarService :=
  match load_calendar ex_calendar_rows with Ok c => c | Err _ => ∅ end.

(** ** What the loaded tables satisfy *)

Lemma line_of_route_key r rid line :
  pd_wf r → line_of_route r rid = Some line → line ∈ pd_keys r.
Proof.
  intros Hwf. unfold line_of_route.
  destruct (head _) as [[sn rid']|] eqn:E; simpl; [intros [= <-]|done].
  apply head_Some_elem_of, list_elem_of_filter in E as [_ E].
  apply (pd_items_spec _ _ _ Hwf) in E. apply (proj2 Hwf). by eexists.
Qed.

Lemma read_flags_keys row ds acc fl :
  read_flags row ds acc = Ok fl → ∀ d, d ∈ ds ∨ is_Some (acc !! d) → is_Some (fl !! d).
Proof.
  revert acc. induction ds as [|d' ds IH]; intros acc; simpl.
  { intros [= <-] d [?%not_elem_of_nil|?]; done. }
  intros H. res_simpl. intros d Hd.
  match goal with Hr : read_flags _ _ _ = Ok _ |- _ => apply (IH _ Hr) end.
  destruct (decide (d = d')) as [->|Hne]; [right; by rewrite lookup_insert_eq|].
  rewrite lookup_insert_ne by done. destruct Hd as [[->|Hd]%elem_of_cons|Hd]; [congruence|auto|auto].
Qed.

Lemma load_routes_inv route_rows r :
  load_routes route_rows = Ok r → pd_wf r ∧ ∀ k, k ∈ pd_keys r → k ∈ LINES.
Proof.
  intros Hr.
  refine (res_foldl_inv (λ r, pd_wf r ∧ ∀ k, k ∈ pd_keys r → k ∈ LINES) _ _ _ _ _ _ Hr);
    [|split; [apply pd_empty_wf|by intros k ?%not_elem_of_nil]].
  intros x row x' [Hwf Hl] H. unfold routes_row in H.
  destruct (row !! "route_short_name") as [short|]; [|by injection H as <-].
  case_decide as Hs; [|by injection H as <-]. res_simpl.
  split; [by apply pd_set_wf|]. intros k. unfold pd_set. simpl. case_decide; [auto|].
  rewrite elem_of_app, list_elem_of_singleton. intros [?| ->]; auto.
Qed.

Lemma load_trips_wf r trip_rows tm : load_trips r trip_rows = Ok tm → pd_wf tm.
Proof.
  intros Ht. refine (res_foldl_inv pd_wf _ _ _ _ _ _ Ht); [|apply pd_empty_wf].
  intros x row x' Hwf H. unfold trips_row in H. res_simpl.
  destruct (line_of_route r _) as [line|]; [|by simplify_eq].
  case_decide; [by simplify_eq|]. res_simpl. by apply pd_set_wf.
Qed.

Lemma load_trips_inv r trip_rows tm :
  pd_wf r → (∀ k, k ∈ pd_keys r → k ∈ LINES) → load_trips r trip_rows = Ok tm →
  pd_wf tm ∧ ∀ t meta, pd_map tm !! t = Some meta → tm_line meta ∈ LINES.
Proof.
  intros Hrwf Hrl Ht.
  refine (res_foldl_inv (λ tm, pd_wf tm ∧ ∀ t meta, pd_map tm !! t = Some meta → tm_line meta ∈ LINES)
    _ _ _ _ _ _ Ht); [|split; [apply pd_empty_wf|done]].
  intros x row x' [Hwf Hl] H. unfold trips_row in H. res_simpl.
  destruct (line_of_route r _) as [line|] eqn:El; [|simplify_eq; by split].
  case_decide; [simplify_eq; by split|]. res_simpl.
  split; [by apply pd_set_wf|]. intros t meta. rewrite pd_set_lookup.
  match goal with Hk : dict_get row "trip_id" = Ok ?tid |- _ => destruct (decide (t = tid)) as [->|Hne] end.
  - rewrite lookup_insert_eq. intros [= <-]. simpl. by eapply Hrl, line_of_route_key.
  - rewrite lookup_insert_ne by done. apply Hl.
Qed.

(** C10: [route_id_by_short] only has keys among [LINES], and [trip_meta]
    only has trips whose line is one of [LINES]: the trips of other routes
    are discarded when [trips.txt] is read.  Both dicts are well-formed
    insertion-ordered dicts. *)
Theorem loaded_trips_on_lines route_rows trip_rows r tm :
  load_routes route_rows = Ok r → load_trips r trip_rows = Ok tm →
  (pd_wf r ∧ ∀ k, k ∈ pd_keys r → k ∈ LINES) ∧
  (pd_wf tm ∧ ∀ t meta, pd_map tm !! t = Some meta → tm_line meta ∈ LINES).
Proof.
  intros Hr Ht. destruct (load_routes_inv _ _ Hr) as [Hrwf Hrl].
  split; [done|]. by eapply load_trips_inv.
Qed.

(** C25: Every service loaded from [calendar.txt] has a flag for each of the
    seven days, so [flags[d]] in [daytypes_from_service] cannot raise and
    the default [0] of [is_service_active] is never used for it. *)
Theorem loaded_calendar_flags rows services sid svc :
  load_calendar rows = Ok services → services !! sid = Some svc →
  ∀ d, d ∈ DAYS → is_Some (flags svc !! d).
Proof.
  intros Hc. revert sid svc.
  refine (res_foldl_inv (λ services, ∀ sid svc, services !! sid = Some svc →
            ∀ d, d ∈ DAYS → is_Some (flags svc !! d)) _ _ _ _ _ _ Hc).
  - intros x row x' Hx H. unfold calendar_row in H. res_simpl.
    intros sid svc.
    match goal with Hk : dict_get row "service_id" = Ok ?s |- _ => destruct (decide (sid = s)) as [->|Hne] end.
    + rewrite lookup_insert_eq. intros [= <-] d Hd. simpl. by eapply read_flags_keys; [|left].
    + rewrite lookup_insert_ne by done. apply Hx.
  - intros sid svc. by rewrite lookup_empty.
Qed.

Lemma loaded_trips_on_lines_witness :
  (pd_wf ex_routes ∧ ∀ k, k ∈ pd_keys ex_routes → k ∈ LINES) ∧
  (pd_wf ex_trips ∧ ∀ t meta, pd_map ex_trips !! t = Some meta → tm_line meta ∈ LINES).
Proof. apply (loaded_trips_on_lines ex_routes_rows ex_trips_rows); vm_compute; reflexivity. Defined.

Lemma loaded_calendar_flags_witness :
  is_Some (flags (default ex_service (ex_calendar !! "S")) !! "saturday").
Proof.
  apply (loaded_calendar_flags ex_calendar_rows ex_calendar "S"); [vm_compute; reflexivity..|].
  vm_compute. do 5 right. left.
Defined.

End Tables.
