(* ===== verification/Report.v ===== *)
(** * Report: the summary loop of [main] (lines 210-263)

    After the tables are loaded and [stop_times.txt] is scanned, [main]
    takes the three reference dates of [day_ref] (lines 212-221) and, for
    every line of [LINES], every day type and both directions, gathers the
    first departures and terminal stops of the line's trips whose service
    runs on the reference date, and passes them to the statistics of
    [Headway.summarize_bucket] (lines 223-261).  The summary is a dict
    [line -> day type -> direction -> bucket]; its insertion order is the
    loop order, which [json.dumps] keeps, so it is modelled as nested
    association lists.  [main_summary] composes the whole program, from the
    rows of the six tables to the summary; only reading the files and
    writing the JSON text are left out.

    The theorems: the three-way membership test of line 228-230 is the
    test [tid in first_departure_min] alone, by the scan's invariant; the
    gathering loop never raises [KeyError] and collects exactly the active
    trips of the bucket; every bucket of the summary has at least one trip
    and as many as the active trips; and the summary has the four lines as
    keys, in order. *)

From S2P Require Import Prelude PyDict PyDate DayRef Calendar Headway Parse StopTimes Tables.

Module Report.
Import PyDict PyDate DayRef Calendar Headway Parse StopTimes Tables.
Local Open Scope Z_scope.

#[local] Instance Q_inhabited : Inhabited Q := populate 0%Q.

(** ** Reference dates (lines 212-221)

    The day searches are loops with fuel; [fuel_res] takes their result.
    Its [None] case, fuel exhausted, never happens for a valid date
    ([DayRef.next_weekday_spec] and its siblings). *)
Definition fuel_res (o : option (res date)) : res date :=
  match o with Some r => r | None => raise OverflowError end.

Record DayRefs := { ref_weekday : date; ref_saturday : date; ref_sunday : date }.

Definition day_refs (today : date) : res DayRefs :=
  w ← fuel_res (next_weekday today);
  sa ← fuel_res (next_saturday today);
  su ← fuel_res (next_sunday today);
  Ok {| ref_weekday := w; ref_saturday := sa; ref_sunday := su |}.

Definition DAYTYPES : list string := ["weekday"; "saturday"; "sunday"].

(** [day_ref[dt]] for the three keys of [DAYTYPES]. *)
Definition day_ref_of (refs : DayRefs) (dt : string) : date :=
  if decide (dt = "weekday") then ref_weekday refs
  else if decide (dt = "saturday") then ref_saturday refs
  else ref_sunday refs.

(** ** One line (lines 224-231) *)

Definition trips_for_line (trip_meta : pydict TripMeta) (st : ScanState) (line : string) : list string :=
  fst <$> filter (λ tm : string * TripMeta,
                    tm_line tm.2 = line ∧ is_Some (first_departure_min st !! tm.1) ∧
                    is_Some (first_stop_id st !! tm.1) ∧ is_Some (last_stop_id st !! tm.1))
            (pd_items trip_meta).

(** ** One bucket (lines 235-246) *)

Record Gathered := mkGathered { g_times : list Q; g_firsts : list string; g_lasts : list string }.

Definition gather_step (trip_meta : pydict TripMeta) (st : ScanState)
    (services : gmap string CalendarService) (exceptions : gmap (string * string) Z)
    (ref_date : date) (direction_id : Z) (g : Gathered) (tid : string) : res Gathered :=
  meta ← dict_get (pd_map trip_meta) tid;
  if decide (tm_direction_id meta ≠ direction_id) then Ok g else
  if negb (is_service_active services exceptions (tm_service_id meta) ref_date) then Ok g else
  t ← dict_get (first_departure_min st) tid;
  f ← dict_get (first_stop_id st) tid;
  l ← dict_get (last_stop_id st) tid;
  Ok (mkGathered (g_times g ++ [t]) (g_firsts g ++ [f]) (g_lasts g ++ [l])).

Definition gather (trip_meta : pydict TripMeta) (st : ScanState)
    (services : gmap string CalendarService) (exceptions : gmap (string * string) Z)
    (ref_date : date) (direction_id : Z) (trips : list string) : res Gathered :=
  res_foldl (gather_step trip_meta st services exceptions ref_date direction_id)
    (mkGathered [] [] []) trips.

(** [str(direction_id)] for the two directions. *)
Definition str_dir (direction_id : Z) : string := if decide (direction_id = 0) then "0" else "1".

Definition DIRECTIONS : list Z := [0; 1].

(** ** The loops (lines 223-263) *)

Section Loops.
Context (trip_meta : pydict TripMeta) (st : ScanState).
Context (services : gmap string CalendarService) (exceptions : gmap (string * string) Z).
Context (stop_name : gmap string string).

(** The directions of one day type: a bucket is added when it has trips
    ([if not times: continue]). *)
Definition dir_step (trips : list string) (ref_date : date)
    (acc : list (string * Bucket)) (direction_id : Z) : res (list (string * Bucket)) :=
  g ← gather trip_meta st services exceptions ref_date direction_id trips;
  ob ← summarize_bucket stop_name (format_yyyymmdd ref_date) (g_times g) (g_firsts g) (g_lasts g);
  Ok (match ob with Some b => acc ++ [(str_dir direction_id, b)] | None => acc end).

(** [summary[line].setdefault(dt, {})] makes the day type a key when its
    first bucket is added. *)
Definition dt_step (refs : DayRefs) (trips : list string)
    (acc : list (string * list (string * Bucket))) (dt : string)
    : res (list (string * list (string * Bucket))) :=
  bs ← res_foldl (dir_step trips (day_ref_of refs dt)) [] DIRECTIONS;
  Ok (if decide (bs = []) then acc else acc ++ [(dt, bs)]).

Definition line_report (refs : DayRefs) (line : string) : res (list (string * list (string * Bucket))) :=
  res_foldl (dt_step refs (trips_for_line trip_meta st line)) [] DAYTYPES.

(** [summary = {sn: {} for sn in LINES}], then filled line by line. *)
Definition build_summary (refs : DayRefs)
    : res (list (string * list (string * list (string * Bucket)))) :=
  res_foldl (λ acc line, r ← line_report refs line; Ok (acc ++ [(line, r)])) [] LINES.

End Loops.

(** The trips of [trips] that a bucket keeps: the right direction and a
    service active on the reference date. *)
Definition bucket_active (trip_meta : pydict TripMeta) (services : gmap string CalendarService)
    (exceptions : gmap (string * string) Z) (ref_date : date) (direction_id : Z) (tid : string) : bool :=
  match pd_map trip_meta !! tid with
  | Some meta => bool_decide (tm_direction_id meta = direction_id) &&
                 is_service_active services exceptions (tm_service_id meta) ref_date
  | None => false
  end.

Definition active_trips (trip_meta : pydict TripMeta) (services : gmap string CalendarService)
    (exceptions : gmap (string * string) Z) (ref_date : date) (direction_id : Z) (trips : list string)
    : list string :=
  filter (λ tid, bucket_active trip_meta services exceptions ref_date direction_id tid = true) trips.

(** ** The whole program *)

Record GtfsFeed := {
  routes_rows : list Row; calendar_rows : list Row; calendar_dates_rows : list Row;
  stops_rows : list Row; trips_rows : list Row; stop_times_rows : list Row }.

Definition main_summary (feed : GtfsFeed) (today : date)
    : res (list (string * list (string * list (string * Bucket)))) :=
  route_id_by_short ← load_routes (routes_rows feed);
  services ← load_calendar (calendar_rows feed);
  exceptions ← load_exceptions (calendar_dates_rows feed);
  stop_name ← load_stops (stops_rows feed);
  trip_meta ← load_trips route_id_by_short (trips_rows feed);
  st ← scan_stop_times py_int parse_time_to_minutes (pd_map trip_meta) (stop_times_rows feed);
  refs ← day_refs today;
  build_summary trip_meta st services exceptions stop_name refs.

(** The buckets of a summary, each with its line, day type and direction. *)
Definition summary_buckets (s : list (string * list (string * list (string * Bucket))))
    : list (string * string * string * Bucket) :=
  s ≫= (λ l, l.2 ≫= (λ d, (λ b, (l.1, d.1, b.1, b.2)) <$> d.2)).

(** A sample feed: line A has two trips towards direction 0 and one towards
    direction 1 on weekdays; route Z is not one of [LINES]. *)
Definition ex_feed : GtfsFeed := {|
  routes_rows := ex_routes_rows;
  calendar_rows := ex_calendar_rows;
  calendar_dates_rows := [mkrow [("service_id", "S"); ("date", "20241105"); ("exception_type", "2")]];
  stops_rows := [mkrow [("stop_id", "P1"); ("stop_name", "Gare")]; mkrow [("stop_id", "P3"); ("stop_name", "")]];
  trips_rows := ex_trips_rows;
  stop_times_rows :=
    [mkrow [("trip_id", "T1"); ("stop_sequence", "1"); ("stop_id", "P1"); ("departure_time", "08:00:00")];
     mkrow [("trip_id", "T1"); ("stop_sequence", "2"); ("stop_id", "P3"); ("arrival_time", "08:30:00")];
     mkrow [("trip_id", "T2"); ("stop_sequence", "1"); ("stop_id", "P1"); ("departure_time", "08:15:00")];
     mkrow [("trip_id", "T2"); ("stop_sequence", "2"); ("stop_id", "P3"); ("arrival_time", "08:45:00")];
     mkrow [("trip_id", "T3"); ("stop_sequence", "1"); ("stop_id", "P3"); ("departure_time", "09:00:00")];
     mkrow [("trip_id", "T3"); ("stop_sequence", "2"); ("stop_id", "P1"); ("arrival_time", "09:30:00")];
     mkrow [("trip_id", "X"); ("stop_sequence", "1"); ("stop_id", "P1"); ("departure_time", "07:00:00")]] |}.

Definition ex_today : date := mkdate 2024 11 4.

Example main_summary_ex :
  (λ s, (fst <$> s, (λ x : string * string * string * Bucket,
           (x.1, b_trips x.2, b_start x.2, b_end x.2, b_median_min x.2,
            b_terminus_from x.2, b_terminus_to x.2)) <$> summary_buckets s))
    <$> main_summary ex_feed ex_today
  = Ok (["A"; "B"; "C"; "D"],
        [("A", "weekday", "0", 2, "08h00", "08h15", Some 15, "Gare", "P3");
         ("A", "weekday", "1", 1, "09h00", "09h00", None, "P3", "Gare")]).
Proof. vm_compute. reflexivity. Qed.

Definition ex_trip_meta : pydict TripMeta :=
  match load_routes (routes_rows ex_feed) ≫= λ r, load_trips r (trips_rows ex_feed) with
  | Ok tm => tm | Err _ => pd_empty end.

Definition ex_st : ScanState :=
  match scan_stop_times py_int parse_time_to_minutes (pd_map ex_trip_meta) (stop_times_rows ex_feed) with
  | Ok st => st | Err _ => scan_init end.

Definition ex_services : gmap string CalendarService :=
  match load_calendar (calendar_rows ex_feed) with Ok s => s | Err _ => ∅ end.

Definition ex_exceptions : gmap (string * string) Z :=
  match load_exceptions (calendar_dates_rows ex_feed) with Ok e => e | Err _ => ∅ end.

(** ** Lemmas *)

Lemma scan_inv_fdm (trip_meta : gmap string TripMeta) st t :
  scan_inv trip_meta st → is_Some (first_departure_min st !! t) →
  is_Some (first_stop_id st !! t) ∧ is_Some (last_stop_id st !! t).
Proof.
  intros Hinv. destruct (Hinv t) as [Hacc _]. unfold acc_ok, project in Hacc. simpl in Hacc.
  destruct (first_departure_min st !! t), (first_stop_seq st !! t), (first_stop_id st !! t),
    (last_stop_seq st !! t), (last_stop_id st !! t); simpl in Hacc; try done;
    intros [? Hx]; discriminate.
Qed.

Lemma trips_for_line_present trip_meta st line tid :
  pd_wf trip_meta → tid ∈ trips_for_line trip_meta st line →
  is_Some (pd_map trip_meta !! tid) ∧ is_Some (first_departure_min st !! tid) ∧
  is_Some (first_stop_id st !! tid) ∧ is_Some (last_stop_id st !! tid).
Proof.
  intros Hwf (x & -> & Hx)%list_elem_of_fmap. apply list_elem_of_filter in Hx as [(_ & H1 & H2 & H3) Hx].
  destruct x as [tid meta]. apply (pd_items_spec _ _ _ Hwf) in Hx. simpl in *. eauto.
Qed.

Lemma gather_step_present trip_meta st services exceptions ref_date dir g tid meta t f la :
  pd_map trip_meta !! tid = Some meta → first_departure_min st !! tid = Some t →
  first_stop_id st !! tid = Some f → last_stop_id st !! tid = Some la →
  gather_step trip_meta st services exceptions ref_date dir g tid =
    if bucket_active trip_meta services exceptions ref_date dir tid
    then Ok (mkGathered (g_times g ++ [t]) (g_firsts g ++ [f]) (g_lasts g ++ [la]))
    else Ok g.
Proof.
  intros Hm Ht Hf Hla. unfold gather_step, bucket_active. rewrite (dict_get_Some _ _ _ Hm), Hm.
  cbn [mbind res_bind]. destruct (decide (tm_direction_id meta = dir)) as [Hd|Hd].
  - rewrite decide_False by tauto. rewrite bool_decide_true by done. simpl.
    destruct (is_service_active _ _ _ _); simpl; [|done].
    by rewrite (dict_get_Some _ _ _ Ht), (dict_get_Some _ _ _ Hf), (dict_get_Some _ _ _ Hla).
  - rewrite decide_True by done. by rewrite bool_decide_false.
Qed.

Lemma gather_from trip_meta st services exceptions ref_date dir g l :
  (∀ tid, tid ∈ l → is_Some (pd_map trip_meta !! tid) ∧ is_Some (first_departure_min st !! tid) ∧
                    is_Some (first_stop_id st !! tid) ∧ is_Some (last_stop_id st !! tid)) →
  res_foldl (gather_step trip_meta st services exceptions ref_date dir) g l =
    Ok (mkGathered
      (g_times g ++ ((λ tid, first_departure_min st !!! tid) <$> active_trips trip_meta services exceptions ref_date dir l))
      (g_firsts g ++ ((λ tid, first_stop_id st !!! tid) <$> active_trips trip_meta services exceptions ref_date dir l))
      (g_lasts g ++ ((λ tid, last_stop_id st !!! tid) <$> active_trips trip_meta services exceptions ref_date dir l))).
Proof.
  revert g. induction l as [|tid l IH]; intros g Hl.
  { destruct g; simpl. by rewrite !app_nil_r. }
  destruct (Hl tid) as ([meta Hm] & [t Ht] & [f Hf] & [la Hla]); [left|].
  assert (∀ tid, tid ∈ l → _) as Hl' by (intros; apply Hl; by right). clear Hl.
  unfold active_trips. cbn [res_foldl]. rewrite (gather_step_present _ _ _ _ _ _ _ _ _ _ _ _ Hm Ht Hf Hla).
  destruct (bucket_active _ _ _ _ _ tid) eqn:Hb; cbn [mbind res_bind].
  - rewrite filter_cons_True by done. rewrite IH by done. cbn [g_times g_firsts g_lasts fmap list_fmap].
    rewrite (lookup_total_correct _ _ _ Ht), (lookup_total_correct _ _ _ Hf),
      (lookup_total_correct _ _ _ Hla), <-!app_assoc. done.
  - rewrite filter_cons_False by (by rewrite Hb). by apply IH.
Qed.

Lemma res_foldl_keys {A} (f : string → res A) acc0 l s :
  res_foldl (λ acc x, r ← f x; Ok (acc ++ [(x, r)])) acc0 l = Ok s →
  fst <$> s = (fst <$> acc0) ++ l.
Proof.
  revert acc0. induction l as [|x l IH]; intros acc0; simpl.
  { intros [= <-]. by rewrite app_nil_r. }
  destruct (f x) as [r|]; simpl; [|done]. intros H. rewrite (IH _ H), fmap_app, <-app_assoc. done.
Qed.

Lemma dir_step_good trip_meta st services exceptions stop_name trips ref acc dir acc' :
  Forall (λ b : string * Bucket, 1 ≤ b_trips b.2) acc →
  dir_step trip_meta st services exceptions stop_name trips ref acc dir = Ok acc' →
  Forall (λ b : string * Bucket, 1 ≤ b_trips b.2) acc'.
Proof.
  intros Hacc H. unfold dir_step in H. res_simpl.
  match goal with E : summarize_bucket _ _ _ _ _ = Ok ?ob |- _ => destruct ob as [b|]; [|done];
    destruct (summarize_bucket_inv _ _ _ _ _ _ E) as (Hne & Hb & _) end.
  apply Forall_app. split; [done|]. apply Forall_singleton. simpl. rewrite Hb.
  unfold len. destruct (g_times _); [done|]. simpl. lia.
Qed.


Lemma dt_step_good trip_meta st services exceptions stop_name refs trips acc dt acc' :
  Forall (λ d : string * list (string * Bucket), d.2 ≠ [] ∧ Forall (λ b : string * Bucket, 1 ≤ b_trips b.2) d.2) acc →
  dt_step trip_meta st services exceptions stop_name refs trips acc dt = Ok acc' →
  Forall (λ d : string * list (string * Bucket), d.2 ≠ [] ∧ Forall (λ b : string * Bucket, 1 ≤ b_trips b.2) d.2) acc'.
Proof.
  intros Hacc H. unfold dt_step in H. res_simpl.
  match goal with E : res_foldl _ _ _ = Ok ?bs |- _ =>
    assert (Forall (λ b : string * Bucket, 1 ≤ b_trips b.2) bs) as Hbs
      by (refine (res_foldl_inv _ _ _ _ _ _ _ E); [intros ? ? ?; apply dir_step_good|constructor]);
    case_decide; [done|]; apply Forall_app; split; [done|]; by apply Forall_singleton end.
Qed.

(** C22: The test of lines 228-230, [tid in first_departure_min and tid in
    first_stop_id and tid in last_stop_id], keeps the same trips as
    [tid in first_departure_min] alone: after the scan the last two hold
    whenever the first does. *)
Theorem trips_for_line_departure_only trip_meta st line :
  scan_inv (pd_map trip_meta) st →
  trips_for_line trip_meta st line =
    fst <$> filter (λ tm : string * TripMeta,
                      tm_line tm.2 = line ∧ is_Some (first_departure_min st !! tm.1))
              (pd_items trip_meta).
Proof.
  intros Hinv. unfold trips_for_line. f_equal. apply list_filter_iff.
  intros [tid meta]; simpl. split; [naive_solver|].
  intros [Hl Hd]. destruct (scan_inv_fdm _ _ tid Hinv Hd). auto.
Qed.

(** C15: Gathering a bucket (lines 236-246) never raises [KeyError] for the
    trips of a line, and returns, in the order of [trip_meta], the first
    departures, first stops and last stops of exactly the trips of the
    bucket's direction whose service runs on the reference date. *)
Theorem gather_active_trips trip_meta st services exceptions ref_date dir line :
  pd_wf trip_meta →
  gather trip_meta st services exceptions ref_date dir (trips_for_line trip_meta st line) =
    Ok (mkGathered
      ((λ tid, first_departure_min st !!! tid) <$> active_trips trip_meta services exceptions ref_date dir (trips_for_line trip_meta st line))
      ((λ tid, first_stop_id st !!! tid) <$> active_trips trip_meta services exceptions ref_date dir (trips_for_line trip_meta st line))
      ((λ tid, last_stop_id st !!! tid) <$> active_trips trip_meta services exceptions ref_date dir (trips_for_line trip_meta st line))).
Proof. intros Hwf. apply gather_from. intros tid. by apply trips_for_line_present. Qed.

(** C8: For each direction the loop adds a bucket exactly when some trip of
    the line runs in that direction on the reference date, and the
    bucket's [trips] is their number; otherwise the direction is skipped
    ([if not times: continue]). The step never fails. *)
Theorem bucket_of_active_trips trip_meta st services exceptions stop_name line ref acc dir :
  pd_wf trip_meta →
  let act := active_trips trip_meta services exceptions ref dir (trips_for_line trip_meta st line) in
  (act = [] ∧ dir_step trip_meta st services exceptions stop_name (trips_for_line trip_meta st line) ref acc dir = Ok acc) ∨
  (act ≠ [] ∧ ∃ b, dir_step trip_meta st services exceptions stop_name (trips_for_line trip_meta st line) ref acc dir
                     = Ok (acc ++ [(str_dir dir, b)]) ∧ b_trips b = Z.of_nat (length act)).
Proof.
  intros Hwf act. unfold dir_step, gather.
  rewrite gather_from by (intros tid; by apply trips_for_line_present). cbn [mbind res_bind g_times g_firsts g_lasts app].
  fold act. destruct (decide (act = [])) as [Hn|Hn].
  - left. split; [done|]. rewrite Hn. done.
  - right. split; [done|].
    destruct (summarize_bucket_some stop_name (format_yyyymmdd ref)
      ((λ tid, first_departure_min st !!! tid) <$> act) ((λ tid, first_stop_id st !!! tid) <$> act)
      ((λ tid, last_stop_id st !!! tid) <$> act)) as [b Hb]; [by destruct act..|].
    exists b. rewrite Hb. split; [done|].
    destruct (summarize_bucket_inv _ _ _ _ _ _ Hb) as (_ & -> & _).
    unfold len. by rewrite length_fmap.
Qed.

(** C26: The summary has the four lines as keys, in the order of [LINES],
    whatever the feed; lines without any bucket are kept with an empty
    dict. *)
Theorem summary_lines feed today s :
  main_summary feed today = Ok s → fst <$> s = LINES.
Proof.
  unfold main_summary. intros H. res_simpl.
  match goal with E : build_summary _ _ _ _ _ _ = Ok _ |- _ => apply res_foldl_keys in E; exact E end.
Qed.

(** C14: In the summary, every day type that is a key has at least one
    direction, and every bucket has at least one trip: empty buckets are
    omitted rather than written with nulls. *)
Theorem summary_buckets_nonempty feed today s :
  main_summary feed today = Ok s →
  Forall (λ l, Forall (λ d : string * list (string * Bucket),
                 d.2 ≠ [] ∧ Forall (λ b : string * Bucket, 1 ≤ b_trips b.2) d.2) l.2) s.
Proof.
  unfold main_summary. intros H. res_simpl.
  match goal with E : build_summary _ _ _ _ _ _ = Ok _ |- _ =>
    refine (res_foldl_inv _ _ _ _ _ _ _ E); [|constructor] end.
  intros acc line acc' Hacc Hs. res_simpl. apply Forall_app. split; [done|].
  apply Forall_singleton. simpl.
  match goal with E : line_report _ _ _ _ _ _ _ = Ok _ |- _ =>
    refine (res_foldl_inv _ _ _ _ _ _ _ E); [intros ? ? ?; apply dt_step_good|constructor] end.
Qed.

Lemma ex_scan_inv : scan_inv (pd_map ex_trip_meta) ex_st.
Proof.
  apply (scan_from_inv py_int parse_time_to_minutes (pd_map ex_trip_meta) scan_init (stop_times_rows ex_feed));
    [apply scan_inv_init|]. vm_compute. reflexivity.
Qed.

Lemma ex_trip_meta_wf : pd_wf ex_trip_meta.
Proof.
  apply (load_trips_wf (match load_routes (routes_rows ex_feed) with Ok r => r | Err _ => pd_empty end)
           (trips_rows ex_feed)).
  vm_compute. reflexivity.
Qed.

Lemma trips_for_line_departure_only_witness :
  trips_for_line ex_trip_meta ex_st "A" =
    fst <$> filter (λ tm : string * TripMeta,
                      tm_line tm.2 = "A" ∧ is_Some (first_departure_min ex_st !! tm.1))
              (pd_items ex_trip_meta).
Proof. apply trips_for_line_departure_only. exact ex_scan_inv. Defined.

Lemma gather_active_trips_witness :
  gather ex_trip_meta ex_st ex_services ex_exceptions ex_today 0 (trips_for_line ex_trip_meta ex_st "A") =
    Ok (mkGathered
      ((λ tid, first_departure_min ex_st !!! tid) <$> active_trips ex_trip_meta ex_services ex_exceptions ex_today 0 (trips_for_line ex_trip_meta ex_st "A"))
      ((λ tid, first_stop_id ex_st !!! tid) <$> active_trips ex_trip_meta ex_services ex_exceptions ex_today 0 (trips_for_line ex_trip_meta ex_st "A"))
      ((λ tid, last_stop_id ex_st !!! tid) <$> active_trips ex_trip_meta ex_services ex_exceptions ex_today 0 (trips_for_line ex_trip_meta ex_st "A"))).
Proof. apply gather_active_trips. exact ex_trip_meta_wf. Defined.

Lemma bucket_of_active_trips_witness :
  let act := active_trips ex_trip_meta ex_services ex_exceptions ex_today 0 (trips_for_line ex_trip_meta ex_st "A") in
  (act = [] ∧ dir_step ex_trip_meta ex_st ex_services ex_exceptions ∅ (trips_for_line ex_trip_meta ex_st "A") ex_today [] 0 = Ok []) ∨
  (act ≠ [] ∧ ∃ b, dir_step ex_trip_meta ex_st ex_services ex_exceptions ∅ (trips_for_line ex_trip_meta ex_st "A") ex_today [] 0
                     = Ok ([] ++ [(str_dir 0, b)]) ∧ b_trips b = Z.of_nat (length act)).
Proof. apply bucket_of_active_trips. exact ex_trip_meta_wf. Defined.

Definition ex_summary : list (string * list (string * list (string * Bucket))) :=
  match main_summary ex_feed ex_today with Ok s => s | Err _ => [] end.

Lemma summary_lines_witness : fst <$> ex_summary = LINES.
Proof. apply (summary_lines ex_feed ex_today). vm_compute. reflexivity. Defined.

Lemma summary_buckets_nonempty_witness :
  Forall (λ l, Forall (λ d : string * list (string * Bucket),
                 d.2 ≠ [] ∧ Forall (λ b : string * Bucket, 1 ≤ b_trips b.2) d.2) l.2) ex_summary.
Proof. apply (summary_buckets_nonempty ex_feed ex_today). vm_compute. reflexivity. Defined.

End Report.
